(** * A shallow embedding of the multi-tenant caching platform

    The development follows the Python sources of [caching_platform]:
    - [core/cache_manager.py]  : [MultiTenantCacheManager]
    - [core/auto_scaler.py]    : [AutoScaler]
    - [core/load_balancer.py]  : [LoadBalancer]
    - [core/orchestrator.py]   : [CacheOrchestrator.execute_command]

    Conventions.
    - Python objects that are mutated in place ([self], the dicts it owns)
      become explicit states that every method threads through.
    - A Python [float] is modelled by an exact rational ([Q]); every
      comparison the code makes is a comparison of the two rationals.
    - [time.time()] is an argument of the method that reads the clock; the
      backend keeps time by the same clock, and serves the commands of a
      call at the time the call has read.
    - A raised exception is the [Raised] outcome; the state reached when the
      exception is raised is kept, as in Python.
    - A coroutine runs from its call to its return without another task of
      the event loop in between; a background loop is one pass of its body.
    - Strings are byte strings, so [s.encode()] is the identity. *)

From Stdlib Require Import ZArith QArith String List Ascii Lia Bool DecimalString.
From stdpp Require Import base gmap strings list.

Local Open Scope string_scope.
Local Open Scope Z_scope.

(* ===================================================================== *)
(** ** Python-level plumbing: exceptions and state *)
(* ===================================================================== *)

Module Py.

Inductive exn : Type :=
| KeyError
| IndexError
| AttributeError
| ZeroDivisionError
| TypeError            (* json.dumps on a value that is not serializable; a list or a dict used as a dict key *)
| JSONDecodeError      (* json.loads on a payload that is not JSON *)
| ConnectionError      (* redis: the backend cannot be reached *)
| ResponseError.       (* redis: the backend refuses the command *)

Inductive outcome (A : Type) : Type :=
| Returned (a : A)
| Raised (e : exn).
Arguments Returned {A} a.
Arguments Raised {A} e.

(** A method of an object with state [S]. *)
Definition M (S A : Type) : Type := S -> outcome A * S.

Definition ret {S A} (a : A) : M S A := fun s => (Returned a, s).
Definition raise {S A} (e : exn) : M S A := fun s => (Raised e, s).
Definition bind {S A B} (c : M S A) (k : A -> M S B) : M S B :=
  fun s => match c s with
           | (Returned a, s') => k a s'
           | (Raised e, s') => (Raised e, s')
           end.
Definition get_self {S} : M S S := fun s => (Returned s, s).
Definition put_self {S} (s' : S) : M S unit := fun _ => (Returned tt, s').
Definition modify {S} (f : S -> S) : M S unit := fun s => (Returned tt, f s).

(** [try: body  except Exception as e: handler]. *)
Definition try_except {S A} (body : M S A) (handler : exn -> M S A) : M S A :=
  fun s => match body s with
           | (Returned a, s') => (Returned a, s')
           | (Raised e, s') => handler e s'
           end.

(** [d[k]] on a dict: [KeyError] when the key is absent. *)
Definition getitem {S A} (o : option A) : M S A :=
  match o with
  | Some a => ret a
  | None => raise KeyError
  end.

(** Run a method of a component [T] held in a field of [S]. *)
Definition zoom {S T A} (proj : S -> T) (upd : T -> S -> S) (c : M T A) : M S A :=
  fun s => match c (proj s) with
           | (o, t') => (o, upd t' s)
           end.

Definition result {S A} (r : outcome A * S) : outcome A := fst r.
Definition final {S A} (r : outcome A * S) : S := snd r.

(** The method [c] leaves the part [proj] of the state as it finds it,
    whether it returns or raises. *)
Definition keeps {S A B} (proj : S -> B) (c : M S A) : Prop :=
  forall s, proj (final (c s)) = proj s.

Declare Scope py_scope.
Delimit Scope py_scope with py.
Notation "x <- c ;; k" := (bind c (fun x => k))
  (at level 100, c at next level, right associativity) : py_scope.
Notation "c ;;; k" := (bind c (fun _ => k))
  (at level 100, right associativity) : py_scope.

(** Float comparisons [x < y] and [x > y]. *)
Definition Qltb (x y : Q) : bool := negb (Qle_bool y x).
Definition Qgtb (x y : Q) : bool := Qltb y x.

(** [len(s.encode('utf-8'))] / [len(bytes)]: strings are byte strings. *)
Definition len (s : string) : Z := Z.of_nat (String.length s).

(** [str(n)] and [int(s)] on decimal integers. *)
Definition str_of_int (n : Z) : string := NilZero.string_of_int (Z.to_int n).
Definition int_of_str (s : string) : option Z :=
  option_map Z.of_int (NilZero.int_of_string s).

(** A [dict] with string keys, in insertion order: assigning to a key that
    is present keeps its position, a new key goes to the end. *)
Module Dict.
Section Dict.
Context {V : Type}.

Fixpoint get (k : string) (d : list (string * V)) : option V :=
  match d with
  | [] => None
  | (k', v) :: rest => if String.eqb k k' then Some v else get k rest
  end.

Fixpoint set (k : string) (v : V) (d : list (string * V)) : list (string * V) :=
  match d with
  | [] => [(k, v)]
  | (k', v') :: rest =>
      if String.eqb k k' then (k, v) :: rest else (k', v') :: set k v rest
  end.

Fixpoint del (k : string) (d : list (string * V)) : list (string * V) :=
  match d with
  | [] => []
  | (k', v') :: rest =>
      if String.eqb k k' then rest else (k', v') :: del k rest
  end.

Definition mem (k : string) (d : list (string * V)) : bool :=
  match get k d with Some _ => true | None => false end.

Definition keys (d : list (string * V)) : list string := List.map fst d.
Definition values (d : list (string * V)) : list V := List.map snd d.
End Dict.
End Dict.

End Py.
Import Py.
Local Open Scope py_scope.

(* ===================================================================== *)
(** ** The Redis backend, as the cache manager uses it *)
(* ===================================================================== *)

(** Only the commands the manager issues are modelled.  An entry keeps the
    payload and the time-to-live it was written with, and [since] keeps the
    time at which an entry with a time-to-live was written.  The server
    reads the same clock as the manager: a command that a method called at
    [now] issues is served at [now].  An entry whose time-to-live has run
    out is seen by no command.  [calls] records every command the client
    issues, so that "does not touch the backend" is observable. *)
Module Redis.

Inductive command : Type :=
| GET (k : string)
| SET (k v : string)
| SETEX (k : string) (ttl : Z) (v : string)
| DEL (k : string)
| INCRBY (k : string) (n : Z)
| DECRBY (k : string) (n : Z)
| MGET (ks : list string)
| MSET (kvs : list (string * string)).

Record t : Type := mk {
  store : gmap string (string * option Z);
  since : gmap string Q;
  calls : list command;
  available : bool
}.

Definition with_store (f : gmap string (string * option Z) -> gmap string (string * option Z))
    (r : t) : t :=
  {| store := f (store r); since := since r; calls := calls r; available := available r |}.

Definition with_since (f : gmap string Q -> gmap string Q) (r : t) : t :=
  {| store := store r; since := f (since r); calls := calls r; available := available r |}.

Definition log (c : command) (r : t) : t :=
  {| store := store r; since := since r; calls := calls r ++ [c];
     available := available r |}.

(** Every command is first put on the wire; an unreachable backend makes
    the client raise. *)
Definition issue {A} (c : command) (run : M t A) : M t A :=
  fun r =>
    let r' := log c r in
    if available r' then run r' else (Raised ConnectionError, r').

(** Whether the entry under [k] has outlived its time-to-live when the
    clock reads [now]: the key is expired once the clock is past the time
    of the write plus the time-to-live (in seconds). *)
Definition expired (r : t) (now : Q) (k : string) : bool :=
  match store r !! k with
  | Some (_, Some ttl) => Qltb (default 0%Q (since r !! k) + inject_Z ttl) now
  | _ => false
  end.

(** The entry a command served at [now] finds under [k]. *)
Definition lookup (r : t) (now : Q) (k : string) : option (string * option Z) :=
  if expired r now k then None else store r !! k.

(** What the backend holds under [k]: the entry and its time stamp. *)
Definition cell (r : t) (k : string) : option (string * option Z) * option Q :=
  (store r !! k, since r !! k).

Definition get (now : Q) (k : string) : M t (option string) :=
  issue (GET k) (r <- get_self ;; ret (fst <$> lookup r now k)).

Definition set (k v : string) : M t unit :=
  issue (SET k v) (modify (with_store (insert k (v, None)))).

Definition setex (now : Q) (k : string) (ttl : Z) (v : string) : M t unit :=
  issue (SETEX k ttl v)
    (if ttl <=? 0 then raise ResponseError
     else modify (fun r => with_since (insert k now)
                             (with_store (insert k (v, Some ttl)) r))).

Definition delete (now : Q) (k : string) : M t Z :=
  issue (DEL k)
    (r <- get_self ;;
     match lookup r now k with
     | Some _ => modify (with_store (base.delete k)) ;;; ret 1
     | None => ret 0
     end).

Definition int64 (n : Z) : bool := (- 2 ^ 63 <=? n) && (n <? 2 ^ 63).

(** INCRBY / DECRBY share the server-side routine: a missing key counts as
    0, a payload that is not a 64-bit integer (or a result that is not) is
    refused, the time-to-live is kept. *)
Definition add_to (now : Q) (k : string) (delta : Z) : M t Z :=
  r <- get_self ;;
  let old := match lookup r now k with
             | Some (v, ttl) => option_map (fun n => (n, ttl)) (int_of_str v)
             | None => Some (0, None)
             end in
  match old with
  | Some (n, ttl) =>
      if int64 n && int64 (n + delta)
      then modify (with_store (insert k (str_of_int (n + delta), ttl))) ;;; ret (n + delta)
      else raise ResponseError
  | None => raise ResponseError
  end.

Definition incrby (now : Q) (k : string) (n : Z) : M t Z :=
  issue (INCRBY k n) (add_to now k n).
Definition decrby (now : Q) (k : string) (n : Z) : M t Z :=
  issue (DECRBY k n) (add_to now k (- n)).

Definition mget (now : Q) (ks : list string) : M t (list (option string)) :=
  issue (MGET ks)
    (match ks with
     | [] => raise ResponseError
     | _ => r <- get_self ;; ret (List.map (fun k => fst <$> lookup r now k) ks)
     end).

Definition mset (kvs : list (string * string)) : M t unit :=
  issue (MSET kvs)
    (match kvs with
     | [] => raise ResponseError
     | _ => modify (with_store (fun st =>
              List.fold_left (fun acc kv => <[fst kv := (snd kv, None)]> acc) kvs st))
     end).

End Redis.

(* ===================================================================== *)
(** ** config/schemas.py *)
(* ===================================================================== *)

Inductive TenantStatus : Type := ACTIVE | SUSPENDED | PENDING | DELETED.

Record Tenant : Type := mkTenant {
  id : string;
  name : string;
  status : TenantStatus;
  memory_limit_mb : Z;
  requests_per_second : Z;
  max_connections : Z
}.

Record CacheMetrics : Type := mkCacheMetrics {
  total_requests : Z;
  successful_requests : Z;
  failed_requests : Z;
  cache_hits : Z;
  cache_misses : Z;
  hit_ratio : Q;
  average_response_time_ms : Q;
  memory_used_mb : Q;
  error_rate : Q
}.

(** [CacheMetrics()] *)
Definition CacheMetrics_default : CacheMetrics :=
  mkCacheMetrics 0 0 0 0 0 0%Q 0%Q 0%Q 0%Q.

(** The validators of [Tenant] that concern the quotas. *)
Definition Tenant_valid (t : Tenant) : Prop :=
  64 <= memory_limit_mb t <= 8192 /\ 1 <= requests_per_second t <= 10000.

(** [json.dumps] / [json.loads] are library functions; the manager is
    parametric in them.  [None] stands for the exception they raise. *)
Class JsonCodec (Value : Type) : Type := {
  json_dumps : Value -> option string;
  json_loads : string -> option Value
}.

(** The codec restricted to integer values: [json.dumps(42) == "42"]. *)
#[global] Instance int_codec : JsonCodec Z := {|
  json_dumps := fun n => Some (str_of_int n);
  json_loads := int_of_str
|}.

(* ===================================================================== *)
(** ** core/cache_manager.py : MultiTenantCacheManager *)
(* ===================================================================== *)

Module CacheManager.

(** The attributes of [self] that the data-plane methods read or write. *)
Record t : Type := mk {
  tenants : gmap string Tenant;
  tenant_metrics : gmap string CacheMetrics;
  tenant_connections : gmap string Z;
  rate_limiters : gmap string (gmap string Q);
  total_operations : Z;
  total_hits : Z;
  total_misses : Z;
  redis_client : Redis.t
}.

Definition set_tenant_metrics (f : gmap string CacheMetrics -> gmap string CacheMetrics)
    (s : t) : t :=
  {| tenants := tenants s; tenant_metrics := f (tenant_metrics s);
     tenant_connections := tenant_connections s; rate_limiters := rate_limiters s;
     total_operations := total_operations s; total_hits := total_hits s; total_misses := total_misses s;
     redis_client := redis_client s |}.

Definition set_rate_limiters (f : gmap string (gmap string Q) -> gmap string (gmap string Q))
    (s : t) : t :=
  {| tenants := tenants s; tenant_metrics := tenant_metrics s;
     tenant_connections := tenant_connections s; rate_limiters := f (rate_limiters s);
     total_operations := total_operations s; total_hits := total_hits s; total_misses := total_misses s;
     redis_client := redis_client s |}.

Definition set_total_hits (n : Z) (s : t) : t :=
  {| tenants := tenants s; tenant_metrics := tenant_metrics s;
     tenant_connections := tenant_connections s; rate_limiters := rate_limiters s;
     total_operations := total_operations s; total_hits := n; total_misses := total_misses s;
     redis_client := redis_client s |}.

Definition set_total_misses (n : Z) (s : t) : t :=
  {| tenants := tenants s; tenant_metrics := tenant_metrics s;
     tenant_connections := tenant_connections s; rate_limiters := rate_limiters s;
     total_operations := total_operations s; total_hits := total_hits s; total_misses := n;
     redis_client := redis_client s |}.

Definition set_redis_client (r : Redis.t) (s : t) : t :=
  {| tenants := tenants s; tenant_metrics := tenant_metrics s;
     tenant_connections := tenant_connections s; rate_limiters := rate_limiters s;
     total_operations := total_operations s; total_hits := total_hits s; total_misses := total_misses s;
     redis_client := r |}.

Definition set_tenants (f : gmap string Tenant -> gmap string Tenant) (s : t) : t :=
  {| tenants := f (tenants s); tenant_metrics := tenant_metrics s;
     tenant_connections := tenant_connections s; rate_limiters := rate_limiters s;
     total_operations := total_operations s; total_hits := total_hits s; total_misses := total_misses s;
     redis_client := redis_client s |}.

(** [self.tenants[tenant_id].status = st], for a registered tenant. *)
Definition with_status (st : TenantStatus) (tn : Tenant) : Tenant :=
  mkTenant (id tn) (name tn) st (memory_limit_mb tn) (requests_per_second tn)
    (max_connections tn).
Definition set_status (tenant_id : string) (st : TenantStatus) (s : t) : t :=
  set_tenants (alter (with_status st) tenant_id) s.

(** [await self.redis_client.<command>(...)] *)
Definition redis {A} (c : M Redis.t A) : M t A := zoom redis_client set_redis_client c.

(** The manager after its client has put [c] on the wire. *)
Definition logged (c : Redis.command) (s : t) : t :=
  set_redis_client (Redis.log c (redis_client s)) s.

(** In-place updates of one [CacheMetrics] record. *)
Definition with_memory_used_mb (x : Q) (m : CacheMetrics) : CacheMetrics :=
  mkCacheMetrics (total_requests m) (successful_requests m) (failed_requests m)
    (cache_hits m) (cache_misses m) (hit_ratio m) (average_response_time_ms m)
    x (error_rate m).
Definition with_cache_hits (n : Z) (m : CacheMetrics) : CacheMetrics :=
  mkCacheMetrics (total_requests m) (successful_requests m) (failed_requests m)
    n (cache_misses m) (hit_ratio m) (average_response_time_ms m)
    (memory_used_mb m) (error_rate m).
Definition with_cache_misses (n : Z) (m : CacheMetrics) : CacheMetrics :=
  mkCacheMetrics (total_requests m) (successful_requests m) (failed_requests m)
    (cache_hits m) n (hit_ratio m) (average_response_time_ms m)
    (memory_used_mb m) (error_rate m).

(** [self.tenant_metrics[tenant_id].<field> = ...]: [KeyError] when the
    tenant has no metrics record. *)
Definition update_metrics (tenant_id : string) (f : CacheMetrics -> CacheMetrics) : M t unit :=
  s <- get_self ;;
  m <- getitem (tenant_metrics s !! tenant_id) ;;
  modify (set_tenant_metrics (insert tenant_id (f m))).

(** The rate-limit key [f"rate:{operation}"]. *)
Definition rate_key (operation : string) : string := String.append "rate:" operation.

(** [self.rate_limiters[tenant_id].get(rate_key, 0)] once the tenant's
    dict exists; 0 also stands for a tenant without dict. *)
Definition last_request (s : t) (tenant_id operation : string) : Q :=
  match rate_limiters s !! tenant_id with
  | Some d => default 0%Q (d !! rate_key operation)
  | None => 0%Q
  end.

(** The tenant's limiter dict, empty when it has none yet, and the state
    after [if tenant_id not in self.rate_limiters:
    self.rate_limiters[tenant_id] = {}]. *)
Definition limiter_of (s : t) (tenant_id : string) : gmap string Q :=
  default ∅ (rate_limiters s !! tenant_id).
Definition with_limiter (tenant_id : string) (s : t) : t :=
  match rate_limiters s !! tenant_id with
  | None => set_rate_limiters (insert tenant_id ∅) s
  | Some _ => s
  end.

(** [_check_tenant_quota(tenant_id, operation)], the clock reading [now]
    being [time.time()]. *)
Definition _check_tenant_quota (tenant_id operation : string) (now : Q) : M t bool :=
  s <- get_self ;;
  match tenants s !! tenant_id with
  | None => ret false
  | Some tenant =>
      metrics <- getitem (tenant_metrics s !! tenant_id) ;;
      (* Check memory quota *)
      if Qgtb (memory_used_mb metrics) (inject_Z (memory_limit_mb tenant)) then ret false
      else
        (* Check rate limiting *)
        let current_time := now in
        (match rate_limiters s !! tenant_id with
         | None => modify (set_rate_limiters (insert tenant_id ∅))
         | Some _ => ret tt
         end) ;;;
        s <- get_self ;;
        limiter <- getitem (rate_limiters s !! tenant_id) ;;
        let last_request := default 0%Q (limiter !! rate_key operation) in
        if requests_per_second tenant =? 0 then raise ZeroDivisionError
        else if Qltb (current_time - last_request)
                     (1 / inject_Z (requests_per_second tenant))
        then ret false
        else
          modify (set_rate_limiters
                    (insert tenant_id (<[rate_key operation := current_time]> limiter))) ;;;
          ret true
  end.

(** [_get_cache_key]: [f"cache:{tenant_id}:{key}"]. *)
Definition _get_cache_key (tenant_id key : string) : string :=
  String.append "cache:" (String.append tenant_id (String.append ":" key)).

(** The body of [_update_operation_metrics] on the tenant's record. *)
Definition updated_metrics (response_time : Q) (success : bool) (m : CacheMetrics)
    : CacheMetrics :=
  let total := total_requests m + 1 in
  let ok := if success then successful_requests m + 1 else successful_requests m in
  let failed := if success then failed_requests m else failed_requests m + 1 in
  let avg :=
    if Qgtb response_time 0
    then ((average_response_time_ms m * inject_Z (total - 1) + response_time)
          / inject_Z total)%Q
    else average_response_time_ms m in
  let total_operations := cache_hits m + cache_misses m in
  let ratio :=
    if total_operations >? 0
    then (inject_Z (cache_hits m) / inject_Z total_operations * 100)%Q
    else hit_ratio m in
  let err :=
    if total >? 0 then (inject_Z failed / inject_Z total * 100)%Q else error_rate m in
  mkCacheMetrics total ok failed (cache_hits m) (cache_misses m) ratio avg
    (memory_used_mb m) err.

Definition _update_operation_metrics (tenant_id operation : string)
    (response_time : Q) (success : bool) : M t unit :=
  s <- get_self ;;
  match tenant_metrics s !! tenant_id with
  | None => ret tt
  | Some m =>
      modify (set_tenant_metrics (insert tenant_id (updated_metrics response_time success m)))
  end.

(** [1024 * 1024] *)
Definition MiB : Q := inject_Z (1024 * 1024).

(** Python truthiness of an [Optional[int]] and of [Optional[bytes]]. *)
Definition truthy_int (o : option Z) : bool :=
  match o with Some n => negb (n =? 0) | None => false end.
Definition truthy_bytes (o : option string) : bool :=
  match o with Some s => negb (Py.len s =? 0) | None => false end.

Section Operations.

Context {Value : Type} `{JsonCodec Value}.

Definition dumps (v : Value) : M t string :=
  match json_dumps v with Some s => ret s | None => raise TypeError end.
Definition loads (s : string) : M t Value :=
  match json_loads s with Some v => ret v | None => raise JSONDecodeError end.

(** [get(tenant_id, key, default)].  [now] is the clock read by the
    admission check, and the time at which the backend serves the
    commands of this call; [response_time] is the measured
    [(time.time() - start_time) * 1000]. *)
Definition get (tenant_id key : string) (default : option Value) (now response_time : Q)
    : M t (option Value) :=
  try_except
    (admitted <- _check_tenant_quota tenant_id "get" now ;;
     if negb admitted then ret default
     else
       let cache_key := _get_cache_key tenant_id key in
       value <- redis (Redis.get now cache_key) ;;
       match value with
       | Some payload =>
           (* Cache hit *)
           modify (fun s => set_total_hits (total_hits s + 1) s) ;;;
           update_metrics tenant_id (fun m => with_cache_hits (cache_hits m + 1) m) ;;;
           result <- loads payload ;;
           _update_operation_metrics tenant_id "get" response_time true ;;;
           ret (Some result)
       | None =>
           (* Cache miss *)
           modify (fun s => set_total_misses (total_misses s + 1) s) ;;;
           update_metrics tenant_id (fun m => with_cache_misses (cache_misses m + 1) m) ;;;
           _update_operation_metrics tenant_id "get" response_time false ;;;
           ret default
       end)
    (fun _ => _update_operation_metrics tenant_id "get" 0 false ;;; ret default).

(** The size in MB that [set] and [mset] account for the payload. *)
Definition value_size_mb (serialized_value : string) : Q :=
  (inject_Z (Py.len serialized_value) / MiB)%Q.

(** [set(tenant_id, key, value, ttl)] *)
Definition set (tenant_id key : string) (value : Value) (ttl : option Z)
    (now response_time : Q) : M t bool :=
  try_except
    (admitted <- _check_tenant_quota tenant_id "set" now ;;
     if negb admitted then ret false
     else
       let cache_key := _get_cache_key tenant_id key in
       serialized_value <- dumps value ;;
       (* Check memory usage before setting *)
       let value_size := value_size_mb serialized_value in
       s <- get_self ;;
       metrics <- getitem (tenant_metrics s !! tenant_id) ;;
       let current_memory := memory_used_mb metrics in
       tenant <- getitem (tenants s !! tenant_id) ;;
       if Qgtb (current_memory + value_size) (inject_Z (memory_limit_mb tenant))
       then ret false
       else
         (* Set value in Redis *)
         (if truthy_int ttl
          then redis (Redis.setex now cache_key (default 0 ttl) serialized_value)
          else redis (Redis.set cache_key serialized_value)) ;;;
         (* Update memory usage *)
         update_metrics tenant_id
           (fun m => with_memory_used_mb (memory_used_mb m + value_size) m) ;;;
         _update_operation_metrics tenant_id "set" response_time true ;;;
         ret true)
    (fun _ => _update_operation_metrics tenant_id "set" 0 false ;;; ret false).

(** [delete(tenant_id, key)] *)
Definition delete (tenant_id key : string) (now response_time : Q) : M t bool :=
  try_except
    (admitted <- _check_tenant_quota tenant_id "delete" now ;;
     if negb admitted then ret false
     else
       let cache_key := _get_cache_key tenant_id key in
       (* Get value size before deletion for memory tracking *)
       value <- redis (Redis.get now cache_key) ;;
       (if truthy_bytes value
        then
          let value_size := (inject_Z (Py.len (default EmptyString value)) / MiB)%Q in
          update_metrics tenant_id
            (fun m => with_memory_used_mb (memory_used_mb m - value_size) m)
        else ret tt) ;;;
       (* Delete from Redis *)
       result <- redis (Redis.delete now cache_key) ;;
       let success := result >? 0 in
       _update_operation_metrics tenant_id "delete" response_time success ;;;
       ret success)
    (fun _ => _update_operation_metrics tenant_id "delete" 0 false ;;; ret false).

(** [incr(tenant_id, key, amount)] and [decr(tenant_id, key, amount)] *)
Definition incr (tenant_id key : string) (amount : Z) (now response_time : Q)
    : M t (option Z) :=
  try_except
    (admitted <- _check_tenant_quota tenant_id "incr" now ;;
     if negb admitted then ret None
     else
       let cache_key := _get_cache_key tenant_id key in
       result <- redis (Redis.incrby now cache_key amount) ;;
       _update_operation_metrics tenant_id "incr" response_time true ;;;
       ret (Some result))
    (fun _ => _update_operation_metrics tenant_id "incr" 0 false ;;; ret None).

Definition decr (tenant_id key : string) (amount : Z) (now response_time : Q)
    : M t (option Z) :=
  try_except
    (admitted <- _check_tenant_quota tenant_id "decr" now ;;
     if negb admitted then ret None
     else
       let cache_key := _get_cache_key tenant_id key in
       result <- redis (Redis.decrby now cache_key amount) ;;
       _update_operation_metrics tenant_id "decr" response_time true ;;;
       ret (Some result))
    (fun _ => _update_operation_metrics tenant_id "decr" 0 false ;;; ret None).

(** The loop of [mget] over the returned slots. *)
Fixpoint deserialize (tenant_id : string) (values : list (option string))
    : M t (list (option Value)) :=
  match values with
  | [] => ret []
  | Some payload :: rest =>
      v <- loads payload ;;
      modify (fun s => set_total_hits (total_hits s + 1) s) ;;;
      update_metrics tenant_id (fun m => with_cache_hits (cache_hits m + 1) m) ;;;
      vs <- deserialize tenant_id rest ;;
      ret (Some v :: vs)
  | None :: rest =>
      modify (fun s => set_total_misses (total_misses s + 1) s) ;;;
      update_metrics tenant_id (fun m => with_cache_misses (cache_misses m + 1) m) ;;;
      vs <- deserialize tenant_id rest ;;
      ret (None :: vs)
  end.

(** [mget(tenant_id, keys)] *)
Definition mget (tenant_id : string) (keys : list string) (now response_time : Q)
    : M t (list (option Value)) :=
  let nones := List.map (fun _ => None) keys in
  try_except
    (admitted <- _check_tenant_quota tenant_id "mget" now ;;
     if negb admitted then ret nones
     else
       let cache_keys := List.map (_get_cache_key tenant_id) keys in
       values <- redis (Redis.mget now cache_keys) ;;
       result <- deserialize tenant_id values ;;
       _update_operation_metrics tenant_id "mget" response_time true ;;;
       ret result)
    (fun _ => _update_operation_metrics tenant_id "mget" 0 false ;;; ret nones).

(** The loop of [mset] that fills [cache_data] and sums [total_size]. *)
Fixpoint prepare (tenant_id : string) (key_values : list (string * Value))
    (cache_data : list (string * string)) (total_size : Q)
    : M t (list (string * string) * Q) :=
  match key_values with
  | [] => ret (cache_data, total_size)
  | (key, value) :: rest =>
      let cache_key := _get_cache_key tenant_id key in
      serialized_value <- dumps value ;;
      prepare tenant_id rest (cache_data ++ [(cache_key, serialized_value)])
        (total_size + value_size_mb serialized_value)%Q
  end.

(** [mset(tenant_id, key_values)] *)
Definition mset (tenant_id : string) (key_values : list (string * Value))
    (now response_time : Q) : M t bool :=
  try_except
    (admitted <- _check_tenant_quota tenant_id "mset" now ;;
     if negb admitted then ret false
     else
       prepared <- prepare tenant_id key_values [] 0%Q ;;
       let cache_data := fst prepared in
       let total_size := snd prepared in
       (* Check memory quota *)
       s <- get_self ;;
       metrics <- getitem (tenant_metrics s !! tenant_id) ;;
       let current_memory := memory_used_mb metrics in
       tenant <- getitem (tenants s !! tenant_id) ;;
       if Qgtb (current_memory + total_size) (inject_Z (memory_limit_mb tenant))
       then ret false
       else
         redis (Redis.mset cache_data) ;;;
         update_metrics tenant_id
           (fun m => with_memory_used_mb (memory_used_mb m + total_size) m) ;;;
         _update_operation_metrics tenant_id "mset" response_time true ;;;
         ret true)
    (fun _ => _update_operation_metrics tenant_id "mset" 0 false ;;; ret false).

End Operations.

(** The attributes of a [MultiTenantCacheManager] object: what [__init__]
    assigns and what the class body defines. *)
Definition attributes : list string :=
  [ "settings"; "redis_config"; "redis_pool"; "redis_client"; "tenants";
    "tenant_metrics"; "tenant_connections"; "operation_history"; "metrics_history";
    "rate_limiters"; "total_operations"; "total_hits"; "total_misses"; "start_time";
    "__init__"; "initialize"; "shutdown"; "_load_tenants"; "create_tenant";
    "delete_tenant"; "get_tenant"; "list_tenants"; "_check_tenant_quota";
    "_get_cache_key"; "get"; "set"; "delete"; "exists"; "expire"; "ttl"; "incr";
    "decr"; "mget"; "mset"; "_update_operation_metrics"; "_metrics_collector";
    "get_tenant_metrics"; "get_all_metrics"; "get_system_metrics";
    "clear_tenant_data"; "backup_tenant_data"; "restore_tenant_data" ].

(** [get_system_metrics()], without the uptime. *)
Record SystemMetrics : Type := mkSystemMetrics {
  sm_total_operations : Z;
  sm_total_hits : Z;
  sm_total_misses : Z;
  sm_hit_ratio : Q;
  sm_active_tenants : Z;
  sm_memory_usage_mb : Q;
  sm_average_response_time_ms : Q
}.

Definition Qsum (l : list Q) : Q := List.fold_left Qplus l 0%Q.

Definition get_system_metrics (s : t) : SystemMetrics :=
  let all := (map_to_list (tenant_metrics s)).*2 in
  mkSystemMetrics (total_operations s) (total_hits s) (total_misses s)
    (inject_Z (total_hits s) / inject_Z (Z.max 1 (total_operations s)) * 100)%Q
    (Z.of_nat (size (tenants s)))
    (Qsum (List.map memory_used_mb all))
    (Qsum (List.map average_response_time_ms all)
     / inject_Z (Z.max 1 (Z.of_nat (size (tenant_metrics s)))))%Q.

(** [get_tenant_metrics(tenant_id)] and [list_tenants()] *)
Definition get_tenant_metrics (s : t) (tenant_id : string) : option CacheMetrics :=
  tenant_metrics s !! tenant_id.
Definition list_tenants (s : t) : list Tenant := (map_to_list (tenants s)).*2.

(** [tenant_metrics[tenant_id].memory_used_mb], when the record exists. *)
Definition memory_used (s : t) (tenant_id : string) : option Q :=
  memory_used_mb <$> tenant_metrics s !! tenant_id.

(** Whether [":"] does not occur in a tenant id. *)
Fixpoint colon_free (s : string) : bool :=
  match s with
  | EmptyString => true
  | String c rest => negb (Ascii.eqb c ":"%char) && colon_free rest
  end.

(** What the manager holds for one tenant and one of its keys: the
    tenant's record, its metrics, its rate-limit timestamps and the entry
    stored under the key. *)
Definition tenant_view (s : t) (tenant_id key : string)
    : option Tenant * option CacheMetrics * option (gmap string Q)
      * (option (string * option Z) * option Q) :=
  (tenants s !! tenant_id, tenant_metrics s !! tenant_id, rate_limiters s !! tenant_id,
   Redis.cell (redis_client s) (_get_cache_key tenant_id key)).

(** The request counters of a metrics record add up, and so do those of
    every tenant. *)
Definition requests_add_up (m : CacheMetrics) : Prop :=
  total_requests m = successful_requests m + failed_requests m.
Definition metrics_add_up (s : t) : Prop :=
  map_Forall (fun _ m => requests_add_up m) (tenant_metrics s).

End CacheManager.

(* ===================================================================== *)
(** ** core/auto_scaler.py : AutoScaler *)
(* ===================================================================== *)

(** [config/schemas.py : ScalingDecision].  [reason] keeps the message
    template and the two numbers formatted into it. *)
Module ScalingDecision.

Inductive reason_t : Type :=
| HighResourceUsage (cpu memory : Q)
| LowResourceUsage (cpu memory : Q)
| ManualForceScale.

Record t : Type := mk {
  id : string;
  agent_id : string;
  decision_type : string;
  current_nodes : Z;
  target_nodes : Z;
  reason : reason_t;
  cpu_usage : Q;
  memory_usage : Q;
  request_rate : Q;
  created_at : Q;
  executed_at : option Q;
  executed : bool;
  successful : option bool
}.

(** [decision.executed = True; decision.executed_at = ...;
    decision.successful = success] *)
Definition mark_executed (at_ : Q) (success : bool) (d : t) : t :=
  mk (id d) (agent_id d) (decision_type d) (current_nodes d) (target_nodes d)
     (reason d) (cpu_usage d) (memory_usage d) (request_rate d) (created_at d)
     (Some at_) true (Some success).

End ScalingDecision.

Module AutoScaler.

(** The methods [_scale_up] and [_scale_down] look up on
    [self.cache_manager].  A method the object does not have is [None];
    looking it up raises [AttributeError]. *)
Class NodeLifecycle (CM : Type) : Type := {
  add_node : option (string -> string -> Z -> M CM bool);
  rebalance_cluster : option (M CM unit);
  update_load_balancer_config : option (M CM unit);
  check_cluster_health : option (M CM (gmap string bool));
  migrate_data_from_node : option (string -> M CM bool);
  remove_node : option (string -> M CM bool)
}.

(** The names of these methods, as the scaler spells them. *)
Definition lifecycle_methods : list string :=
  [ "add_node"; "rebalance_cluster"; "update_load_balancer_config";
    "check_cluster_health"; "migrate_data_from_node"; "remove_node" ].

(** [MultiTenantCacheManager] defines none of them. *)
#[global] Instance MultiTenantCacheManager_lifecycle : NodeLifecycle CacheManager.t := {|
  add_node := None;
  rebalance_cluster := None;
  update_load_balancer_config := None;
  check_cluster_health := None;
  migrate_data_from_node := None;
  remove_node := None
|}.

Record t (CM : Type) : Type := mk {
  cache_manager : CM;
  (* self.scaling_config *)
  min_nodes : Z;
  max_nodes : Z;
  (* scaling state *)
  current_nodes : Z;
  last_scale_up : Q;
  last_scale_down : Q;
  scaling_decisions : list ScalingDecision.t;
  (* thresholds and cooldown periods *)
  scale_up_threshold : Q;
  scale_down_threshold : Q;
  scale_up_cooldown : Q;
  scale_down_cooldown : Q
}.
Arguments mk {CM}.
Arguments cache_manager {CM}.
Arguments min_nodes {CM}.
Arguments max_nodes {CM}.
Arguments current_nodes {CM}.
Arguments last_scale_up {CM}.
Arguments last_scale_down {CM}.
Arguments scaling_decisions {CM}.
Arguments scale_up_threshold {CM}.
Arguments scale_down_threshold {CM}.
Arguments scale_up_cooldown {CM}.
Arguments scale_down_cooldown {CM}.

(** [AutoScaler(cache_manager, settings)] with the defaults of
    [ScalingConfig] overridden by the given bounds, thresholds and
    cooldowns. *)
Definition init {CM} (cm : CM) (min_n max_n : Z) (up down up_cd down_cd : Q) : t CM :=
  mk cm min_n max_n min_n 0%Q 0%Q [] up down up_cd down_cd.

Section Methods.

Context {CM : Type} `{NodeLifecycle CM}.

Definition set_cache_manager (cm : CM) (s : t CM) : t CM :=
  mk cm (min_nodes s) (max_nodes s) (current_nodes s) (last_scale_up s)
     (last_scale_down s) (scaling_decisions s) (scale_up_threshold s)
     (scale_down_threshold s) (scale_up_cooldown s) (scale_down_cooldown s).
Definition set_current_nodes (n : Z) (s : t CM) : t CM :=
  mk (cache_manager s) (min_nodes s) (max_nodes s) n (last_scale_up s)
     (last_scale_down s) (scaling_decisions s) (scale_up_threshold s)
     (scale_down_threshold s) (scale_up_cooldown s) (scale_down_cooldown s).
Definition set_last_scale_up (x : Q) (s : t CM) : t CM :=
  mk (cache_manager s) (min_nodes s) (max_nodes s) (current_nodes s) x
     (last_scale_down s) (scaling_decisions s) (scale_up_threshold s)
     (scale_down_threshold s) (scale_up_cooldown s) (scale_down_cooldown s).
Definition set_last_scale_down (x : Q) (s : t CM) : t CM :=
  mk (cache_manager s) (min_nodes s) (max_nodes s) (current_nodes s) (last_scale_up s)
     x (scaling_decisions s) (scale_up_threshold s)
     (scale_down_threshold s) (scale_up_cooldown s) (scale_down_cooldown s).
Definition set_scaling_decisions (l : list ScalingDecision.t) (s : t CM) : t CM :=
  mk (cache_manager s) (min_nodes s) (max_nodes s) (current_nodes s) (last_scale_up s)
     (last_scale_down s) l (scale_up_threshold s)
     (scale_down_threshold s) (scale_up_cooldown s) (scale_down_cooldown s).

(** [await self.cache_manager.<method>(...)] *)
Definition call {A} (method : option (M CM A)) : M (t CM) A :=
  match method with
  | Some m => zoom cache_manager set_cache_manager m
  | None => raise AttributeError
  end.

(** [_get_request_rate_threshold] *)
Definition _get_request_rate_threshold (s : t CM) : Z :=
  let base_threshold := 1000 in
  base_threshold * current_nodes s.

(** [int(x)] on a float: truncation towards zero. *)
Definition int_of_float (x : Q) : Z := Z.quot (Qnum x) (Z.pos (Qden x)).

(** [metrics.get(key, 0.0)] *)
Definition metric (metrics : gmap string Q) (key : string) : Q :=
  default 0%Q (metrics !! key).

(** [evaluate_scaling_needs(metrics)]: [now] is [time.time()], [utcnow]
    is [datetime.utcnow()]. *)
Definition evaluate_scaling_needs (s : t CM) (metrics : gmap string Q) (now utcnow : Q)
    : option ScalingDecision.t :=
  let current_time := now in
  let cpu_usage := metric metrics "cpu_usage_percent" in
  let memory_usage := metric metrics "memory_usage_percent" in
  let request_rate := metric metrics "requests_per_second" in
  (* Check if we're in cooldown period *)
  if Qltb (current_time - last_scale_up s) (scale_up_cooldown s) then None
  else if Qltb (current_time - last_scale_down s) (scale_down_cooldown s) then None
  else
    let scale_up_needed :=
      Qgtb cpu_usage (scale_up_threshold s)
      || Qgtb memory_usage (scale_up_threshold s)
      || Qgtb request_rate (inject_Z (_get_request_rate_threshold s)) in
    let scale_down_needed :=
      Qltb cpu_usage (scale_down_threshold s)
      && Qltb memory_usage (scale_down_threshold s)
      && Qltb request_rate (inject_Z (_get_request_rate_threshold s) * (1 # 2))
      && (current_nodes s >? min_nodes s) in
    if scale_up_needed && (current_nodes s <? max_nodes s)
    then Some (ScalingDecision.mk
                 (String.append "scale_up_" (str_of_int (int_of_float current_time)))
                 "scaling_agent" "scale_up"
                 (current_nodes s) (Z.min (current_nodes s + 1) (max_nodes s))
                 (ScalingDecision.HighResourceUsage cpu_usage memory_usage)
                 cpu_usage memory_usage request_rate utcnow None false None)
    else if scale_down_needed
    then Some (ScalingDecision.mk
                 (String.append "scale_down_" (str_of_int (int_of_float current_time)))
                 "scaling_agent" "scale_down"
                 (current_nodes s) (Z.max (current_nodes s - 1) (min_nodes s))
                 (ScalingDecision.LowResourceUsage cpu_usage memory_usage)
                 cpu_usage memory_usage request_rate utcnow None false None)
    else None.

(** [range(n)] *)
Definition range (n : Z) : list Z := List.map Z.of_nat (seq 0 (Z.to_nat n)).

(** [f"redis-node-{n}"] *)
Definition node_name (n : Z) : string := String.append "redis-node-" (str_of_int n).

(** A [for] loop whose body may [return False]: [true] when the loop ran
    to its end, [false] when the body returned. *)
Fixpoint for_each (body : Z -> M (t CM) bool) (indices : list Z) : M (t CM) bool :=
  match indices with
  | [] => ret true
  | i :: rest =>
      success <- body i ;;
      if negb success then ret false else for_each body rest
  end.

(** [_scale_up(target_nodes)] *)
Definition _scale_up (target_nodes : Z) : M (t CM) bool :=
  try_except
    (s <- get_self ;;
     (* 1. Provision new Redis nodes *)
     let new_nodes := target_nodes - current_nodes s in
     completed <-
       for_each (fun i =>
                   s <- get_self ;;
                   let node_id := node_name (current_nodes s + i + 1) in
                   call (option_map
                           (fun f => f node_id (String.append "redis-" node_id) 6379)
                           add_node))
                (range new_nodes) ;;
     if negb completed then ret false
     else
       (* 2. Update cluster configuration *)
       call rebalance_cluster ;;;
       (* 3. Update load balancer *)
       call update_load_balancer_config ;;;
       (* 4. Verify cluster health *)
       health_check <- call check_cluster_health ;;
       if negb (default false (health_check !! "healthy")) then ret false
       else ret true)
    (fun _ => ret false).

(** [_scale_down(target_nodes)] *)
Definition _scale_down (target_nodes : Z) : M (t CM) bool :=
  try_except
    (s <- get_self ;;
     (* 1. Identify nodes to remove *)
     let nodes_to_remove := current_nodes s - target_nodes in
     if nodes_to_remove <=? 0 then ret true
     else
       (* 2. Migrate data from nodes to be removed *)
       migrated <-
         for_each (fun i =>
                     s <- get_self ;;
                     let node_id := node_name (current_nodes s - i) in
                     call (option_map (fun f => f node_id) migrate_data_from_node))
                  (range nodes_to_remove) ;;
       if negb migrated then ret false
       else
         (* 3. Remove nodes from cluster *)
         removed <-
           for_each (fun i =>
                       s <- get_self ;;
                       let node_id := node_name (current_nodes s - i) in
                       call (option_map (fun f => f node_id) remove_node))
                    (range nodes_to_remove) ;;
         if negb removed then ret false
         else
           (* 4. Update load balancer configuration *)
           call update_load_balancer_config ;;;
           (* 5. Verify cluster health *)
           health_check <- call check_cluster_health ;;
           if negb (default false (health_check !! "healthy")) then ret false
           else ret true)
    (fun _ => ret false).

(** [self.scaling_decisions.append(decision)], keeping the last 100. *)
Definition store_decision (d : ScalingDecision.t) (s : t CM) : t CM :=
  let l := (scaling_decisions s ++ [d])%list in
  set_scaling_decisions (if (100 <? Z.of_nat (length l)) then List.tl l else l) s.

(** The part of [execute_scaling_decision] that follows the call of
    [_scale_up] or [_scale_down]. *)
Definition record_execution (decision : ScalingDecision.t) (success : bool)
    (now utcnow : Q) : M (t CM) bool :=
  (* Update decision status, store decision, keep only last 100 *)
  modify (store_decision (ScalingDecision.mark_executed utcnow success decision)) ;;;
  (* Update cooldown timestamps *)
  let current_time := now in
  modify (if String.eqb (ScalingDecision.decision_type decision) "scale_up"
          then set_last_scale_up current_time
          else set_last_scale_down current_time) ;;;
  (* Update current node count *)
  modify (set_current_nodes (ScalingDecision.target_nodes decision)) ;;;
  ret success.

(** [execute_scaling_decision(decision)] *)
Definition execute_scaling_decision (decision : ScalingDecision.t) (now utcnow : Q)
    : M (t CM) bool :=
  try_except
    (if String.eqb (ScalingDecision.decision_type decision) "scale_up"
     then
       success <- _scale_up (ScalingDecision.target_nodes decision) ;;
       record_execution decision success now utcnow
     else if String.eqb (ScalingDecision.decision_type decision) "scale_down"
     then
       success <- _scale_down (ScalingDecision.target_nodes decision) ;;
       record_execution decision success now utcnow
     else ret false)
    (fun _ => ret false).

(** [force_scale(target_nodes)] *)
Definition force_scale (target_nodes : Z) (now utcnow : Q) : M (t CM) bool :=
  try_except
    (s <- get_self ;;
     if (target_nodes <? min_nodes s) || (target_nodes >? max_nodes s) then ret false
     else
       let current_time := now in
       let decision :=
         if target_nodes >? current_nodes s
         then ScalingDecision.mk
                (String.append "force_scale_up_" (str_of_int (int_of_float current_time)))
                "manual" "scale_up" (current_nodes s) target_nodes
                ScalingDecision.ManualForceScale 0%Q 0%Q 0%Q utcnow None false None
         else ScalingDecision.mk
                (String.append "force_scale_down_" (str_of_int (int_of_float current_time)))
                "manual" "scale_down" (current_nodes s) target_nodes
                ScalingDecision.ManualForceScale 0%Q 0%Q 0%Q utcnow None false None in
       execute_scaling_decision decision now utcnow)
    (fun _ => ret false).

(** What the scaler keeps of its own: every attribute but the cache
    manager it drives. *)
Definition scaling_state (s : t CM)
    : Z * Z * Z * Q * Q * list ScalingDecision.t * (Q * Q * Q * Q) :=
  (min_nodes s, max_nodes s, current_nodes s, last_scale_up s, last_scale_down s,
   scaling_decisions s,
   (scale_up_threshold s, scale_down_threshold s, scale_up_cooldown s,
    scale_down_cooldown s)).

End Methods.

End AutoScaler.

(* ===================================================================== *)
(** ** hashlib.md5 *)
(* ===================================================================== *)

(** The digest the load balancer hashes routing keys with (RFC 1321), on
    byte strings.  32-bit words are integers reduced modulo [2^32]. *)
Module MD5.

Definition K : list Z :=
  [ 3614090360; 3905402710; 606105819; 3250441966; 4118548399; 1200080426; 2821735955; 4249261313;
    1770035416; 2336552879; 4294925233; 2304563134; 1804603682; 4254626195; 2792965006; 1236535329;
    4129170786; 3225465664; 643717713; 3921069994; 3593408605; 38016083; 3634488961; 3889429448;
    568446438; 3275163606; 4107603335; 1163531501; 2850285829; 4243563512; 1735328473; 2368359562;
    4294588738; 2272392833; 1839030562; 4259657740; 2763975236; 1272893353; 4139469664; 3200236656;
    681279174; 3936430074; 3572445317; 76029189; 3654602809; 3873151461; 530742520; 3299628645;
    4096336452; 1126891415; 2878612391; 4237533241; 1700485571; 2399980690; 4293915773; 2240044497;
    1873313359; 4264355552; 2734768916; 1309151649; 4149444226; 3174756917; 718787259; 3951481745 ].

Definition shifts : list Z :=
  [ 7; 12; 17; 22; 7; 12; 17; 22; 7; 12; 17; 22; 7; 12; 17; 22;
    5; 9; 14; 20; 5; 9; 14; 20; 5; 9; 14; 20; 5; 9; 14; 20;
    4; 11; 16; 23; 4; 11; 16; 23; 4; 11; 16; 23; 4; 11; 16; 23;
    6; 10; 15; 21; 6; 10; 15; 21; 6; 10; 15; 21; 6; 10; 15; 21 ].

Definition w32 (x : Z) : Z := x mod 2 ^ 32.
Definition not32 (x : Z) : Z := Z.lxor x (2 ^ 32 - 1).
Definition rotl (x c : Z) : Z := w32 (Z.lor (Z.shiftl x c) (Z.shiftr x (32 - c))).
Definition at_ (l : list Z) (i : Z) : Z := nth (Z.to_nat i) l 0.

Definition bytes_of_string (s : string) : list Z :=
  List.map (fun c => Z.of_N (N_of_ascii c)) (list_ascii_of_string s).

(** [n] bytes of [x], least significant first. *)
Fixpoint le_bytes (n : nat) (x : Z) : list Z :=
  match n with
  | O => []
  | S n' => x mod 256 :: le_bytes n' (x / 256)
  end.

Definition pad (msg : list Z) : list Z :=
  let len := Z.of_nat (length msg) in
  (msg ++ [128] ++ repeat 0 (Z.to_nat ((55 - len) mod 64)) ++ le_bytes 8 (8 * len))%list.

Fixpoint blocks (n : nat) (l : list Z) : list (list Z) :=
  match n with
  | O => []
  | S n' => firstn 64 l :: blocks n' (skipn 64 l)
  end.

Fixpoint words (n : nat) (l : list Z) : list Z :=
  match n, l with
  | S n', b0 :: b1 :: b2 :: b3 :: rest =>
      (b0 + 256 * b1 + 65536 * b2 + 16777216 * b3) :: words n' rest
  | _, _ => []
  end.

Definition step (M : list Z) (st : Z * Z * Z * Z) (i : Z) : Z * Z * Z * Z :=
  let '(A, B, C, D) := st in
  let '(F, g) :=
    if i <? 16 then (Z.lor (Z.land B C) (Z.land (not32 B) D), i)
    else if i <? 32 then (Z.lor (Z.land D B) (Z.land (not32 D) C), (5 * i + 1) mod 16)
    else if i <? 48 then (Z.lxor (Z.lxor B C) D, (3 * i + 5) mod 16)
    else (Z.lxor C (Z.lor B (not32 D)), (7 * i) mod 16) in
  let F' := w32 (F + A + at_ K i + at_ M g) in
  (D, w32 (B + rotl F' (at_ shifts i)), B, C).

Definition process (st : Z * Z * Z * Z) (block : list Z) : Z * Z * Z * Z :=
  let M := words 16 block in
  let '(a0, b0, c0, d0) := st in
  let '(A, B, C, D) :=
    List.fold_left (step M) (List.map Z.of_nat (seq 0 64)) st in
  (w32 (a0 + A), w32 (b0 + B), w32 (c0 + C), w32 (d0 + D)).

Definition digest (msg : string) : list Z :=
  let padded := pad (bytes_of_string msg) in
  let '(a, b, c, d) :=
    List.fold_left process (blocks (length padded / 64) padded)
      (1732584193, 4023233417, 2562383102, 271733878) in
  (le_bytes 4 a ++ le_bytes 4 b ++ le_bytes 4 c ++ le_bytes 4 d)%list.

(** [int(hashlib.md5(msg).hexdigest(), 16)] *)
Definition hexdigest_int (msg : string) : Z :=
  List.fold_left (fun acc b => acc * 256 + b) (digest msg) 0.

End MD5.

(* ===================================================================== *)
(** ** core/load_balancer.py : LoadBalancer *)
(* ===================================================================== *)

Module LoadBalancer.

(** The dict [add_node] builds for a node. *)
Record Node : Type := mkNode {
  node_id : string;
  host : string;
  port : Z;
  weight : Q;
  max_connections : Z;
  current_connections : Z;
  status : string
}.

Definition with_current_connections (n : Z) (node : Node) : Node :=
  mkNode (node_id node) (host node) (port node) (weight node) (max_connections node)
    n (status node).
Definition with_max_connections (n : Z) (node : Node) : Node :=
  mkNode (node_id node) (host node) (port node) (weight node) n
    (current_connections node) (status node).
Definition with_status (st : string) (node : Node) : Node :=
  mkNode (node_id node) (host node) (port node) (weight node) (max_connections node)
    (current_connections node) st.
Definition with_weight (w : Q) (node : Node) : Node :=
  mkNode (node_id node) (host node) (port node) w (max_connections node)
    (current_connections node) (status node).

Record t : Type := mk {
  algorithm : string;
  nodes : list (string * Node);
  node_weights : list (string * Q);
  node_health : list (string * bool);
  max_connections_per_node : Z;
  min_connections_per_node : Z;
  request_counters : list (string * Z);
  response_times : list (string * list Q);
  current_node_index : Z
}.

Definition set_algorithm_field (a : string) (s : t) : t :=
  mk a (nodes s) (node_weights s) (node_health s) (max_connections_per_node s)
     (min_connections_per_node s) (request_counters s) (response_times s)
     (current_node_index s).
Definition set_nodes (f : list (string * Node) -> list (string * Node)) (s : t) : t :=
  mk (algorithm s) (f (nodes s)) (node_weights s) (node_health s)
     (max_connections_per_node s) (min_connections_per_node s) (request_counters s)
     (response_times s) (current_node_index s).
Definition set_node_weights (f : list (string * Q) -> list (string * Q)) (s : t) : t :=
  mk (algorithm s) (nodes s) (f (node_weights s)) (node_health s)
     (max_connections_per_node s) (min_connections_per_node s) (request_counters s)
     (response_times s) (current_node_index s).
Definition set_node_health (f : list (string * bool) -> list (string * bool)) (s : t) : t :=
  mk (algorithm s) (nodes s) (node_weights s) (f (node_health s))
     (max_connections_per_node s) (min_connections_per_node s) (request_counters s)
     (response_times s) (current_node_index s).
Definition set_request_counters (f : list (string * Z) -> list (string * Z)) (s : t) : t :=
  mk (algorithm s) (nodes s) (node_weights s) (node_health s)
     (max_connections_per_node s) (min_connections_per_node s) (f (request_counters s))
     (response_times s) (current_node_index s).
Definition set_response_times
    (f : list (string * list Q) -> list (string * list Q)) (s : t) : t :=
  mk (algorithm s) (nodes s) (node_weights s) (node_health s)
     (max_connections_per_node s) (min_connections_per_node s) (request_counters s)
     (f (response_times s)) (current_node_index s).
Definition set_current_node_index (i : Z) (s : t) : t :=
  mk (algorithm s) (nodes s) (node_weights s) (node_health s)
     (max_connections_per_node s) (min_connections_per_node s) (request_counters s)
     (response_times s) i.

(** [__init__] followed by [_initialize_nodes]: the default node
    ["redis-1"], for which no [response_times] entry is made. *)
Definition init (redis_host : string) (redis_port : Z) : t :=
  mk "consistent_hash"
     [("redis-1", mkNode "redis-1" redis_host redis_port 1%Q 100 0 "online")]
     [("redis-1", 1%Q)] [("redis-1", true)] 100 10 [("redis-1", 0)] [] 0.

(** [del d[k]]: [KeyError] when the key is absent. *)
Definition del_item {V} (k : string) (proj : t -> list (string * V))
    (upd : (list (string * V) -> list (string * V)) -> t -> t) : M t unit :=
  s <- get_self ;;
  if Dict.mem k (proj s) then modify (upd (Dict.del k)) else raise KeyError.

(** [self.nodes[node_id][field] = ...] *)
Definition update_node (k : string) (f : Node -> Node) : M t unit :=
  s <- get_self ;;
  node <- getitem (Dict.get k (nodes s)) ;;
  modify (set_nodes (Dict.set k (f node))).

(** [add_node(node_id, host, port, weight)] *)
Definition add_node (node_id host : string) (port : Z) (weight : Q) : M t bool :=
  try_except
    (s <- get_self ;;
     if Dict.mem node_id (nodes s) then ret false
     else
       let node := mkNode node_id host port weight (max_connections_per_node s) 0 "online" in
       modify (set_nodes (Dict.set node_id node)) ;;;
       modify (set_node_weights (Dict.set node_id weight)) ;;;
       modify (set_node_health (Dict.set node_id true)) ;;;
       modify (set_request_counters (Dict.set node_id 0)) ;;;
       modify (set_response_times (Dict.set node_id [])) ;;;
       ret true)
    (fun _ => ret false).

(** [remove_node(node_id)].  [_drain_node_connections] only waits (at most
    30 seconds) and changes nothing. *)
Definition remove_node (node_id : string) : M t bool :=
  try_except
    (s <- get_self ;;
     if negb (Dict.mem node_id (nodes s)) then ret false
     else
       del_item node_id nodes set_nodes ;;;
       del_item node_id node_weights set_node_weights ;;;
       del_item node_id node_health set_node_health ;;;
       del_item node_id request_counters set_request_counters ;;;
       del_item node_id response_times set_response_times ;;;
       ret true)
    (fun _ => ret false).

(** [[node_id for node_id, healthy in self.node_health.items() if healthy]] *)
Definition healthy_nodes (s : t) : list string :=
  List.map fst (List.filter snd (node_health s)).

(** [seq[i]] for a non-negative index. *)
Definition index {A} (l : list A) (i : Z) : M t A :=
  match nth_error l (Z.to_nat i) with
  | Some a => ret a
  | None => raise IndexError
  end.

(** [_round_robin_select(available_nodes)] *)
Definition _round_robin_select (available_nodes : list string) : M t (option string) :=
  match available_nodes with
  | [] => ret None
  | _ =>
      s <- get_self ;;
      let n := Z.of_nat (length available_nodes) in
      node <- index available_nodes (current_node_index s mod n) ;;
      modify (set_current_node_index ((current_node_index s + 1) mod n)) ;;;
      ret (Some node)
  end.

(** The loop of [_least_connections_select]; [None] as minimum stands for
    [float('inf')]. *)
Fixpoint least_loop (available_nodes : list string) (min_connections : option Z)
    (selected_node : option string) : M t (option string) :=
  match available_nodes with
  | [] => ret selected_node
  | node_id :: rest =>
      s <- get_self ;;
      node <- getitem (Dict.get node_id (nodes s)) ;;
      let connections := current_connections node in
      if match min_connections with Some m => connections <? m | None => true end
      then least_loop rest (Some connections) (Some node_id)
      else least_loop rest min_connections selected_node
  end.

(** [_least_connections_select(available_nodes)] *)
Definition _least_connections_select (available_nodes : list string)
    : M t (option string) :=
  match available_nodes with
  | [] => ret None
  | _ => least_loop available_nodes None None
  end.

(** Truthiness of [key: str = None]. *)
Definition truthy_str (key : option string) : bool :=
  match key with
  | Some k => negb (String.length k =? 0)%nat
  | None => false
  end.

(** [f"{tenant_id}:{key}" if key else tenant_id] *)
Definition hash_key (tenant_id : string) (key : option string) : string :=
  if truthy_str key
  then String.append tenant_id (String.append ":" (default EmptyString key))
  else tenant_id.

(** [_consistent_hash_select(available_nodes, tenant_id, key)] *)
Definition _consistent_hash_select (available_nodes : list string) (tenant_id : string)
    (key : option string) : M t (option string) :=
  match available_nodes with
  | [] => ret None
  | _ =>
      let hash_value := MD5.hexdigest_int (hash_key tenant_id key) in
      (* Simple consistent hashing *)
      let node_index := hash_value mod Z.of_nat (length available_nodes) in
      node <- index available_nodes node_index ;;
      ret (Some node)
  end.

(** [get_node(tenant_id, key)] *)
Definition get_node (tenant_id : string) (key : option string) : M t (option string) :=
  try_except
    (s <- get_self ;;
     let available_nodes := healthy_nodes s in
     match available_nodes with
     | [] => ret None
     | first :: _ =>
         if String.eqb (algorithm s) "round_robin"
         then _round_robin_select available_nodes
         else if String.eqb (algorithm s) "least_connections"
         then _least_connections_select available_nodes
         else if String.eqb (algorithm s) "consistent_hash"
         then _consistent_hash_select available_nodes tenant_id key
         else ret (Some first)
     end)
    (fun _ => ret None).

(** [l[-1000:]] *)
Definition last_1000 {A} (l : list A) : list A := skipn (length l - 1000) l.

(** [record_request(node_id, response_time, success)] *)
Definition record_request (node_id : string) (response_time : Q) (success : bool)
    : M t unit :=
  try_except
    (s <- get_self ;;
     if negb (Dict.mem node_id (nodes s)) then ret tt
     else
       (* Update request counter *)
       count <- getitem (Dict.get node_id (request_counters s)) ;;
       modify (set_request_counters (Dict.set node_id (count + 1))) ;;;
       (* Update response times *)
       (if negb (Dict.mem node_id (response_times s))
        then modify (set_response_times (Dict.set node_id []))
        else ret tt) ;;;
       s <- get_self ;;
       times <- getitem (Dict.get node_id (response_times s)) ;;
       let times := (times ++ [response_time])%list in
       modify (set_response_times
                 (Dict.set node_id
                    (if (1000 <? Z.of_nat (length times)) then last_1000 times else times))) ;;;
       (* Update connection count *)
       if success
       then update_node node_id
              (fun node => with_current_connections
                             (Z.max 0 (current_connections node - 1)) node)
       else ret tt)
    (fun _ => ret tt).

(** [acquire_connection(node_id)] *)
Definition acquire_connection (node_id : string) : M t bool :=
  try_except
    (s <- get_self ;;
     if negb (Dict.mem node_id (nodes s)) then ret false
     else
       node <- getitem (Dict.get node_id (nodes s)) ;;
       if current_connections node >=? max_connections node then ret false
       else
         update_node node_id
           (fun node => with_current_connections (current_connections node + 1) node) ;;;
         ret true)
    (fun _ => ret false).

(** [release_connection(node_id)] *)
Definition release_connection (node_id : string) : M t unit :=
  try_except
    (s <- get_self ;;
     if negb (Dict.mem node_id (nodes s)) then ret tt
     else
       update_node node_id
         (fun node => with_current_connections
                        (Z.max 0 (current_connections node - 1)) node))
    (fun _ => ret tt).

(** [_check_node_health(node_id)]: [response_time] is the measured
    duration of the probe in milliseconds. *)
Definition _check_node_health (node_id : string) (response_time : Q) : M t bool :=
  try_except
    (s <- get_self ;;
     _ <- getitem (Dict.get node_id (nodes s)) ;;
     let is_healthy := Qltb response_time (1000 # 1) in
     update_node node_id (with_status (if is_healthy then "online" else "offline")) ;;;
     ret is_healthy)
    (fun _ =>
       update_node node_id (with_status "offline") ;;;
       ret false).

(** One pass of the loop of [_health_monitor] over [list(self.nodes.keys())]. *)
Fixpoint health_pass (node_ids : list string) (probe : string -> Q) : M t unit :=
  match node_ids with
  | [] => ret tt
  | node_id :: rest =>
      is_healthy <- _check_node_health node_id (probe node_id) ;;
      modify (set_node_health (Dict.set node_id is_healthy)) ;;;
      health_pass rest probe
  end.

Definition _health_monitor_cycle (probe : string -> Q) : M t unit :=
  try_except
    (s <- get_self ;; health_pass (Dict.keys (nodes s)) probe)
    (fun _ => ret tt).

(** [_manage_node_connections(node_id)] *)
Definition _manage_node_connections (node_id : string) : M t unit :=
  try_except
    (s <- get_self ;;
     node <- getitem (Dict.get node_id (nodes s)) ;;
     let current_connections := current_connections node in
     (* Adjust max connections based on load *)
     if Qgtb (inject_Z current_connections)
             (inject_Z (max_connections_per_node s) * (8 # 10))
     then update_node node_id
            (fun node => with_max_connections
                           (Z.min (max_connections_per_node s * 2)
                                  (max_connections node + 10)) node)
     else if current_connections <? min_connections_per_node s
     then update_node node_id
            (fun node => with_max_connections
                           (Z.max (min_connections_per_node s)
                                  (max_connections node - 5)) node)
     else ret tt)
    (fun _ => ret tt).

(** One pass of the loop of [_connection_pool_manager]. *)
Fixpoint manage_pass (node_ids : list string) : M t unit :=
  match node_ids with
  | [] => ret tt
  | node_id :: rest => _manage_node_connections node_id ;;; manage_pass rest
  end.

Definition _connection_pool_manager_cycle : M t unit :=
  s <- get_self ;; manage_pass (Dict.keys (nodes s)).

(** The loop of [rebalance_connections] over the healthy nodes. *)
Fixpoint redistribute (healthy : list string) (target : Z) : M t unit :=
  match healthy with
  | [] => ret tt
  | node_id :: rest =>
      s <- get_self ;;
      node <- getitem (Dict.get node_id (nodes s)) ;;
      let current := current_connections node in
      (if negb (current =? target)
       then update_node node_id (with_current_connections target)
       else ret tt) ;;;
      redistribute rest target
  end.

(** [sum(node["current_connections"] for node in self.nodes.values())] *)
Definition total_connections (s : t) : Z :=
  List.fold_left Z.add (List.map current_connections (Dict.values (nodes s))) 0.

(** [rebalance_connections()] *)
Definition rebalance_connections : M t bool :=
  try_except
    (s <- get_self ;;
     let total_connections := total_connections s in
     let healthy_nodes := healthy_nodes s in
     match healthy_nodes with
     | [] => ret false
     | _ =>
         (* Calculate target connections per node *)
         let target_connections_per_node :=
           total_connections / Z.of_nat (length healthy_nodes) in
         redistribute healthy_nodes target_connections_per_node ;;;
         ret true
     end)
    (fun _ => ret false).

(** [set_algorithm(algorithm)] *)
Definition set_algorithm (algorithm : string) : M t bool :=
  if String.eqb algorithm "round_robin" || String.eqb algorithm "least_connections"
     || String.eqb algorithm "consistent_hash"
  then modify (set_algorithm_field algorithm) ;;; ret true
  else ret false.

(** [set_node_weight(node_id, weight)] *)
Definition set_node_weight (node_id : string) (weight : Q) : M t bool :=
  try_except
    (s <- get_self ;;
     if negb (Dict.mem node_id (nodes s)) then ret false
     else if Qle_bool weight 0 then ret false
     else
       modify (set_node_weights (Dict.set node_id weight)) ;;;
       update_node node_id (with_weight weight) ;;;
       ret true)
    (fun _ => ret false).

(** The data-model invariant of a node, and of the node table. *)
Definition connections_in_range (node : Node) : Prop :=
  0 <= current_connections node <= max_connections node.

Definition invariant (s : t) : Prop :=
  Forall connections_in_range (Dict.values (nodes s)).

(** The bound within which the pool manager moves [max_connections]. *)
Definition capped (s : t) : Prop :=
  Forall (fun node => max_connections node <= max_connections_per_node s * 2)
    (Dict.values (nodes s)).

(** [self.nodes[node_id]["current_connections"]], read as 0 for a node
    that is not in the table. *)
Definition connections_of (s : t) (node_id : string) : Z :=
  match Dict.get node_id (nodes s) with
  | Some node => current_connections node
  | None => 0
  end.

(** The verdict of [_check_node_health] on a probe that took
    [response_time] milliseconds. *)
Definition answers_in_time (response_time : Q) : bool := Qltb response_time (1000 # 1).

End LoadBalancer.
(* ===================================================================== *)
(** ** core/orchestrator.py : CacheOrchestrator.execute_command *)
(* ===================================================================== *)

Module Orchestrator.

(** The values found in a [params] dict: what a JSON front end can put
    there. *)
#[local] Unset Elimination Schemes.
Inductive value : Type :=
| VNone
| VBool (b : bool)
| VInt (n : Z)
| VFloat (x : Q)
| VStr (s : string)
| VList (items : list value)
| VDict (items : list (string * value)).
#[local] Set Elimination Schemes.

Definition truthy (v : value) : bool :=
  match v with
  | VNone => false
  | VBool b => b
  | VInt n => negb (n =? 0)
  | VFloat x => negb (Qeq_bool x 0)
  | VStr s => negb (String.length s =? 0)%nat
  | VList items => match items with [] => false | _ => true end
  | VDict items => match items with [] => false | _ => true end
  end.

(** Whether [hash(v)] succeeds: a list or a dict used as a dict key raises
    [TypeError]. *)
Definition hashable (v : value) : bool :=
  match v with
  | VList _ | VDict _ => false
  | _ => true
  end.

(** What a reply carries besides [success] and [error].  The backup file
    name [f"{backup_dir}/backup_{int(time.time())}.json"] is kept as the
    two values the template is filled with. *)
Inductive payload : Type :=
| Nothing
| Backup (backup_file : value * Z) (include_data : value) (tenants : Z) (status : string)
| TenantMetrics (metrics : option CacheMetrics)
| SystemMetrics (metrics : CacheManager.SystemMetrics)
| Tenants (tenants : list Tenant).

(** The text under ["error"]: a literal, or [str(e)] for the exception
    that was caught, kept as the exception. *)
Inductive message : Type :=
| Text (s : string)
| StrOf (e : exn).

(** The dict a command returns. *)
Record reply : Type := mkReply {
  success : bool;
  error : option message;
  body : payload
}.

(** The attributes of the orchestrator the command handlers read.
    [cache_manager] is [None] until [initialize()] has run. *)
Record t : Type := mk {
  cache_manager : option CacheManager.t;
  agents : list string
}.

(** [self.cache_manager.<method>]: [None] has no such attribute. *)
Definition the_cache_manager : M t CacheManager.t :=
  s <- get_self ;;
  match cache_manager s with
  | Some cm => ret cm
  | None => raise AttributeError
  end.

(** [{"success": False, "error": str(e)}] *)
Definition failed (e : exn) : reply := mkReply false (Some (StrOf e)) Nothing.

(** [int(time.time())] *)
Definition backup_file (backup_dir : value) (now : Q) : value * Z :=
  (backup_dir, Z.quot (Qnum now) (Z.pos (Qden now))).

(** [_create_backup(params)] *)
Definition _create_backup (params : gmap string value) (now : Q) : M t reply :=
  try_except
    (s <- get_self ;;
     let backup_dir := default (VStr "./backups") (params !! "backup_dir") in
     let include_data := default (VBool true) (params !! "include_data") in
     ret (mkReply true None
            (Backup (backup_file backup_dir now) include_data
               (Z.of_nat (length (agents s))) "completed")))
    (fun e => ret (failed e)).

(** [_restore_backup(params)] *)
Definition _restore_backup (params : gmap string value) : M t reply :=
  try_except
    (ret (mkReply true None Nothing))
    (fun e => ret (failed e)).

(** [self.cache_manager.get_tenant_metrics(tenant_id)], that is
    [self.tenant_metrics.get(tenant_id)]: the keys of that dict are
    strings. *)
Definition get_tenant_metrics (tenant_id : value) : M t (option CacheMetrics) :=
  cm <- the_cache_manager ;;
  if hashable tenant_id
  then ret (match tenant_id with
            | VStr tid => CacheManager.get_tenant_metrics cm tid
            | _ => None
            end)
  else raise TypeError.

(** [_get_metrics(params)] *)
Definition _get_metrics (params : gmap string value) : M t reply :=
  try_except
    (let tenant_id := default VNone (params !! "tenant_id") in
     if truthy tenant_id
     then
       metrics <- get_tenant_metrics tenant_id ;;
       ret (mkReply true None (TenantMetrics metrics))
     else
       cm <- the_cache_manager ;;
       ret (mkReply true None (SystemMetrics (CacheManager.get_system_metrics cm))))
    (fun e => ret (failed e)).

(** [_get_tenants()] *)
Definition _get_tenants : M t reply :=
  try_except
    (cm <- the_cache_manager ;;
     ret (mkReply true None (Tenants (CacheManager.list_tenants cm))))
    (fun e => ret (failed e)).

(** The reply of the final [else] branch:
    [{"success": False, "error": f"Unknown command: {command}"}]. *)
Definition unknown_command (command : string) : reply :=
  mkReply false (Some (Text (String.append "Unknown command: " command))) Nothing.

(** [execute_command(command, params)] *)
Definition execute_command (command : string) (params : gmap string value) (now : Q)
    : M t reply :=
  try_except
    (if String.eqb command "create_backup" then _create_backup params now
     else if String.eqb command "restore_backup" then _restore_backup params
     else if String.eqb command "get_metrics" then _get_metrics params
     else if String.eqb command "get_tenants" then _get_tenants
     else ret (unknown_command command))
    (fun e => ret (failed e)).


End Orchestrator.

(* ===================================================================== *)
(** ** Concrete scenarios *)
(* ===================================================================== *)

(** Small concrete states on which the definitions are run. *)
Module Scenario.

(** A tenant with the smallest memory quota the validators accept and two
    requests per second. *)
Definition acme : Tenant := mkTenant "acme" "Acme" ACTIVE 64 2 50.

(** The manager right after [create_tenant] of [acme], backend empty. *)
Definition fresh : CacheManager.t :=
  CacheManager.mk {[ "acme" := acme ]} {[ "acme" := CacheMetrics_default ]}
    {[ "acme" := 0 ]} ∅ 0 0 0 (Redis.mk ∅ ∅ [] true).

(** ... and after a first [set("acme", "k", 42)] at time 100. *)
Definition after_set : CacheManager.t :=
  Py.final (CacheManager.set "acme" "k" 42 None (100 # 1) (1 # 1) fresh).

(** The same tenant with its whole quota in use. *)
Definition full : CacheManager.t :=
  CacheManager.set_tenant_metrics
    (insert "acme" (CacheManager.with_memory_used_mb (64 # 1) CacheMetrics_default))
    fresh.

(** The manager of [after_set], the tenant's record carrying [st] as its
    status. *)
Definition tagged (st : TenantStatus) : CacheManager.t :=
  CacheManager.mk {[ "acme" := mkTenant "acme" "Acme" st 64 2 50 ]}
    (CacheManager.tenant_metrics after_set)
    (CacheManager.tenant_connections after_set)
    (CacheManager.rate_limiters after_set)
    (CacheManager.total_operations after_set)
    (CacheManager.total_hits after_set) (CacheManager.total_misses after_set)
    (CacheManager.redis_client after_set).

(** The scaler of the specification's scale-up scenario, on the real cache
    manager: [min_nodes = 2], [max_nodes = 5], [scale_up_threshold = 80],
    [scale_down_threshold = 30], both cooldowns 60 seconds. *)
Definition scaler : AutoScaler.t CacheManager.t :=
  AutoScaler.init fresh 2 5 (80 # 1) (30 # 1) (60 # 1) (60 # 1).

(** The same scaler believing it runs three nodes. *)
Definition scaler3 : AutoScaler.t CacheManager.t :=
  AutoScaler.set_current_nodes 3 scaler.

(** An aggregate sample with the given CPU percentage, memory at 50 % and
    100 requests per second. *)
Definition sample (cpu : Q) : gmap string Q :=
  {[ "cpu_usage_percent" := cpu; "memory_usage_percent" := (50 # 1)%Q;
     "requests_per_second" := (100 # 1)%Q ]}.

(** A sample of an idle cluster: CPU and memory at 10 %, 100 requests per
    second. *)
Definition idle_sample : gmap string Q :=
  {[ "cpu_usage_percent" := (10 # 1)%Q; "memory_usage_percent" := (10 # 1)%Q;
     "requests_per_second" := (100 # 1)%Q ]}.

(** A scaling decision of the given type and target, as a caller of
    [execute_scaling_decision] can build it. *)
Definition decision (kind : string) (current target : Z) : ScalingDecision.t :=
  ScalingDecision.mk "d1" "manual" kind current target
    ScalingDecision.ManualForceScale 0%Q 0%Q 0%Q (1000 # 1) None false None.

(** [n] calls of a method, one after the other. *)
Fixpoint times {S A} (n : nat) (c : M S A) (s : S) : S :=
  match n with
  | O => s
  | S n' => times n' c (Py.final (c s))
  end.

(** A balancer with the default node and two added ones, all healthy. *)
Definition balancer : LoadBalancer.t :=
  Py.final (LoadBalancer.add_node "redis-3" "10.0.0.3" 6379 1%Q
    (Py.final (LoadBalancer.add_node "redis-2" "10.0.0.2" 6379 1%Q
       (LoadBalancer.init "localhost" 6379)))).

(** The same balancer after traffic: connections taken on two nodes, one
    request recorded, one connection released. *)
Definition balancer_busy : LoadBalancer.t :=
  Py.final (LoadBalancer.release_connection "redis-2"
    (Py.final (LoadBalancer.record_request "redis-3" (12 # 1) true
       (times 5 (LoadBalancer.acquire_connection "redis-3")
          (times 7 (LoadBalancer.acquire_connection "redis-2") balancer))))).

(** A probe on which only the default node answers in time. *)
Definition slow_probe (node_id : string) : Q :=
  if String.eqb node_id "redis-1" then (100 # 1)%Q else (5000 # 1)%Q.

(** Both added nodes hold their 100 connections when the health monitor
    finds them unresponsive. *)
Definition balancer_degraded : LoadBalancer.t :=
  Py.final (LoadBalancer._health_monitor_cycle slow_probe
    (times 100 (LoadBalancer.acquire_connection "redis-3")
       (times 100 (LoadBalancer.acquire_connection "redis-2") balancer))).

(** Two healthy nodes, one idle and one holding 100 connections, after
    eleven passes of the pool manager: the idle node's [max_connections]
    has come down to 45, the busy node's has gone up to 200. *)
Definition balancer_skewed : LoadBalancer.t :=
  times 11 LoadBalancer._connection_pool_manager_cycle
    (times 100 (LoadBalancer.acquire_connection "redis-2")
       (Py.final (LoadBalancer.add_node "redis-2" "10.0.0.2" 6379 1%Q
          (LoadBalancer.init "localhost" 6379)))).

(** An orchestrator over the manager of [after_set], with its four
    agents. *)
Definition orchestrator : Orchestrator.t :=
  Orchestrator.mk (Some after_set)
    [ "scaling_agent"; "optimization_agent"; "healing_agent"; "prediction_agent" ].


(** The manager of [after_set] right after a [get] of a key that was never
    written, admitted at time 200. *)
Definition just_read : CacheManager.t :=
  Py.final (CacheManager.get (Value := Z) "acme" "nope" None (200 # 1) (1 # 1) after_set).

(** A second tenant, and a manager that serves both: [globex] has stored
    a value under ["k"] at time 50. *)
Definition globex : Tenant := mkTenant "globex" "Globex" ACTIVE 128 5 50.
Definition shared : CacheManager.t :=
  Py.final
    (CacheManager.set "globex" "k" 7 None (50 # 1) (1 # 1)
       (CacheManager.mk {[ "acme" := acme; "globex" := globex ]}
          {[ "acme" := CacheMetrics_default; "globex" := CacheMetrics_default ]}
          {[ "acme" := 0; "globex" := 0 ]} ∅ 0 0 0 (Redis.mk ∅ ∅ [] true))).

End Scenario.

(* ===================================================================== *)
(** ** The specification's wording of the cache-manager clauses *)
(* ===================================================================== *)

(** Each definition follows the specification's sentence, not the code; it
    is what the code is compared with. *)
Module Stated.
Import CacheManager.

(** "Reject with QuotaExceeded if the value's encoded byte size plus
    [memory_used_mb] would exceed [memory_limit_mb].  Otherwise SET or
    SETEX, then add size to [memory_used_mb]." *)
Definition set_quota {Value : Type} `{JsonCodec Value}
    (s : t) (tid key : string) (v : Value) (ttl : option Z) (now rt : Q) : Prop :=
  forall tn m payload,
    tenants s !! tid = Some tn ->
    tenant_metrics s !! tid = Some m ->
    json_dumps v = Some payload ->
    let size := value_size_mb payload in
    let r := set tid key v ttl now rt s in
    if Qgtb (memory_used_mb m + size) (inject_Z (memory_limit_mb tn))
    then Py.result r = Returned false /\
         redis_client (Py.final r) = redis_client s /\
         memory_used (Py.final r) tid = Some (memory_used_mb m)
    else Py.result r = Returned true /\
         fst <$> Redis.store (redis_client (Py.final r)) !! _get_cache_key tid key
           = Some payload /\
         memory_used (Py.final r) tid = Some (memory_used_mb m + size)%Q.

(** "Tenant must exist and be active." *)
Definition admitted_only_if_active (s : t) (tid op : string) (now : Q) : Prop :=
  Py.result (_check_tenant_quota tid op now s) = Returned true ->
  exists tn, tenants s !! tid = Some tn /\ status tn = ACTIVE.

(** "delete(t, k); delete(t, k) -> ok" *)
Definition delete_twice_ok (s : t) (tid key : string) (now1 rt1 now2 rt2 : Q) : Prop :=
  let r1 := delete tid key now1 rt1 s in
  Py.result r1 = Returned true ->
  Py.result (delete tid key now2 rt2 (Py.final r1)) = Returned true.

(** "Return nil if a cooldown is in effect.  Scale up when
    [current_nodes < max_nodes] and any of [m.cpu >= scale_up_threshold],
    [m.memory >= scale_up_threshold], [m.request_rate >= 1000 *
    current_nodes].  Target [= min(current_nodes + 1, max_nodes)]." *)
Definition scale_up_rule {CM : Type} (s : AutoScaler.t CM) (m : gmap string Q)
    (now utcnow : Q) : Prop :=
  let cpu := AutoScaler.metric m "cpu_usage_percent" in
  let mem := AutoScaler.metric m "memory_usage_percent" in
  let rate := AutoScaler.metric m "requests_per_second" in
  let in_cooldown :=
    (now - AutoScaler.last_scale_up s < AutoScaler.scale_up_cooldown s)%Q \/
    (now - AutoScaler.last_scale_down s < AutoScaler.scale_down_cooldown s)%Q in
  (in_cooldown -> AutoScaler.evaluate_scaling_needs s m now utcnow = None) /\
  (~ in_cooldown ->
   AutoScaler.current_nodes s < AutoScaler.max_nodes s ->
   (AutoScaler.scale_up_threshold s <= cpu)%Q \/
   (AutoScaler.scale_up_threshold s <= mem)%Q \/
   (inject_Z (1000 * AutoScaler.current_nodes s) <= rate)%Q ->
   exists d,
     AutoScaler.evaluate_scaling_needs s m now utcnow = Some d /\
     ScalingDecision.decision_type d = "scale_up" /\
     ScalingDecision.target_nodes d =
       Z.min (AutoScaler.current_nodes s + 1) (AutoScaler.max_nodes s)).

(** "... returns rate_limited": the answer to a request that is
    rate-limited differs from the answer to the same request when it is
    admitted. *)
Definition rate_limited_is_told {Value : Type} `{JsonCodec Value}
    (limited admitted : t) (tid key : string) (dflt : option Value) (now rt : Q) : Prop :=
  forall tn,
    tenants limited !! tid = Some tn ->
    (now - last_request limited tid "get" < 1 / inject_Z (requests_per_second tn))%Q ->
    Py.result (_check_tenant_quota tid "get" now admitted) = Returned true ->
    Py.result (get tid key dflt now rt limited)
      <> Py.result (get tid key dflt now rt admitted).

(** "If executing d fails then current_nodes and the cooldown timestamps
    are left unchanged." *)
Definition failure_leaves_state {CM : Type} `{AutoScaler.NodeLifecycle CM}
    (s : AutoScaler.t CM) (d : ScalingDecision.t) (now utcnow : Q) : Prop :=
  let r := AutoScaler.execute_scaling_decision d now utcnow s in
  Py.result r = Returned false ->
  AutoScaler.current_nodes (Py.final r) = AutoScaler.current_nodes s /\
  AutoScaler.last_scale_up (Py.final r) = AutoScaler.last_scale_up s /\
  AutoScaler.last_scale_down (Py.final r) = AutoScaler.last_scale_down s.

(** "For every scaling decision d with d.target_nodes <> current_nodes,
    execute_scaling_decision returns False (and records successful =
    False), yet the decision is still appended to history with executed =
    True." *)
Definition every_execution_fails (s : AutoScaler.t CacheManager.t)
    (d : ScalingDecision.t) (now utcnow : Q) : Prop :=
  let r := AutoScaler.execute_scaling_decision d now utcnow s in
  ScalingDecision.target_nodes d <> AutoScaler.current_nodes s ->
  Py.result r = Returned false /\
  last (AutoScaler.scaling_decisions (Py.final r))
    = Some (ScalingDecision.mark_executed utcnow false d).



End Stated.

(* ===================================================================== *)
(** * Facts about the Python-level plumbing *)
(* ===================================================================== *)

Module PyFacts.

Lemma Qltb_true x y : Qltb x y = true <-> (x < y)%Q.
Proof.
  unfold Qltb. rewrite negb_true_iff, <- not_true_iff_false, Qle_bool_iff.
  split; [apply Qnot_le_lt | apply Qlt_not_le].
Qed.

Lemma Qltb_false x y : Qltb x y = false <-> (y <= x)%Q.
Proof.
  unfold Qltb. rewrite negb_false_iff, Qle_bool_iff. tauto.
Qed.

Lemma Qgtb_true x y : Qgtb x y = true <-> (y < x)%Q.
Proof. apply Qltb_true. Qed.

Lemma Qgtb_false x y : Qgtb x y = false <-> (x <= y)%Q.
Proof. apply Qltb_false. Qed.

(** A validated tenant has a rate to divide by. *)
Lemma valid_tenant_rate tn : Tenant_valid tn -> requests_per_second tn <> 0.
Proof. intros [_ [Hlo _]]. lia. Qed.

(** *** Frame rules for [keeps] *)

Section Keeps.
Context {S B : Type} (proj : S -> B).

Lemma keeps_ret {A} (a : A) : keeps proj (ret a).
Proof. intros s. reflexivity. Qed.

Lemma keeps_raise {A} e : keeps proj (@raise S A e).
Proof. intros s. reflexivity. Qed.

Lemma keeps_get_self : keeps proj get_self.
Proof. intros s. reflexivity. Qed.

Lemma keeps_getitem {A} (o : option A) : keeps proj (getitem o).
Proof. destruct o; intros s; reflexivity. Qed.

Lemma keeps_modify (f : S -> S) :
  (forall s, proj (f s) = proj s) -> keeps proj (modify f).
Proof. intros Hf s. apply Hf. Qed.

Lemma keeps_bind {A C} (c : M S A) (k : A -> M S C) :
  keeps proj c -> (forall a, keeps proj (k a)) -> keeps proj (bind c k).
Proof.
  intros Hc Hk s. unfold bind. specialize (Hc s). unfold Py.final in *.
  destruct (c s) as [[a|e] s1]; cbn in *.
  - rewrite <- Hc. apply Hk.
  - exact Hc.
Qed.

Lemma keeps_try_except {A} (body : M S A) (handler : exn -> M S A) :
  keeps proj body -> (forall e, keeps proj (handler e)) ->
  keeps proj (try_except body handler).
Proof.
  intros Hb Hh s. unfold try_except. specialize (Hb s). unfold Py.final in *.
  destruct (body s) as [[a|e] s1]; cbn in *.
  - exact Hb.
  - rewrite <- Hb. apply Hh.
Qed.
End Keeps.

End PyFacts.

(* ===================================================================== *)
(** * Properties of the cache manager *)
(* ===================================================================== *)

Module CacheManagerSpec.
Import CacheManager.

Ltac py_unfold :=
  unfold bind, ret, raise, try_except, get_self, put_self, modify, getitem, zoom,
    Py.result, Py.final in *.

Ltac py_simpl :=
  repeat (py_unfold;
          cbn [fst snd tenants tenant_metrics tenant_connections rate_limiters
               total_operations total_hits total_misses redis_client
               set_tenant_metrics set_rate_limiters set_total_hits set_total_misses
               set_redis_client default from_option Datatypes.id negb] in *;
          cbv beta iota).

Import PyFacts.

Lemma rate_key_inj o1 o2 : rate_key o1 = rate_key o2 -> o1 = o2.
Proof. unfold rate_key. cbn. intros E. now inversion E. Qed.

(** *** The admission check, case by case *)

Lemma check_unregistered s tid op now :
  tenants s !! tid = None ->
  _check_tenant_quota tid op now s = (Returned false, s).
Proof.
  intros Hn. unfold _check_tenant_quota. py_unfold. now rewrite Hn.
Qed.

(** The state in which the rate-limit gate runs: the tenant's limiter
    dict exists. *)
Lemma check_registered s tid op now tn m :
  tenants s !! tid = Some tn ->
  tenant_metrics s !! tid = Some m ->
  _check_tenant_quota tid op now s =
    if Qgtb (memory_used_mb m) (inject_Z (memory_limit_mb tn)) then (Returned false, s)
    else
      let s1 := with_limiter tid s in
      if requests_per_second tn =? 0 then (Raised ZeroDivisionError, s1)
      else if Qltb (now - last_request s tid op) (1 / inject_Z (requests_per_second tn))
      then (Returned false, s1)
      else (Returned true,
            set_rate_limiters
              (insert tid (<[rate_key op := now]> (limiter_of s tid))) s1).
Proof.
  intros Ht Hm. unfold _check_tenant_quota, with_limiter, last_request, limiter_of.
  py_unfold. rewrite Ht, Hm. py_simpl.
  destruct (Qgtb _ _); [reflexivity|].
  destruct (rate_limiters s !! tid) as [d|] eqn:Hd; py_simpl.
  - rewrite Hd. py_simpl.
    destruct (_ =? _); [reflexivity|]. destruct (Qltb _ _); reflexivity.
  - rewrite lookup_insert_eq. py_simpl. rewrite lookup_empty.
    destruct (_ =? _); [reflexivity|]. destruct (Qltb _ _); reflexivity.
Qed.

(** *** Rate-limit timestamps *)

Lemma last_request_with_limiter s tid t' o' :
  last_request (with_limiter tid s) t' o' = last_request s t' o'.
Proof.
  unfold with_limiter, last_request.
  destruct (rate_limiters s !! tid) eqn:Hd; [reflexivity|]. py_simpl.
  destruct (decide (tid = t')) as [->|Hne].
  - rewrite lookup_insert_eq, Hd. now rewrite lookup_empty.
  - now rewrite lookup_insert_ne.
Qed.

Lemma last_request_stamp_eq s tid op now :
  last_request
    (set_rate_limiters (insert tid (<[rate_key op := now]> (limiter_of s tid)))
       (with_limiter tid s)) tid op = now.
Proof.
  unfold last_request. py_simpl. now rewrite !lookup_insert_eq.
Qed.

Lemma last_request_stamp_ne s tid op now t' o' :
  (t', o') <> (tid, op) ->
  last_request
    (set_rate_limiters (insert tid (<[rate_key op := now]> (limiter_of s tid)))
       (with_limiter tid s)) t' o' = last_request s t' o'.
Proof.
  intros Hne. rewrite <- (last_request_with_limiter s tid t' o').
  unfold last_request at 1. py_simpl.
  destruct (decide (tid = t')) as [->|Ht].
  - rewrite lookup_insert_eq.
    assert (Hk : rate_key op <> rate_key o').
    { intros E. apply rate_key_inj in E. congruence. }
    rewrite lookup_insert_ne by exact Hk.
    rewrite last_request_with_limiter.
    unfold last_request, limiter_of. now destruct (rate_limiters s !! t').
  - rewrite lookup_insert_ne by exact Ht. reflexivity.
Qed.

(** The admission check never touches the backend, the tenant table or
    the metrics. *)
Lemma check_frame s tid op now :
  let s' := Py.final (_check_tenant_quota tid op now s) in
  redis_client s' = redis_client s /\ tenants s' = tenants s /\
  tenant_metrics s' = tenant_metrics s /\
  total_hits s' = total_hits s /\ total_misses s' = total_misses s.
Proof.
  cbv zeta.
  destruct (tenants s !! tid) as [tn|] eqn:Ht.
  2:{ rewrite check_unregistered by exact Ht. now py_simpl. }
  destruct (tenant_metrics s !! tid) as [m|] eqn:Hm.
  - rewrite (check_registered _ _ _ _ _ _ Ht Hm).
    assert (Hw : redis_client (with_limiter tid s) = redis_client s /\
                 tenants (with_limiter tid s) = tenants s /\
                 tenant_metrics (with_limiter tid s) = tenant_metrics s /\
                 total_hits (with_limiter tid s) = total_hits s /\
                 total_misses (with_limiter tid s) = total_misses s).
    { unfold with_limiter. now destruct (rate_limiters s !! tid). }
    destruct (Qgtb _ _); [now py_simpl|]. cbv zeta.
    destruct (_ =? _); [exact Hw|]. destruct (Qltb _ _); exact Hw.
  - unfold _check_tenant_quota. py_simpl. rewrite Ht, Hm. now py_simpl.
Qed.

(** C2.  A request of tenant [tid] for operation [op] that arrives less
    than [1 / requests_per_second] seconds after the stored timestamp of
    the last admitted one is rejected ([get] then returns its default
    without a backend call); a request that reaches the rate-limit gate
    passes it iff [now - last >= 1 / requests_per_second]; an admitted
    request stores [now] as the new timestamp of [(tid, op)] and touches
    no other timestamp, and a request that is not admitted leaves every
    stored timestamp as it was. *)
Theorem rate_limit_gate {Value : Type} `{JsonCodec Value}
    (s : t) (tid op key : string) (dflt : option Value) (now rt : Q)
    (tn : Tenant) (m : CacheMetrics) :
  tenants s !! tid = Some tn ->
  tenant_metrics s !! tid = Some m ->
  requests_per_second tn <> 0 ->
  let interval := (1 / inject_Z (requests_per_second tn))%Q in
  let r := _check_tenant_quota tid op now s in
  ((now - last_request s tid op < interval)%Q -> Py.result r = Returned false) /\
  ((now - last_request s tid "get" < interval)%Q ->
     Py.result (get tid key dflt now rt s) = Returned dflt /\
     redis_client (Py.final (get tid key dflt now rt s)) = redis_client s) /\
  ((memory_used_mb m <= inject_Z (memory_limit_mb tn))%Q ->
     (Py.result r = Returned true <-> (interval <= now - last_request s tid op)%Q)) /\
  (Py.result r = Returned true ->
     last_request (Py.final r) tid op = now /\
     forall t' o', (t', o') <> (tid, op) ->
       last_request (Py.final r) t' o' = last_request s t' o') /\
  (Py.result r <> Returned true ->
     forall t' o', last_request (Py.final r) t' o' = last_request s t' o').
Proof.
  intros Ht Hm Hrps interval r.
  assert (Hz : (requests_per_second tn =? 0) = false) by now apply Z.eqb_neq.
  assert (Hr : r =
               if Qgtb (memory_used_mb m) (inject_Z (memory_limit_mb tn))
               then (Returned false, s)
               else if Qltb (now - last_request s tid op) interval
                    then (Returned false, with_limiter tid s)
                    else (Returned true,
                          set_rate_limiters
                            (insert tid (<[rate_key op := now]> (limiter_of s tid)))
                            (with_limiter tid s))).
  { subst r. rewrite (check_registered _ _ _ _ _ _ Ht Hm). cbv zeta.
    now rewrite Hz. }
  split; [|split; [|split; [|split]]].
  - intros Hearly. rewrite Hr. apply Qltb_true in Hearly. rewrite Hearly.
    now destruct (Qgtb _ _).
  - intros Hearly. unfold get.
    pose proof (check_frame s tid "get" now) as Hfr. cbv zeta in Hfr.
    assert (Hres : Py.result (_check_tenant_quota tid "get" now s) = Returned false).
    { rewrite (check_registered _ _ _ _ _ _ Ht Hm).
      destruct (Qgtb _ _); [now py_simpl|]. cbv zeta. rewrite Hz.
      apply Qltb_true in Hearly. fold interval. now rewrite Hearly. }
    py_simpl. destruct (_check_tenant_quota tid "get" now s) as [o s'].
    py_simpl. subst o. py_simpl. split; [reflexivity|]. apply Hfr.
  - intros Hmem. rewrite Hr. apply Qgtb_false in Hmem. rewrite Hmem.
    destruct (Qltb (now - last_request s tid op) interval) eqn:Hgate; py_simpl.
    + apply Qltb_true in Hgate. split; [discriminate|]. intros Hle. exfalso.
      exact (Qlt_not_le _ _ Hgate Hle).
    + apply Qltb_false in Hgate. tauto.
  - rewrite Hr. destruct (Qgtb _ _); [discriminate|].
    destruct (Qltb _ _); [discriminate|]. py_simpl. intros _.
    split; [apply last_request_stamp_eq|].
    intros t' o' Hne. now apply last_request_stamp_ne.
  - rewrite Hr. destruct (Qgtb _ _); [reflexivity|].
    destruct (Qltb _ _); py_simpl; [|congruence].
    intros _ t' o'. apply last_request_with_limiter.
Qed.

(** *** [set] and the memory quota *)

Lemma memory_used_updated rt ok m :
  memory_used_mb (updated_metrics rt ok m) = memory_used_mb m.
Proof. reflexivity. Qed.

(** C1.  With [size] the encoded length of the value in MB:
    when [memory_used_mb + size] exceeds [memory_limit_mb], [set] fails,
    issues no backend command and leaves [memory_used_mb] as it was;
    when it does not, and the admission check passes, the backend is
    reachable and a time-to-live, if given, is not negative, [set] writes
    the payload with SET (SETEX when [ttl] is non-zero), returns [True]
    and adds exactly [size] to [memory_used_mb]. *)
Theorem set_respects_quota {Value : Type} `{JsonCodec Value}
    (s : t) (tid key : string) (v : Value) (ttl : option Z) (now rt : Q)
    (tn : Tenant) (m : CacheMetrics) (payload : string) :
  tenants s !! tid = Some tn ->
  tenant_metrics s !! tid = Some m ->
  json_dumps v = Some payload ->
  let size := value_size_mb payload in
  let limit := inject_Z (memory_limit_mb tn) in
  let r := set tid key v ttl now rt s in
  ((limit < memory_used_mb m + size)%Q ->
     Py.result r = Returned false /\
     redis_client (Py.final r) = redis_client s /\
     memory_used (Py.final r) tid = Some (memory_used_mb m)) /\
  ((memory_used_mb m + size <= limit)%Q ->
     Py.result (_check_tenant_quota tid "set" now s) = Returned true ->
     Redis.available (redis_client s) = true ->
     (forall n, ttl = Some n -> 0 <= n) ->
     Py.result r = Returned true /\
     Redis.store (redis_client (Py.final r)) =
       <[_get_cache_key tid key := (payload, if truthy_int ttl then ttl else None)]>
         (Redis.store (redis_client s)) /\
     Redis.calls (redis_client (Py.final r)) =
       (Redis.calls (redis_client s) ++
          [if truthy_int ttl
           then Redis.SETEX (_get_cache_key tid key) (default 0 ttl) payload
           else Redis.SET (_get_cache_key tid key) payload])%list /\
     memory_used (Py.final r) tid = Some (memory_used_mb m + size)%Q).
Proof.
  intros Ht Hm Hd size limit r.
  pose proof (check_frame s tid "set" now) as Hfr. cbv zeta in Hfr.
  subst r. unfold set, memory_used, dumps. py_simpl.
  destruct (_check_tenant_quota tid "set" now s) as [o s1]. py_simpl.
  destruct Hfr as (Hr & Hts & Hms & _ & _).
  split.
  - intros Hover. apply Qgtb_true in Hover.
    destruct o as [[|]|e]; py_simpl.
    + rewrite Hd. py_simpl. rewrite Hms, Hm. py_simpl. rewrite Hts, Ht. py_simpl.
      fold size limit. rewrite Hover. py_simpl. now rewrite Hr, Hms, Hm.
    + now rewrite Hr, Hms, Hm.
    + unfold _update_operation_metrics. py_simpl. rewrite Hms, Hm. py_simpl.
      rewrite lookup_insert_eq. split; [reflexivity|]. split; [exact Hr|reflexivity].
  - intros Hfit Hadm Hup Httl. apply Qgtb_false in Hfit. subst o. py_simpl.
    rewrite Hd. py_simpl. rewrite Hms, Hm. py_simpl. rewrite Hts, Ht. py_simpl.
    fold size limit. rewrite Hfit. py_simpl.
    destruct (truthy_int ttl) eqn:Htr.
    + destruct ttl as [n|]; [|discriminate]. cbn in Htr.
      apply negb_true_iff, Z.eqb_neq in Htr.
      assert (Hpos : (n <=? 0) = false) by (apply Z.leb_gt; specialize (Httl n eq_refl); lia).
      unfold redis, Redis.setex, Redis.issue, update_metrics, _update_operation_metrics.
      py_simpl. cbn [Redis.log Redis.available Redis.store Redis.calls].
      rewrite Hr, Hup, Hpos. py_simpl. rewrite Hms, Hm. py_simpl.
      rewrite lookup_insert_eq. py_simpl. rewrite lookup_insert_eq.
      cbn. repeat split; reflexivity.
    + unfold redis, Redis.set, Redis.issue, update_metrics, _update_operation_metrics.
      py_simpl. cbn [Redis.log Redis.available Redis.store Redis.calls].
      rewrite Hr, Hup. py_simpl. rewrite Hms, Hm. py_simpl.
      rewrite lookup_insert_eq. py_simpl. rewrite lookup_insert_eq.
      cbn. repeat split; reflexivity.
Qed.


(** The second branch needs its conditions: a [set] that fits the quota
    but arrives a quarter of a second after the previous one, with two
    requests per second allowed, is not written. *)
Lemma set_rate_limited_not_written :
  ~ Stated.set_quota Scenario.after_set "acme" "j" 7 None (401 # 4) (1 # 1).
Proof.
  intros Hc.
  eassert (Ht : tenants Scenario.after_set !! "acme" = Some _)
    by (vm_compute; reflexivity).
  eassert (Hm : tenant_metrics Scenario.after_set !! "acme" = Some _)
    by (vm_compute; reflexivity).
  specialize (Hc _ _ "7" Ht Hm eq_refl).
  vm_compute in Hc. destruct Hc as [Hc _]. discriminate Hc.
Qed.


(** *** The two theorems above on the scenario

    The first [set] of the fresh tenant is written and accounted for; the
    same [set] on the tenant whose quota is used up is refused. *)
Lemma set_respects_quota_witness :
  (Py.result (set "acme" "k" 42 None (100 # 1) (1 # 1) Scenario.fresh) = Returned true /\
   memory_used (Py.final (set "acme" "k" 42 None (100 # 1) (1 # 1) Scenario.fresh)) "acme"
     = Some (0 + value_size_mb "42")%Q) /\
  (Py.result (set "acme" "k" 42 None (100 # 1) (1 # 1) Scenario.full) = Returned false /\
   redis_client (Py.final (set "acme" "k" 42 None (100 # 1) (1 # 1) Scenario.full))
     = redis_client Scenario.full).
Proof.
  assert (Hd : json_dumps 42 = Some "42") by (vm_compute; reflexivity).
  split.
  - destruct (set_respects_quota Scenario.fresh "acme" "k" 42 None (100 # 1) (1 # 1)
                Scenario.acme CacheMetrics_default "42" eq_refl eq_refl Hd)
      as [_ Hfit].
    destruct Hfit as (Hres & _ & _ & Hmem).
    + vm_compute. discriminate.
    + vm_compute. reflexivity.
    + reflexivity.
    + discriminate.
    + split; [exact Hres | exact Hmem].
  - destruct (set_respects_quota Scenario.full "acme" "k" 42 None (100 # 1) (1 # 1)
                Scenario.acme
                (CacheManager.with_memory_used_mb (64 # 1) CacheMetrics_default)
                "42" eq_refl eq_refl Hd)
      as [Hover _].
    destruct Hover as (Hres & Hredis & _).
    + vm_compute. reflexivity.
    + split; [exact Hres | exact Hredis].
Defined.

(** The rejection carries no code of its own: a [get] a quarter of a
    second after an admitted one is answered with the default, exactly as
    the same [get] is when it is admitted and finds nothing. *)
Lemma rate_limited_get_looks_like_miss :
  ~ Stated.rate_limited_is_told (Value := Z) Scenario.just_read Scenario.after_set
      "acme" "nope" None (801 # 4) (1 # 1).
Proof.
  intros Hc. apply (Hc Scenario.acme).
  - vm_compute. reflexivity.
  - vm_compute. reflexivity.
  - vm_compute. reflexivity.
  - vm_compute. reflexivity.
Qed.

(** A quarter of a second after the admitted [set] the next one is
    rejected; half a second after it, it is admitted and stamps the
    limiter. *)
Lemma rate_limit_gate_witness :
  Py.result (_check_tenant_quota "acme" "set" (401 # 4) Scenario.after_set)
    = Returned false /\
  Py.result (_check_tenant_quota "acme" "set" (201 # 2) Scenario.after_set)
    = Returned true /\
  last_request
    (Py.final (_check_tenant_quota "acme" "set" (201 # 2) Scenario.after_set))
    "acme" "set" = (201 # 2)%Q.
Proof.
  eassert (Ht : tenants Scenario.after_set !! "acme" = Some _)
    by (vm_compute; reflexivity).
  eassert (Hm : tenant_metrics Scenario.after_set !! "acme" = Some _)
    by (vm_compute; reflexivity).
  assert (Hrps : requests_per_second Scenario.acme <> 0) by (cbn; lia).
  split.
  - destruct (rate_limit_gate (Value := Z) Scenario.after_set "acme" "set" "k" None
                (401 # 4) (1 # 1) _ _ Ht Hm Hrps) as (Hearly & _).
    apply Hearly. vm_compute. reflexivity.
  - destruct (rate_limit_gate (Value := Z) Scenario.after_set "acme" "set" "k" None
                (201 # 2) (1 # 1) _ _ Ht Hm Hrps) as (_ & _ & Hgate & Hstamp & _).
    assert (Hres : Py.result
              (_check_tenant_quota "acme" "set" (201 # 2) Scenario.after_set)
              = Returned true).
    { apply Hgate; vm_compute; discriminate. }
    split; [exact Hres | exact (proj1 (Hstamp Hres))].
Defined.

(** *** Admission and the tenant registry *)

Lemma check_ignores_status s tid op now st :
  Py.result (_check_tenant_quota tid op now (set_status tid st s)) =
  Py.result (_check_tenant_quota tid op now s).
Proof.
  destruct (tenants s !! tid) as [tn|] eqn:Ht.
  - assert (Ht' : tenants (set_status tid st s) !! tid = Some (with_status st tn)).
    { unfold set_status. py_simpl. cbn [set_tenants tenants].
      now rewrite lookup_alter_eq, Ht. }
    destruct (tenant_metrics s !! tid) as [m|] eqn:Hm.
    + rewrite (check_registered _ _ _ _ _ _ Ht' Hm), (check_registered _ _ _ _ _ _ Ht Hm).
      cbn [with_status memory_limit_mb requests_per_second].
      destruct (Qgtb _ _); [reflexivity|]. cbv zeta.
      destruct (_ =? _); [reflexivity|].
      replace (last_request (set_status tid st s) tid op) with (last_request s tid op)
        by reflexivity.
      destruct (Qltb _ _); reflexivity.
    + unfold _check_tenant_quota. py_simpl. rewrite Ht, Ht'.
      cbn [set_status set_tenants tenant_metrics]. rewrite Hm. reflexivity.
  - rewrite !check_unregistered; [reflexivity|exact Ht|].
    unfold set_status. cbn [set_tenants tenants].
    now rewrite lookup_alter_eq, Ht.
Qed.

(** C3.  A data-plane operation is admitted only if the tenant
    is in the registry: on a tenant that is not, each of [get], [set],
    [delete], [incr], [decr], [mget], [mset] returns its failure value and
    leaves the whole manager, backend included, untouched.  The status of
    a registered tenant is not consulted: changing it does not change the
    outcome of the admission check. *)
Theorem admission_needs_registration {Value : Type} `{JsonCodec Value}
    (s : t) (tid : string) (now rt : Q) :
  (forall op, Py.result (_check_tenant_quota tid op now s) = Returned true ->
              is_Some (tenants s !! tid)) /\
  (tenants s !! tid = None ->
     forall (key : string) (dflt : option Value) (v : Value) (ttl : option Z)
            (amount : Z) (keys : list string) (kvs : list (string * Value)),
       get tid key dflt now rt s = (Returned dflt, s) /\
       set tid key v ttl now rt s = (Returned false, s) /\
       delete tid key now rt s = (Returned false, s) /\
       incr tid key amount now rt s = (Returned None, s) /\
       decr tid key amount now rt s = (Returned None, s) /\
       mget (Value := Value) tid keys now rt s
         = (Returned (List.map (fun _ => None) keys), s) /\
       mset tid kvs now rt s = (Returned false, s)) /\
  (forall op st,
     Py.result (_check_tenant_quota tid op now (set_status tid st s)) =
     Py.result (_check_tenant_quota tid op now s)).
Proof.
  split; [|split].
  - intros op Hadm. destruct (tenants s !! tid) eqn:Ht; [eauto|].
    rewrite check_unregistered in Hadm by exact Ht. discriminate.
  - intros Ht key dflt v ttl amount keys kvs.
    unfold get, set, delete, incr, decr, mget, mset. py_simpl.
    rewrite !check_unregistered by exact Ht. py_simpl.
    repeat split; reflexivity.
  - intros op st. apply check_ignores_status.
Qed.

(** The status is not part of the gate: with the tenant suspended, the
    [get] of the key written before is admitted and served. *)
Lemma suspended_tenant_admitted :
  ~ Stated.admitted_only_if_active (Scenario.tagged SUSPENDED) "acme" "get" (200 # 1).
Proof.
  intros Hc. destruct Hc as (tn & Htn & Hst).
  - vm_compute. reflexivity.
  - vm_compute in Htn. injection Htn as <-. discriminate Hst.
Qed.

(** On the suspended tenant the [get] reaches the backend and returns the
    stored value. *)
Example suspended_tenant_is_served :
  let r := get (Value := Z) "acme" "k" None (200 # 1) (1 # 1)
             (Scenario.tagged SUSPENDED) in
  Py.result r = Returned (Some 42) /\
  Redis.calls (redis_client (Py.final r))
    = [Redis.SET "cache:acme:k" "42"; Redis.GET "cache:acme:k"].
Proof. vm_compute. split; reflexivity. Qed.

(** Operations on a tenant nobody created change nothing. *)
Lemma admission_needs_registration_witness :
  get (Value := Z) "ghost" "k" None (200 # 1) (1 # 1) Scenario.after_set
    = (Returned None, Scenario.after_set) /\
  set "ghost" "k" 42 None (200 # 1) (1 # 1) Scenario.after_set
    = (Returned false, Scenario.after_set).
Proof.
  destruct (admission_needs_registration (Value := Z) Scenario.after_set "ghost"
              (200 # 1) (1 # 1)) as (_ & Hun & _).
  destruct (Hun ltac:(vm_compute; reflexivity) "k" None 42 None 1 [] [])
    as (Hget & Hset & _).
  split; [exact Hget | exact Hset].
Defined.


(** *** [delete] *)

Lemma update_op_spec tid op rt ok s :
  exists s', _update_operation_metrics tid op rt ok s = (Returned tt, s') /\
             redis_client s' = redis_client s /\
             forall t', memory_used s' t' = memory_used s t'.
Proof.
  unfold _update_operation_metrics, memory_used. py_simpl.
  destruct (tenant_metrics s !! tid) as [m|] eqn:Hm; py_simpl.
  - eexists. split; [reflexivity|]. split; [reflexivity|].
    intros t'. py_simpl. destruct (decide (tid = t')) as [<-|Hne].
    + now rewrite lookup_insert_eq, Hm.
    + now rewrite lookup_insert_ne.
  - eexists. repeat split; reflexivity.
Qed.

(** Equations for the primitives the methods are built from. *)

Lemma lookup_log c r now k : Redis.lookup (Redis.log c r) now k = Redis.lookup r now k.
Proof. reflexivity. Qed.

Lemma lookup_stored r now k e : Redis.lookup r now k = Some e -> Redis.store r !! k = Some e.
Proof. unfold Redis.lookup. now destruct (Redis.expired r now k). Qed.

Lemma redis_get_eq now k s :
  redis (Redis.get now k) s =
    if Redis.available (redis_client s)
    then (Returned (fst <$> Redis.lookup (redis_client s) now k), logged (Redis.GET k) s)
    else (Raised ConnectionError, logged (Redis.GET k) s).
Proof.
  unfold redis, Redis.get, Redis.issue, logged. py_simpl. cbn [Redis.log Redis.available].
  now destruct (Redis.available (redis_client s)).
Qed.

Lemma redis_delete_eq now k s :
  redis (Redis.delete now k) s =
    if Redis.available (redis_client s)
    then match Redis.lookup (redis_client s) now k with
         | Some _ =>
             (Returned 1,
              set_redis_client
                (Redis.with_store (base.delete k) (Redis.log (Redis.DEL k) (redis_client s)))
                s)
         | None => (Returned 0, logged (Redis.DEL k) s)
         end
    else (Raised ConnectionError, logged (Redis.DEL k) s).
Proof.
  unfold redis, Redis.delete, Redis.issue, logged. py_simpl.
  cbn [Redis.log Redis.available Redis.store].
  destruct (Redis.available (redis_client s)); [|reflexivity].
  rewrite lookup_log. now destruct (Redis.lookup (redis_client s) now k).
Qed.

Lemma update_metrics_eq tid f s :
  update_metrics tid f s =
    match tenant_metrics s !! tid with
    | Some m => (Returned tt, set_tenant_metrics (insert tid (f m)) s)
    | None => (Raised KeyError, s)
    end.
Proof.
  unfold update_metrics. py_simpl. now destruct (tenant_metrics s !! tid).
Qed.

Lemma update_op_eq tid op rt ok s :
  _update_operation_metrics tid op rt ok s =
    match tenant_metrics s !! tid with
    | Some m => (Returned tt, set_tenant_metrics (insert tid (updated_metrics rt ok m)) s)
    | None => (Returned tt, s)
    end.
Proof.
  unfold _update_operation_metrics. py_simpl. now destruct (tenant_metrics s !! tid).
Qed.

Ltac cm_simpl :=
  repeat (py_simpl; unfold logged in *; rewrite ?lookup_log in *;
          cbn [Redis.log Redis.available Redis.store Redis.calls
               Redis.with_store] in * ).

Lemma memory_used_after_update s tid rt ok m t' :
  tenant_metrics s !! tid = Some m ->
  memory_used (set_tenant_metrics (insert tid (updated_metrics rt ok m)) s) t'
    = memory_used s t'.
Proof.
  intros Hm. unfold memory_used. py_simpl.
  destruct (decide (tid = t')) as [<-|Hne].
  - now rewrite lookup_insert_eq, Hm.
  - now rewrite lookup_insert_ne.
Qed.

(** What a call of [delete] can do. *)
Lemma delete_cases tid key now rt s o s' :
  delete tid key now rt s = (o, s') ->
  let ck := _get_cache_key tid key in
  (o = Returned true /\
   is_Some (Redis.store (redis_client s) !! ck) /\
   Redis.store (redis_client s') = base.delete ck (Redis.store (redis_client s))) \/
  (o = Returned false /\
   Redis.store (redis_client s') = Redis.store (redis_client s) /\
   (Redis.store (redis_client s) !! ck = None ->
    forall t', memory_used s' t' = memory_used s t')).
Proof.
  intros E ck. pose proof (check_frame s tid "delete" now) as Hfr. cbv zeta in Hfr.
  unfold delete in E. py_simpl.
  destruct (_check_tenant_quota tid "delete" now s) as [[[|]|e] s1]; cm_simpl;
    destruct Hfr as (Hr & _ & Hms & _ & _).
  - (* admitted *)
    rewrite redis_get_eq in E. rewrite Hr in E.
    destruct (Redis.available (redis_client s)) eqn:Hav; cm_simpl.
    + fold ck in E.
      destruct (Redis.lookup (redis_client s) now ck) as [[payload ttl]|] eqn:Hk;
        cbn [fmap option_fmap option_map fst truthy_bytes] in E.
      * (* the key is present *)
        destruct (negb (len payload =? 0)); cm_simpl.
        -- rewrite update_metrics_eq in E. cm_simpl. rewrite Hms in E.
           destruct (tenant_metrics s !! tid) as [m|] eqn:Hm; cm_simpl.
           ++ rewrite redis_delete_eq in E. cm_simpl. rewrite Hr, Hav, Hk in E.
              cm_simpl. rewrite update_op_eq in E. cm_simpl.
              rewrite lookup_insert_eq in E. cm_simpl.
              injection E as <- <-. left. cm_simpl. rewrite ?Hr.
              split; [reflexivity|]. split; [eexists; eapply lookup_stored; exact Hk | reflexivity].
           ++ rewrite update_op_eq in E. cm_simpl. rewrite Hms, Hm in E. cm_simpl.
              injection E as <- <-. right. cm_simpl. rewrite ?Hr.
              split; [reflexivity|]. split; [reflexivity|].
              intros Hn. apply lookup_stored in Hk. congruence.
        -- rewrite redis_delete_eq in E. cm_simpl. rewrite Hr, Hav, Hk in E.
           cm_simpl. rewrite update_op_eq in E. cm_simpl. rewrite Hms in E.
           destruct (tenant_metrics s !! tid) as [m|] eqn:Hm; cm_simpl;
             injection E as <- <-; left; cm_simpl; rewrite ?Hr;
             (split; [reflexivity|]); (split; [eexists; eapply lookup_stored; exact Hk | reflexivity]).
      * (* the key is absent *)
        cm_simpl. rewrite redis_delete_eq in E. cm_simpl. rewrite Hr, Hav, Hk in E.
        cm_simpl. rewrite update_op_eq in E. cm_simpl. rewrite Hms in E.
        destruct (tenant_metrics s !! tid) as [m|] eqn:Hm; cm_simpl;
          injection E as <- <-; right; cm_simpl; rewrite ?Hr;
          (split; [reflexivity|]); (split; [reflexivity|]); intros _ t'.
        -- rewrite <- (memory_used_after_update s tid rt false m t' Hm).
           unfold memory_used. cm_simpl. now rewrite Hms.
        -- unfold memory_used. cm_simpl. now rewrite Hms.
    + rewrite update_op_eq in E. cm_simpl. rewrite Hms in E.
      destruct (tenant_metrics s !! tid) as [m|] eqn:Hm; cm_simpl;
        injection E as <- <-; right; cm_simpl; rewrite ?Hr;
        (split; [reflexivity|]); (split; [reflexivity|]); intros _ t'.
      * rewrite <- (memory_used_after_update s tid 0 false m t' Hm).
        unfold memory_used. cm_simpl. now rewrite Hms.
      * unfold memory_used. cm_simpl. now rewrite Hms.
  - (* rejected *)
    injection E as <- <-. right. rewrite Hr. split; [reflexivity|].
    split; [reflexivity|]. intros _ t'. unfold memory_used. now rewrite Hms.
  - (* the check raised *)
    rewrite update_op_eq in E. rewrite Hms in E.
    destruct (tenant_metrics s !! tid) as [m|] eqn:Hm; cm_simpl;
      injection E as <- <-; right; cm_simpl; rewrite ?Hr;
      (split; [reflexivity|]); (split; [reflexivity|]); intros _ t'.
    + rewrite <- (memory_used_after_update s tid 0 false m t' Hm).
      unfold memory_used. cm_simpl. now rewrite Hms.
    + unfold memory_used. now rewrite Hms.
Qed.


(** C8.  After a [delete] that returned [True], a second
    [delete] of the same key changes neither the stored entries nor any
    tenant's [memory_used_mb], and it returns [False]: the key is gone and
    DEL reports that nothing was removed. *)
Theorem second_delete_reports_failure
    (s : t) (tid key : string) (now1 rt1 now2 rt2 : Q) :
  let r1 := delete tid key now1 rt1 s in
  Py.result r1 = Returned true ->
  let r2 := delete tid key now2 rt2 (Py.final r1) in
  Py.result r2 = Returned false /\
  Redis.store (redis_client (Py.final r2)) = Redis.store (redis_client (Py.final r1)) /\
  (forall t', memory_used (Py.final r2) t' = memory_used (Py.final r1) t').
Proof.
  cbv zeta.
  destruct (delete tid key now1 rt1 s) as [o1 s1] eqn:E1. py_simpl.
  intros ->. apply delete_cases in E1. cbv zeta in E1.
  destruct E1 as [(_ & _ & Hst) | (Hf & _)]; [|discriminate].
  assert (Hgone : Redis.store (redis_client s1) !! _get_cache_key tid key = None).
  { rewrite Hst. apply lookup_delete_eq. }
  destruct (delete tid key now2 rt2 s1) as [o2 s2] eqn:E2. py_simpl.
  apply delete_cases in E2. cbv zeta in E2.
  destruct E2 as [(_ & [x Hx] & _) | (-> & Hsame & Hmem)].
  - rewrite Hgone in Hx. discriminate.
  - split; [reflexivity|]. split; [exact Hsame|]. exact (Hmem Hgone).
Qed.

(** The second [delete] is answered with the failure value. *)
Lemma second_delete_not_ok :
  ~ Stated.delete_twice_ok Scenario.after_set "acme" "k"
      (200 # 1) (1 # 1) (300 # 1) (1 # 1).
Proof.
  intros Hc. unfold Stated.delete_twice_ok in Hc.
  assert (Hfirst : Py.result (delete "acme" "k" (200 # 1) (1 # 1) Scenario.after_set)
                   = Returned true) by (vm_compute; reflexivity).
  specialize (Hc Hfirst). vm_compute in Hc. discriminate Hc.
Qed.

(** The key written by the first [set] is deleted once with success, and
    once more without. *)
Lemma second_delete_reports_failure_witness :
  Py.result (delete "acme" "k" (200 # 1) (1 # 1) Scenario.after_set) = Returned true /\
  Py.result
    (delete "acme" "k" (300 # 1) (1 # 1)
       (Py.final (delete "acme" "k" (200 # 1) (1 # 1) Scenario.after_set)))
    = Returned false.
Proof.
  assert (Hfirst : Py.result (delete "acme" "k" (200 # 1) (1 # 1) Scenario.after_set)
                   = Returned true) by (vm_compute; reflexivity).
  split; [exact Hfirst|].
  exact (proj1 (second_delete_reports_failure Scenario.after_set "acme" "k"
                  (200 # 1) (1 # 1) (300 # 1) (1 # 1) Hfirst)).
Defined.

End CacheManagerSpec.

(* ===================================================================== *)
(** * The data plane of the cache manager, continued *)
(* ===================================================================== *)

Module CacheManagerMore.
Import CacheManager CacheManagerSpec PyFacts.

Ltac py_unfold :=
  unfold bind, ret, raise, try_except, get_self, put_self, modify, getitem, zoom,
    Py.result, Py.final in *.

Ltac py_simpl :=
  repeat (py_unfold;
          cbn [fst snd tenants tenant_metrics tenant_connections rate_limiters
               total_operations total_hits total_misses redis_client
               set_tenant_metrics set_rate_limiters set_total_hits set_total_misses
               set_redis_client default from_option Datatypes.id negb] in *;
          cbv beta iota).

Ltac cm_simpl :=
  repeat (py_simpl; unfold logged in *; rewrite ?lookup_log in *;
          cbn [Redis.log Redis.available Redis.store Redis.since Redis.calls
               Redis.with_store Redis.with_since] in * ).

(** *** Name spaces *)

Lemma colon_free_split t1 : forall t2 k1 k2,
  colon_free t1 = true -> colon_free t2 = true ->
  String.append t1 (String.append ":" k1) = String.append t2 (String.append ":" k2) ->
  t1 = t2 /\ k1 = k2.
Proof.
  induction t1 as [|c1 t1 IH]; intros [|c2 t2] k1 k2 H1 H2 E.
  - injection E as E. change (k1 = k2) in E. tauto.
  - injection E as <- _. cbn in H2. discriminate H2.
  - injection E as -> _. cbn in H1. discriminate H1.
  - injection E as -> E. cbn in H1, H2.
    apply andb_true_iff in H1 as [_ H1]. apply andb_true_iff in H2 as [_ H2].
    destruct (IH _ _ _ H1 H2 E) as [-> ->]. tauto.
Qed.

(** [_get_cache_key] separates the tenants whose ids contain no [":"]: two
    such tenants never share a backend key, and a tenant's two keys have
    two backend keys.  An id with a [":"] breaks this: key ["d:e"] of
    tenant ["abc"] and key ["e"] of tenant ["abc:d"] are the same entry. *)
Theorem cache_key_injective (t1 t2 k1 k2 : string) :
  (colon_free t1 = true -> colon_free t2 = true ->
   _get_cache_key t1 k1 = _get_cache_key t2 k2 -> t1 = t2 /\ k1 = k2) /\
  _get_cache_key "abc" "d:e" = _get_cache_key "abc:d" "e".
Proof.
  split; [|reflexivity].
  intros H1 H2 E. unfold _get_cache_key in E.
  injection E as E. now apply colon_free_split.
Qed.

Lemma cache_key_injective_witness :
  "acme" = "acme" /\ "k" = "k".
Proof.
  apply (cache_key_injective "acme" "acme" "k" "k"); reflexivity.
Defined.

Lemma cache_key_other_tenant tA tB key key' :
  colon_free tA = true -> colon_free tB = true -> tA <> tB ->
  _get_cache_key tB key' <> _get_cache_key tA key.
Proof.
  intros HA HB Hne E. unfold _get_cache_key in E. injection E as E.
  destruct (colon_free_split _ _ _ _ HB HA E) as [-> _]. now apply Hne.
Qed.

(** *** Footprints

    A relation [R] between the state before and the state after, that
    every primitive step satisfies, is satisfied by the whole method. *)

Section Steps.
Context {S : Type} (R : S -> S -> Prop).
Hypothesis R_refl : forall s, R s s.
Hypothesis R_trans : forall s1 s2 s3, R s1 s2 -> R s2 s3 -> R s1 s3.

Local Abbreviation steps c := (forall s, R s (Py.final (c s))).

Lemma steps_ret {A} (a : A) : steps (ret a).
Proof. intros s. apply R_refl. Qed.

Lemma steps_raise {A} e : steps (@raise S A e).
Proof. intros s. apply R_refl. Qed.

Lemma steps_getitem {A} (o : option A) : steps (getitem o).
Proof. destruct o; intros s; apply R_refl. Qed.

Lemma steps_get_self : steps get_self.
Proof. intros s. apply R_refl. Qed.

Lemma steps_modify (f : S -> S) : (forall s, R s (f s)) -> steps (modify f).
Proof. intros Hf s. apply Hf. Qed.

Lemma steps_bind_with {A C} (Q : A -> Prop) (c : M S A) (k : A -> M S C) :
  steps c -> (forall s a, Py.result (c s) = Returned a -> Q a) ->
  (forall a, Q a -> steps (k a)) -> steps (bind c k).
Proof.
  intros Hc HQ Hk s. unfold bind. specialize (Hc s). specialize (HQ s).
  unfold Py.final, Py.result in *.
  destruct (c s) as [[a|e] s1]; cbn [fst snd] in *; [|exact Hc].
  eapply R_trans; [exact Hc|]. now apply Hk, HQ.
Qed.

Lemma steps_bind {A C} (c : M S A) (k : A -> M S C) :
  steps c -> (forall a, steps (k a)) -> steps (bind c k).
Proof.
  intros Hc Hk. apply (steps_bind_with (fun _ => True)); auto.
Qed.

Lemma steps_try_except {A} (body : M S A) (handler : exn -> M S A) :
  steps body -> (forall e, steps (handler e)) -> steps (try_except body handler).
Proof.
  intros Hb Hh s. unfold try_except. specialize (Hb s). unfold Py.final in *.
  destruct (body s) as [[a|e] s1]; cbn [fst snd] in *; [exact Hb|].
  eapply R_trans; [exact Hb|]. apply Hh.
Qed.
End Steps.


(** The footprint of the seven operations of one tenant, from the
    footprints of the steps they are made of. *)
Section Footprint.
Context {Value : Type} `{JsonCodec Value}.
Variable R : t -> t -> Prop.
Hypothesis R_refl : forall s, R s s.
Hypothesis R_trans : forall s1 s2 s3, R s1 s2 -> R s2 s3 -> R s1 s3.
Variable tid : string.

Local Abbreviation steps c := (forall s, R s (Py.final (c s))).
Local Abbreviation own kv := (exists key, fst kv = _get_cache_key tid key).

Hypothesis Hcheck : forall op now, steps (_check_tenant_quota tid op now).
Hypothesis Hop : forall op rt ok, steps (_update_operation_metrics tid op rt ok).
Hypothesis Hget : forall now k, steps (redis (Redis.get now k)).
Hypothesis Hmget : forall now ks, steps (redis (Redis.mget now ks)).
Hypothesis Hset : forall key v, steps (redis (Redis.set (_get_cache_key tid key) v)).
Hypothesis Hsetex :
  forall now key ttl v,
    steps (redis (Redis.setex now (_get_cache_key tid key) ttl v)).
Hypothesis Hdel :
  forall now key, steps (redis (Redis.delete now (_get_cache_key tid key))).
Hypothesis Hincrby :
  forall now key n, steps (redis (Redis.incrby now (_get_cache_key tid key) n)).
Hypothesis Hdecrby :
  forall now key n, steps (redis (Redis.decrby now (_get_cache_key tid key) n)).
Hypothesis Hmset :
  forall kvs, Forall (fun kv => own kv) kvs -> steps (redis (Redis.mset kvs)).
Hypothesis Hhits : forall s, R s (set_total_hits (total_hits s + 1) s).
Hypothesis Hmisses : forall s, R s (set_total_misses (total_misses s + 1) s).
Hypothesis Hmhits :
  steps (update_metrics tid (fun m => with_cache_hits (cache_hits m + 1) m)).
Hypothesis Hmmisses :
  steps (update_metrics tid (fun m => with_cache_misses (cache_misses m + 1) m)).
Hypothesis Hmem :
  forall x, steps (update_metrics tid
                     (fun m => with_memory_used_mb (memory_used_mb m + x) m)).

Lemma steps_dumps (v : Value) : steps (dumps v).
Proof. unfold dumps. destruct (json_dumps v) as [p|]; intros s0; apply R_refl. Qed.

Lemma steps_loads (p : string) : steps (loads p).
Proof. unfold loads. destruct (json_loads p) as [v|]; intros s0; apply R_refl. Qed.

Lemma get_steps key dflt now rt : steps (get tid key dflt now rt).
Proof.
  unfold get. apply (steps_try_except R R_trans).
  - apply (steps_bind R R_trans); [apply Hcheck|].
    intros [|]; cbn [negb]; [|apply (steps_ret R R_refl)].
    apply (steps_bind R R_trans); [apply Hget|]. intros [payload|].
    + apply (steps_bind R R_trans); [apply (steps_modify R), Hhits|]. intros _.
      apply (steps_bind R R_trans); [apply Hmhits|]. intros _.
      apply (steps_bind R R_trans); [apply steps_loads|]. intros v.
      apply (steps_bind R R_trans); [apply Hop|]. intros _.
      apply (steps_ret R R_refl).
    + apply (steps_bind R R_trans); [apply (steps_modify R), Hmisses|]. intros _.
      apply (steps_bind R R_trans); [apply Hmmisses|]. intros _.
      apply (steps_bind R R_trans); [apply Hop|]. intros _.
      apply (steps_ret R R_refl).
  - intros e. apply (steps_bind R R_trans); [apply Hop|]. intros _.
    apply (steps_ret R R_refl).
Qed.

Lemma set_steps key v ttl now rt : steps (set tid key v ttl now rt).
Proof.
  unfold set. apply (steps_try_except R R_trans).
  - apply (steps_bind R R_trans); [apply Hcheck|].
    intros [|]; cbn [negb]; [|apply (steps_ret R R_refl)].
    apply (steps_bind R R_trans); [apply steps_dumps|]. intros payload.
    apply (steps_bind R R_trans); [apply (steps_get_self R R_refl)|]. intros s0.
    apply (steps_bind R R_trans); [apply (steps_getitem R R_refl)|]. intros m.
    apply (steps_bind R R_trans); [apply (steps_getitem R R_refl)|]. intros tn.
    destruct (Qgtb _ _); [apply (steps_ret R R_refl)|].
    apply (steps_bind R R_trans).
    { destruct (truthy_int ttl); [apply Hsetex | apply Hset]. }
    intros _. apply (steps_bind R R_trans); [apply Hmem|]. intros _.
    apply (steps_bind R R_trans); [apply Hop|]. intros _.
    apply (steps_ret R R_refl).
  - intros e. apply (steps_bind R R_trans); [apply Hop|]. intros _.
    apply (steps_ret R R_refl).
Qed.

Lemma delete_steps key now rt : steps (delete tid key now rt).
Proof.
  unfold delete. apply (steps_try_except R R_trans).
  - apply (steps_bind R R_trans); [apply Hcheck|].
    intros [|]; cbn [negb]; [|apply (steps_ret R R_refl)].
    apply (steps_bind R R_trans); [apply Hget|]. intros value.
    apply (steps_bind R R_trans).
    { destruct (truthy_bytes value); [|apply (steps_ret R R_refl)].
      apply (Hmem (- (inject_Z (len (default EmptyString value)) / MiB))%Q). }
    intros _. apply (steps_bind R R_trans); [apply Hdel|]. intros result.
    apply (steps_bind R R_trans); [apply Hop|]. intros _.
    apply (steps_ret R R_refl).
  - intros e. apply (steps_bind R R_trans); [apply Hop|]. intros _.
    apply (steps_ret R R_refl).
Qed.

Lemma incr_steps key amount now rt : steps (incr tid key amount now rt).
Proof.
  unfold incr. apply (steps_try_except R R_trans).
  - apply (steps_bind R R_trans); [apply Hcheck|].
    intros [|]; cbn [negb]; [|apply (steps_ret R R_refl)].
    apply (steps_bind R R_trans); [apply Hincrby|]. intros result.
    apply (steps_bind R R_trans); [apply Hop|]. intros _.
    apply (steps_ret R R_refl).
  - intros e. apply (steps_bind R R_trans); [apply Hop|]. intros _.
    apply (steps_ret R R_refl).
Qed.

Lemma decr_steps key amount now rt : steps (decr tid key amount now rt).
Proof.
  unfold decr. apply (steps_try_except R R_trans).
  - apply (steps_bind R R_trans); [apply Hcheck|].
    intros [|]; cbn [negb]; [|apply (steps_ret R R_refl)].
    apply (steps_bind R R_trans); [apply Hdecrby|]. intros result.
    apply (steps_bind R R_trans); [apply Hop|]. intros _.
    apply (steps_ret R R_refl).
  - intros e. apply (steps_bind R R_trans); [apply Hop|]. intros _.
    apply (steps_ret R R_refl).
Qed.

Lemma deserialize_steps values : steps (deserialize (Value := Value) tid values).
Proof.
  induction values as [|[payload|] rest IH]; cbn [deserialize].
  - apply (steps_ret R R_refl).
  - apply (steps_bind R R_trans); [apply steps_loads|]. intros v.
    apply (steps_bind R R_trans); [apply (steps_modify R), Hhits|]. intros _.
    apply (steps_bind R R_trans); [apply Hmhits|]. intros _.
    apply (steps_bind R R_trans); [apply IH|]. intros vs.
    apply (steps_ret R R_refl).
  - apply (steps_bind R R_trans); [apply (steps_modify R), Hmisses|]. intros _.
    apply (steps_bind R R_trans); [apply Hmmisses|]. intros _.
    apply (steps_bind R R_trans); [apply IH|]. intros vs.
    apply (steps_ret R R_refl).
Qed.

Lemma mget_steps keys now rt : steps (mget (Value := Value) tid keys now rt).
Proof.
  unfold mget. apply (steps_try_except R R_trans).
  - apply (steps_bind R R_trans); [apply Hcheck|].
    intros [|]; cbn [negb]; [|apply (steps_ret R R_refl)].
    apply (steps_bind R R_trans); [apply Hmget|]. intros values.
    apply (steps_bind R R_trans); [apply deserialize_steps|]. intros result.
    apply (steps_bind R R_trans); [apply Hop|]. intros _.
    apply (steps_ret R R_refl).
  - intros e. apply (steps_bind R R_trans); [apply Hop|]. intros _.
    apply (steps_ret R R_refl).
Qed.

(** [prepare] does not touch the manager and names only keys of the
    tenant. *)
Lemma prepare_pure (kvs : list (string * Value)) : forall acc total s,
  Py.final (prepare tid kvs acc total s) = s.
Proof.
  induction kvs as [|[key v] rest IH]; intros acc total s; cbn [prepare].
  - reflexivity.
  - unfold dumps, bind. destruct (json_dumps v); cbn; [apply IH | reflexivity].
Qed.

Lemma prepare_own (kvs : list (string * Value)) : forall acc total s a,
  Forall (fun kv => own kv) acc ->
  Py.result (prepare tid kvs acc total s) = Returned a ->
  Forall (fun kv => own kv) (fst a).
Proof.
  induction kvs as [|[key v] rest IH]; intros acc total s a Hacc; cbn [prepare].
  - cbn. intros [= <-]. exact Hacc.
  - unfold dumps, bind. destruct (json_dumps v) as [p|]; cbn; [|discriminate].
    apply IH. apply Forall_app. split; [exact Hacc|].
    constructor; [|constructor]. now exists key.
Qed.

Lemma mset_steps kvs now rt : steps (mset tid kvs now rt).
Proof.
  unfold mset. apply (steps_try_except R R_trans).
  - apply (steps_bind R R_trans); [apply Hcheck|].
    intros [|]; cbn [negb]; [|apply (steps_ret R R_refl)].
    apply (steps_bind_with R R_trans (fun a => Forall (fun kv => own kv) (fst a))).
    + intros s. rewrite prepare_pure. apply R_refl.
    + intros s a. apply prepare_own. constructor.
    + intros prepared Hown.
      apply (steps_bind R R_trans); [apply (steps_get_self R R_refl)|]. intros s0.
      apply (steps_bind R R_trans); [apply (steps_getitem R R_refl)|]. intros m.
      apply (steps_bind R R_trans); [apply (steps_getitem R R_refl)|]. intros tn.
      destruct (Qgtb _ _); [apply (steps_ret R R_refl)|].
      apply (steps_bind R R_trans); [now apply Hmset|]. intros _.
      apply (steps_bind R R_trans); [apply Hmem|]. intros _.
      apply (steps_bind R R_trans); [apply Hop|]. intros _.
      apply (steps_ret R R_refl).
  - intros e. apply (steps_bind R R_trans); [apply Hop|]. intros _.
    apply (steps_ret R R_refl).
Qed.
End Footprint.


(** *** The steps, one by one *)

Lemma redis_final {A} (c : M Redis.t A) (s : t) :
  Py.final (redis c s) = set_redis_client (Py.final (c (redis_client s))) s.
Proof.
  unfold redis, zoom, Py.final. now destruct (c (redis_client s)).
Qed.

(** The admission check writes nothing but rate-limit timestamps of the
    tenant it checks. *)
Lemma check_final tid op now s :
  Py.final (_check_tenant_quota tid op now s) = s \/
  exists f, Py.final (_check_tenant_quota tid op now s) = set_rate_limiters f s /\
            forall d tB, tB <> tid -> f d !! tB = d !! tB.
Proof.
  destruct (tenants s !! tid) as [tn|] eqn:Ht.
  2:{ left. now rewrite check_unregistered. }
  destruct (tenant_metrics s !! tid) as [m|] eqn:Hm.
  2:{ left. unfold _check_tenant_quota. py_simpl. now rewrite Ht, Hm. }
  rewrite (check_registered _ _ _ _ _ _ Ht Hm).
  destruct (Qgtb _ _); [now left|]. cbv zeta.
  assert (Hw : with_limiter tid s = s \/
               with_limiter tid s = set_rate_limiters (insert tid ∅) s).
  { unfold with_limiter. destruct (rate_limiters s !! tid); [now left | now right]. }
  assert (Hlim : Py.final (Returned false, with_limiter tid s) = s \/
                 exists f, Py.final (Returned false, with_limiter tid s)
                           = set_rate_limiters f s /\
                           forall d tB, tB <> tid -> f d !! tB = d !! tB).
  { destruct Hw as [-> | ->]; [now left|]. right. eexists. split; [reflexivity|].
    intros d tB Hne. now rewrite lookup_insert_ne. }
  destruct (_ =? _); [exact Hlim|]. destruct (Qltb _ _); [exact Hlim|].
  right. destruct Hw as [-> | ->].
  - eexists. split; [reflexivity|]. intros d tB Hne. now rewrite lookup_insert_ne.
  - exists (fun d => <[tid := <[rate_key op := now]> (limiter_of s tid)]> (<[tid := ∅]> d)).
    split; [reflexivity|]. intros d tB Hne. now rewrite !lookup_insert_ne.
Qed.

Lemma update_metrics_final tid f s :
  Py.final (update_metrics tid f s) = s \/
  exists m, tenant_metrics s !! tid = Some m /\
            Py.final (update_metrics tid f s) = set_tenant_metrics (insert tid (f m)) s.
Proof.
  rewrite update_metrics_eq. destruct (tenant_metrics s !! tid) as [m|]; [|now left].
  right. now exists m.
Qed.

Lemma update_op_final tid op rt ok s :
  Py.final (_update_operation_metrics tid op rt ok s) = s \/
  exists m, tenant_metrics s !! tid = Some m /\
            Py.final (_update_operation_metrics tid op rt ok s)
            = set_tenant_metrics (insert tid (updated_metrics rt ok m)) s.
Proof.
  rewrite update_op_eq. destruct (tenant_metrics s !! tid) as [m|]; [|now left].
  right. now exists m.
Qed.

(** Which cells a command of the backend leaves alone. *)

Lemma issue_cell {A} (c : Redis.command) (run : M Redis.t A) (k0 : string) :
  (forall r, Redis.cell (Py.final (run r)) k0 = Redis.cell r k0) ->
  forall r, Redis.cell (Py.final (Redis.issue c run r)) k0 = Redis.cell r k0.
Proof.
  intros Hrun r. unfold Redis.issue.
  destruct (Redis.available (Redis.log c r)); [|reflexivity].
  now rewrite Hrun.
Qed.

Lemma redis_get_cell now k k0 r :
  Redis.cell (Py.final (Redis.get now k r)) k0 = Redis.cell r k0.
Proof. apply issue_cell. reflexivity. Qed.

Lemma redis_mget_cell now ks k0 r :
  Redis.cell (Py.final (Redis.mget now ks r)) k0 = Redis.cell r k0.
Proof. apply issue_cell. intros r'. now destruct ks. Qed.

Lemma redis_set_cell k v k0 r :
  k0 <> k -> Redis.cell (Py.final (Redis.set k v r)) k0 = Redis.cell r k0.
Proof.
  intros Hne. apply issue_cell. intros r'. unfold Redis.cell. cbn.
  now rewrite lookup_insert_ne.
Qed.

Lemma redis_setex_cell now k ttl v k0 r :
  k0 <> k -> Redis.cell (Py.final (Redis.setex now k ttl v r)) k0 = Redis.cell r k0.
Proof.
  intros Hne. apply issue_cell. intros r'. unfold Redis.cell.
  destruct (ttl <=? 0); cbn; [reflexivity|]. now rewrite !lookup_insert_ne.
Qed.

Lemma redis_delete_cell now k k0 r :
  k0 <> k -> Redis.cell (Py.final (Redis.delete now k r)) k0 = Redis.cell r k0.
Proof.
  intros Hne. apply issue_cell. intros r'. unfold Redis.cell. py_simpl.
  destruct (Redis.lookup r' now k); cbn; [|reflexivity]. now rewrite lookup_delete_ne.
Qed.

Lemma redis_add_to_cell now k delta k0 r :
  k0 <> k -> Redis.cell (Py.final (Redis.add_to now k delta r)) k0 = Redis.cell r k0.
Proof.
  intros Hne. unfold Redis.add_to, Redis.cell. py_simpl.
  destruct (match Redis.lookup r now k with
            | Some (v, ttl) => option_map (fun n => (n, ttl)) (int_of_str v)
            | None => Some (0, None)
            end) as [[n ttl]|]; [|reflexivity].
  destruct (_ && _); cbn; [|reflexivity]. now rewrite lookup_insert_ne.
Qed.

Lemma redis_incrby_cell now k n k0 r :
  k0 <> k -> Redis.cell (Py.final (Redis.incrby now k n r)) k0 = Redis.cell r k0.
Proof. intros Hne. apply issue_cell. intros r'. now apply redis_add_to_cell. Qed.

Lemma redis_decrby_cell now k n k0 r :
  k0 <> k -> Redis.cell (Py.final (Redis.decrby now k n r)) k0 = Redis.cell r k0.
Proof. intros Hne. apply issue_cell. intros r'. now apply redis_add_to_cell. Qed.

Lemma fold_insert_other (kvs : list (string * string)) (k0 : string) :
  forall st : gmap string (string * option Z),
  Forall (fun kv => fst kv <> k0) kvs ->
  List.fold_left (fun acc kv => <[fst kv := (snd kv, None)]> acc) kvs st !! k0 = st !! k0.
Proof.
  induction kvs as [|kv rest IH]; intros st Hall; cbn [List.fold_left]; [reflexivity|].
  apply Forall_cons in Hall as [Hkv Hrest].
  rewrite IH by exact Hrest. now rewrite lookup_insert_ne.
Qed.

Lemma redis_mset_cell kvs k0 r :
  Forall (fun kv => fst kv <> k0) kvs ->
  Redis.cell (Py.final (Redis.mset kvs r)) k0 = Redis.cell r k0.
Proof.
  intros Hall. apply issue_cell. intros r'. destruct kvs as [|kv rest]; [reflexivity|].
  unfold Redis.cell.
  cbn [Py.final modify snd Redis.with_store Redis.store Redis.since].
  now rewrite fold_insert_other.
Qed.

(** The operations under a relation [R] that does not look at the
    backend, the rate limiters or the global hit counters, and sees a
    metrics record only through a relation [G] between the old and the new
    record. *)
Section Blind.
Context {Value : Type} `{JsonCodec Value}.
Variable R : t -> t -> Prop.
Variable G : CacheMetrics -> CacheMetrics -> Prop.
Hypothesis R_refl : forall s, R s s.
Hypothesis R_trans : forall s1 s2 s3, R s1 s2 -> R s2 s3 -> R s1 s3.
Hypothesis Hrate : forall f s, R s (set_rate_limiters f s).
Hypothesis Hredis : forall r s, R s (set_redis_client r s).
Hypothesis Hmet :
  forall tid g m s, tenant_metrics s !! tid = Some m -> G m (g m) ->
                    R s (set_tenant_metrics (insert tid (g m)) s).
Hypothesis Hhits : forall n s, R s (set_total_hits n s).
Hypothesis Hmisses : forall n s, R s (set_total_misses n s).
Hypothesis G_op : forall rt ok m, G m (updated_metrics rt ok m).
Hypothesis G_hits : forall m, G m (with_cache_hits (cache_hits m + 1) m).
Hypothesis G_misses : forall m, G m (with_cache_misses (cache_misses m + 1) m).
Hypothesis G_mem : forall x m, G m (with_memory_used_mb x m).

Lemma blind_check tid op now s : R s (Py.final (_check_tenant_quota tid op now s)).
Proof.
  destruct (check_final tid op now s) as [-> | (f & -> & _)]; [apply R_refl | apply Hrate].
Qed.

Lemma blind_op tid op rt ok s :
  R s (Py.final (_update_operation_metrics tid op rt ok s)).
Proof.
  destruct (update_op_final tid op rt ok s) as [-> | (m & Hm & ->)]; [apply R_refl|].
  apply (Hmet tid (updated_metrics rt ok) m s Hm). apply G_op.
Qed.

Lemma blind_redis {A} (c : M Redis.t A) s : R s (Py.final (redis c s)).
Proof. rewrite redis_final. apply Hredis. Qed.

Lemma blind_metrics tid g s :
  (forall m, G m (g m)) -> R s (Py.final (update_metrics tid g s)).
Proof.
  intros Hg. destruct (update_metrics_final tid g s) as [-> | (m & Hm & ->)];
    [apply R_refl|]. now apply Hmet.
Qed.

Ltac blind_steps :=
  first [ exact R_refl | exact R_trans
        | intros;
          first [ apply blind_check | apply blind_op | apply blind_redis
                | apply Hhits | apply Hmisses
                | apply blind_metrics; intros;
                  first [apply G_hits | apply G_misses | apply G_mem] ] ].

Lemma blind_get tid key dflt now rt s : R s (Py.final (get tid key dflt now rt s)).
Proof. revert s. apply (get_steps R); blind_steps. Qed.

Lemma blind_mget tid keys now rt s :
  R s (Py.final (mget (Value := Value) tid keys now rt s)).
Proof. revert s. apply (mget_steps R); blind_steps. Qed.

Lemma blind_incr tid key amount now rt s :
  R s (Py.final (incr tid key amount now rt s)).
Proof. revert s. apply (incr_steps R); blind_steps. Qed.

Lemma blind_decr tid key amount now rt s :
  R s (Py.final (decr tid key amount now rt s)).
Proof. revert s. apply (decr_steps R); blind_steps. Qed.

Lemma blind_set tid key v ttl now rt s : R s (Py.final (set tid key v ttl now rt s)).
Proof. revert s. apply (set_steps R); blind_steps. Qed.

Lemma blind_delete tid key now rt s : R s (Py.final (delete tid key now rt s)).
Proof. revert s. apply (delete_steps R); blind_steps. Qed.

Lemma blind_mset tid kvs now rt s : R s (Py.final (mset tid kvs now rt s)).
Proof. revert s. apply (mset_steps R); blind_steps. Qed.
End Blind.


(** *** Request counters *)

Lemma updated_metrics_add_up rt ok m :
  requests_add_up m -> requests_add_up (updated_metrics rt ok m).
Proof.
  unfold requests_add_up, updated_metrics.
  destruct ok; cbn [total_requests successful_requests failed_requests]; lia.
Qed.

Ltac add_up_side :=
  first
    [ solve [auto]
    | now (intros ? ? ?)
    | (intros tid' g m s0 Hm Hg Hs0; unfold metrics_add_up in *;
       cbn [set_tenant_metrics tenant_metrics];
       apply map_Forall_insert_2; [exact (Hg (Hs0 tid' m Hm)) | exact Hs0])
    | (intros; now apply updated_metrics_add_up) ].

(** In every tenant's metrics [total_requests] is the sum of
    [successful_requests] and [failed_requests], and each of the seven
    operations, on any tenant, with any outcome, keeps it so. *)
Theorem request_counters_add_up {Value : Type} `{JsonCodec Value}
    (s : t) (tid : string) (now rt : Q) :
  metrics_add_up s ->
  forall (key : string) (dflt : option Value) (v : Value) (ttl : option Z)
         (amount : Z) (keys : list string) (kvs : list (string * Value)),
    metrics_add_up (Py.final (get tid key dflt now rt s)) /\
    metrics_add_up (Py.final (set tid key v ttl now rt s)) /\
    metrics_add_up (Py.final (delete tid key now rt s)) /\
    metrics_add_up (Py.final (incr tid key amount now rt s)) /\
    metrics_add_up (Py.final (decr tid key amount now rt s)) /\
    metrics_add_up (Py.final (mget (Value := Value) tid keys now rt s)) /\
    metrics_add_up (Py.final (mset tid kvs now rt s)).
Proof.
  intros Hinv key dflt v ttl amount keys kvs.
  set (R := fun s s' : t => metrics_add_up s -> metrics_add_up s').
  set (G := fun m m' : CacheMetrics => requests_add_up m -> requests_add_up m').
  repeat split; revert Hinv.
  - apply (blind_get R G); subst R G; cbv beta; add_up_side.
  - apply (blind_set R G); subst R G; cbv beta; add_up_side.
  - apply (blind_delete R G); subst R G; cbv beta; add_up_side.
  - apply (blind_incr R G); subst R G; cbv beta; add_up_side.
  - apply (blind_decr R G); subst R G; cbv beta; add_up_side.
  - apply (blind_mget R G); subst R G; cbv beta; add_up_side.
  - apply (blind_mset R G); subst R G; cbv beta; add_up_side.
Qed.

Lemma fresh_adds_up : metrics_add_up Scenario.fresh.
Proof.
  unfold metrics_add_up, Scenario.fresh. cbn [tenant_metrics].
  apply map_Forall_singleton. reflexivity.
Qed.

Lemma request_counters_add_up_witness :
  metrics_add_up (Py.final (set "acme" "k" 42 None (100 # 1) (1 # 1) Scenario.fresh)).
Proof.
  exact (proj1 (proj2
           (request_counters_add_up (Value := Z) Scenario.fresh "acme" (100 # 1) (1 # 1)
              fresh_adds_up "k" None 42 None 1 [] []))).
Defined.

(** *** What the data plane never writes *)

(** No operation changes the tenant table, the per-tenant connection
    counters or [total_operations] (which therefore stays at the 0 it is
    initialised with); and only [get] and [mget] change [total_hits] and
    [total_misses]. *)
Theorem data_plane_leaves_registry {Value : Type} `{JsonCodec Value}
    (s : t) (tid : string) (now rt : Q)
    (key : string) (dflt : option Value) (v : Value) (ttl : option Z)
    (amount : Z) (keys : list string) (kvs : list (string * Value)) :
  let kept s' :=
    tenants s' = tenants s /\ tenant_connections s' = tenant_connections s /\
    total_operations s' = total_operations s in
  let quiet s' := total_hits s' = total_hits s /\ total_misses s' = total_misses s in
  kept (Py.final (get tid key dflt now rt s)) /\
  kept (Py.final (mget (Value := Value) tid keys now rt s)) /\
  (kept (Py.final (set tid key v ttl now rt s)) /\
   quiet (Py.final (set tid key v ttl now rt s))) /\
  (kept (Py.final (delete tid key now rt s)) /\
   quiet (Py.final (delete tid key now rt s))) /\
  (kept (Py.final (incr tid key amount now rt s)) /\
   quiet (Py.final (incr tid key amount now rt s))) /\
  (kept (Py.final (decr tid key amount now rt s)) /\
   quiet (Py.final (decr tid key amount now rt s))) /\
  (kept (Py.final (mset tid kvs now rt s)) /\
   quiet (Py.final (mset tid kvs now rt s))).
Proof.
  cbv zeta.
  set (R := fun s s' : t =>
              tenants s' = tenants s /\ tenant_connections s' = tenant_connections s /\
              total_operations s' = total_operations s).
  set (Q := fun s s' : t =>
              (tenants s' = tenants s /\ tenant_connections s' = tenant_connections s /\
               total_operations s' = total_operations s) /\
              (total_hits s' = total_hits s /\ total_misses s' = total_misses s)).
  set (G := fun _ _ : CacheMetrics => True).
  assert (R_trans : forall s1 s2 s3, R s1 s2 -> R s2 s3 -> R s1 s3).
  { subst R. cbv beta. intros s1 s2 s3 (-> & -> & ->) (-> & -> & ->). tauto. }
  assert (Q_trans : forall s1 s2 s3, Q s1 s2 -> Q s2 s3 -> Q s1 s3).
  { subst Q. cbv beta.
    intros s1 s2 s3 ((-> & -> & ->) & -> & ->) ((-> & -> & ->) & -> & ->). tauto. }
  split; [|split; [|split; [|split; [|split; [|split]]]]].
  - apply (blind_get R G); try exact R_trans; subst R G; cbv beta; intros; tauto.
  - apply (blind_mget R G); try exact R_trans; subst R G; cbv beta; intros; tauto.
  - apply (blind_set Q G); try exact Q_trans; subst Q G; cbv beta; intros; tauto.
  - apply (blind_delete Q G); try exact Q_trans; subst Q G; cbv beta; intros; tauto.
  - apply (blind_incr Q G); try exact Q_trans; subst Q G; cbv beta; intros; tauto.
  - apply (blind_decr Q G); try exact Q_trans; subst Q G; cbv beta; intros; tauto.
  - apply (blind_mset Q G); try exact Q_trans; subst Q G; cbv beta; intros; tauto.
Qed.

Lemma memory_used_insert tid g m s t' :
  tenant_metrics s !! tid = Some m -> memory_used_mb (g m) = memory_used_mb m ->
  memory_used (set_tenant_metrics (insert tid (g m)) s) t' = memory_used s t'.
Proof.
  intros Hm Hg. unfold memory_used. py_simpl.
  destruct (decide (tid = t')) as [<-|Hne].
  - rewrite lookup_insert_eq, Hm. cbn. now rewrite Hg.
  - now rewrite lookup_insert_ne.
Qed.

(** [get], [mget], [incr] and [decr] never change the [memory_used_mb] of
    any tenant: the entry that INCRBY or DECRBY creates or lengthens is
    not accounted for. *)
Theorem counters_are_not_accounted {Value : Type} `{JsonCodec Value}
    (s : t) (tid : string) (now rt : Q)
    (key : string) (dflt : option Value) (amount : Z) (keys : list string)
    (tenant_id : string) :
  memory_used (Py.final (get tid key dflt now rt s)) tenant_id = memory_used s tenant_id /\
  memory_used (Py.final (mget (Value := Value) tid keys now rt s)) tenant_id
    = memory_used s tenant_id /\
  memory_used (Py.final (incr tid key amount now rt s)) tenant_id
    = memory_used s tenant_id /\
  memory_used (Py.final (decr tid key amount now rt s)) tenant_id
    = memory_used s tenant_id.
Proof.
  set (R := fun s s' : t => forall t', memory_used s' t' = memory_used s t').
  set (G := fun m m' : CacheMetrics => memory_used_mb m' = memory_used_mb m).
  assert (R_trans : forall s1 s2 s3, R s1 s2 -> R s2 s3 -> R s1 s3).
  { subst R. cbv beta. intros s1 s2 s3 H12 H23 t'. now rewrite H23, H12. }
  assert (Hmet : forall tid g m s, tenant_metrics s !! tid = Some m -> G m (g m) ->
                                  R s (set_tenant_metrics (insert tid (g m)) s)).
  { subst R G. cbv beta. intros tid' g m s0 Hm Hg t'. now apply memory_used_insert. }
  repeat split.
  - apply (blind_get R G); try exact R_trans; try exact Hmet; subst R G; cbv beta;
      intros; reflexivity.
  - apply (blind_mget R G); try exact R_trans; try exact Hmet; subst R G; cbv beta;
      intros; reflexivity.
  - apply (blind_incr R G); try exact R_trans; try exact Hmet; subst R G; cbv beta;
      intros; reflexivity.
  - apply (blind_decr R G); try exact R_trans; try exact Hmet; subst R G; cbv beta;
      intros; reflexivity.
Qed.


(** *** Isolation of tenants *)

Section Isolation.
Variables tA tB key' : string.
Hypothesis HA : colon_free tA = true.
Hypothesis HB : colon_free tB = true.
Hypothesis Hne : tA <> tB.

Local Abbreviation same s s' := (tenant_view s' tB key' = tenant_view s tB key').

Lemma iso_refl s : same s s.
Proof. reflexivity. Qed.

Lemma iso_trans s1 s2 s3 : same s1 s2 -> same s2 s3 -> same s1 s3.
Proof. intros H12 H23. now rewrite H23. Qed.

Lemma iso_redis r s :
  Redis.cell r (_get_cache_key tB key')
    = Redis.cell (redis_client s) (_get_cache_key tB key') ->
  same s (set_redis_client r s).
Proof. intros Hr. unfold tenant_view. py_simpl. now rewrite Hr. Qed.

Lemma iso_metrics x s : same s (set_tenant_metrics (insert tA x) s).
Proof. unfold tenant_view. py_simpl. now rewrite lookup_insert_ne. Qed.

Lemma iso_check op now s : same s (Py.final (_check_tenant_quota tA op now s)).
Proof.
  destruct (check_final tA op now s) as [-> | (f & -> & Hf)]; [reflexivity|].
  unfold tenant_view. py_simpl. rewrite Hf by congruence. reflexivity.
Qed.

Lemma iso_op op rt ok s :
  same s (Py.final (_update_operation_metrics tA op rt ok s)).
Proof.
  destruct (update_op_final tA op rt ok s) as [-> | (m & _ & ->)];
    [reflexivity | apply iso_metrics].
Qed.

Lemma iso_update f s : same s (Py.final (update_metrics tA f s)).
Proof.
  destruct (update_metrics_final tA f s) as [-> | (m & _ & ->)];
    [reflexivity | apply iso_metrics].
Qed.

Lemma iso_key key : _get_cache_key tB key' <> _get_cache_key tA key.
Proof. now apply cache_key_other_tenant. Qed.

Lemma iso_mset kvs s :
  Forall (fun kv => exists key, fst kv = _get_cache_key tA key) kvs ->
  same s (Py.final (redis (Redis.mset kvs) s)).
Proof.
  intros Hown. rewrite redis_final. apply iso_redis. apply redis_mset_cell.
  eapply List.Forall_impl; [|exact Hown]. cbv beta.
  intros kv [key ->] E. symmetry in E. now apply iso_key in E.
Qed.

Ltac iso_steps :=
  first
    [ exact iso_refl | exact iso_trans
    | intros;
      first
        [ apply iso_check | apply iso_op | apply iso_update
        | now apply iso_mset
        | reflexivity
        | rewrite redis_final; apply iso_redis;
          first [ apply redis_get_cell | apply redis_mget_cell
                | apply redis_set_cell, iso_key
                | apply redis_setex_cell, iso_key
                | apply redis_delete_cell, iso_key
                | apply redis_incrby_cell, iso_key
                | apply redis_decrby_cell, iso_key ] ] ].

Context {Value : Type} `{JsonCodec Value}.

Lemma iso_get key dflt now rt s : same s (Py.final (get tA key dflt now rt s)).
Proof. revert s. apply (get_steps (fun s s' => same s s')); iso_steps. Qed.

Lemma iso_set key v ttl now rt s : same s (Py.final (set tA key v ttl now rt s)).
Proof. revert s. apply (set_steps (fun s s' => same s s')); iso_steps. Qed.

Lemma iso_delete key now rt s : same s (Py.final (delete tA key now rt s)).
Proof. revert s. apply (delete_steps (fun s s' => same s s')); iso_steps. Qed.

Lemma iso_incr key amount now rt s :
  same s (Py.final (incr tA key amount now rt s)).
Proof. revert s. apply (incr_steps (fun s s' => same s s')); iso_steps. Qed.

Lemma iso_decr key amount now rt s :
  same s (Py.final (decr tA key amount now rt s)).
Proof. revert s. apply (decr_steps (fun s s' => same s s')); iso_steps. Qed.

Lemma iso_mget keys now rt s :
  same s (Py.final (mget (Value := Value) tA keys now rt s)).
Proof. revert s. apply (mget_steps (fun s s' => same s s')); iso_steps. Qed.

Lemma iso_mset_op kvs now rt s : same s (Py.final (mset tA kvs now rt s)).
Proof. revert s. apply (mset_steps (fun s s' => same s s')); iso_steps. Qed.
End Isolation.

(** Whatever a tenant [tA] does through the seven operations, another
    tenant [tB] keeps its record, its metrics, its rate-limit timestamps
    and every entry stored under its keys, provided neither id contains
    a [":"]. *)
Theorem tenant_isolation {Value : Type} `{JsonCodec Value}
    (s : t) (tA tB : string) (now rt : Q) :
  colon_free tA = true -> colon_free tB = true -> tA <> tB ->
  forall (key : string) (dflt : option Value) (v : Value) (ttl : option Z)
         (amount : Z) (keys : list string) (kvs : list (string * Value))
         (key' : string),
    tenant_view (Py.final (get tA key dflt now rt s)) tB key' = tenant_view s tB key' /\
    tenant_view (Py.final (set tA key v ttl now rt s)) tB key' = tenant_view s tB key' /\
    tenant_view (Py.final (delete tA key now rt s)) tB key' = tenant_view s tB key' /\
    tenant_view (Py.final (incr tA key amount now rt s)) tB key'
      = tenant_view s tB key' /\
    tenant_view (Py.final (decr tA key amount now rt s)) tB key'
      = tenant_view s tB key' /\
    tenant_view (Py.final (mget (Value := Value) tA keys now rt s)) tB key'
      = tenant_view s tB key' /\
    tenant_view (Py.final (mset tA kvs now rt s)) tB key' = tenant_view s tB key'.
Proof.
  intros HA HB Hne key dflt v ttl amount keys kvs key'.
  split; [now apply iso_get|]. split; [now apply iso_set|].
  split; [now apply iso_delete|]. split; [now apply iso_incr|].
  split; [now apply iso_decr|]. split; [now apply iso_mget | now apply iso_mset_op].
Qed.

(** On a manager that serves two tenants, a [set] of [acme] is written
    and leaves what [globex] has stored under the same key name as it
    was. *)
Lemma tenant_isolation_witness :
  Py.result (set "acme" "k" 42 None (100 # 1) (1 # 1) Scenario.shared) = Returned true /\
  Redis.store (redis_client Scenario.shared) !! _get_cache_key "globex" "k"
    = Some ("7", None) /\
  tenant_view (Py.final (set "acme" "k" 42 None (100 # 1) (1 # 1) Scenario.shared))
    "globex" "k"
  = tenant_view Scenario.shared "globex" "k".
Proof.
  split; [vm_compute; reflexivity|]. split; [vm_compute; reflexivity|].
  exact (proj1 (proj2
           (tenant_isolation (Value := Z) Scenario.shared "acme" "globex" (100 # 1) (1 # 1)
              eq_refl eq_refl ltac:(discriminate) "k" None 42 None 1 [] [] "k"))).
Defined.


(** *** [mget] *)

Lemma deserialize_length {Value : Type} `{JsonCodec Value} tid values :
  forall s (l : list (option Value)),
    Py.result (deserialize tid values s) = Returned l -> length l = length values.
Proof.
  induction values as [|[payload|] rest IH]; intros s l; cbn [deserialize].
  - cbn. now intros [= <-].
  - unfold loads. destruct (json_loads payload) as [v|]; py_simpl; [|discriminate].
    rewrite update_metrics_eq. py_simpl.
    destruct (tenant_metrics s !! tid) as [m|]; py_simpl; [|discriminate].
    match goal with
    | |- context [deserialize tid rest ?s0] =>
        specialize (IH s0); destruct (deserialize tid rest s0) as [[vs|e] s2]
    end; py_simpl; [|discriminate].
    intros [= <-]. cbn [length]. f_equal. now apply IH.
  - py_simpl. rewrite update_metrics_eq. py_simpl.
    destruct (tenant_metrics s !! tid) as [m|]; py_simpl; [|discriminate].
    match goal with
    | |- context [deserialize tid rest ?s0] =>
        specialize (IH s0); destruct (deserialize tid rest s0) as [[vs|e] s2]
    end; py_simpl; [|discriminate].
    intros [= <-]. cbn [length]. f_equal. now apply IH.
Qed.

Lemma redis_mget_length now ks s vs :
  Py.result (redis (Redis.mget now ks) s) = Returned vs -> length vs = length ks.
Proof.
  unfold redis, Redis.mget, Redis.issue. py_simpl.
  destruct (Redis.available _); py_simpl; [|discriminate].
  destruct ks as [|k ks]; py_simpl; [discriminate|].
  intros [= <-]. apply (List.length_map _ (k :: ks)).
Qed.

Lemma update_op_returns tid op rt ok s :
  Py.result (_update_operation_metrics tid op rt ok s) = Returned tt.
Proof. rewrite update_op_eq. now destruct (tenant_metrics s !! tid). Qed.

(** [mget] always returns, and returns one slot per requested key: on
    every path, rejected, failed or served. *)
Theorem mget_answers_every_key {Value : Type} `{JsonCodec Value}
    (s : t) (tid : string) (keys : list string) (now rt : Q) :
  exists l : list (option Value),
    Py.result (mget tid keys now rt s) = Returned l /\ length l = length keys.
Proof.
  assert (Hnones : length (List.map (fun _ : string => @None Value) keys) = length keys)
    by apply List.length_map.
  assert (Hfail : forall s0,
            Py.result ((_update_operation_metrics tid "mget" 0 false ;;;
                        ret (List.map (fun _ : string => @None Value) keys)) s0)
            = Returned (List.map (fun _ => None) keys)).
  { intros s0. pose proof (update_op_returns tid "mget" 0 false s0) as Hu.
    unfold bind, ret, Py.result in *.
    destruct (_update_operation_metrics tid "mget" 0 false s0) as [o s1].
    cbn [fst] in Hu. now subst o. }
  unfold mget. unfold try_except at 1. unfold bind at 1.
  destruct (_check_tenant_quota tid "mget" now s) as [[[|]|e] s1]; cbn [negb].
  - unfold bind at 1.
    destruct (redis (Redis.mget now (List.map (_get_cache_key tid) keys)) s1)
      as [[vs|e] s2] eqn:Hm.
    + assert (Hvs : length vs = length keys).
      { rewrite (redis_mget_length now _ s1 vs) by now rewrite Hm.
        apply List.length_map. }
      unfold bind at 1.
      destruct (deserialize tid vs s2) as [[l|e] s3] eqn:Hd.
      * assert (Hl : length l = length vs).
        { apply (deserialize_length tid vs s2). now rewrite Hd. }
        pose proof (update_op_returns tid "mget" rt true s3) as Hu.
        unfold bind, ret, Py.result in *.
        destruct (_update_operation_metrics tid "mget" rt true s3) as [o s4].
        cbn [fst] in Hu. subst o. exists l. split; [reflexivity | congruence].
      * eexists. split; [apply Hfail | exact Hnones].
    + eexists. split; [apply Hfail | exact Hnones].
  - eexists. split; [reflexivity | exact Hnones].
  - eexists. split; [apply Hfail | exact Hnones].
Qed.


(** *** [get]: hits, misses and what is counted as a failure *)

(** An admitted [get] on a reachable backend, step by step. *)
Lemma get_admitted {Value : Type} `{JsonCodec Value}
    (s : t) (tid key : string) (dflt : option Value) (now rt : Q) (m : CacheMetrics) :
  tenant_metrics s !! tid = Some m ->
  Py.result (_check_tenant_quota tid "get" now s) = Returned true ->
  Redis.available (redis_client s) = true ->
  let r := get tid key dflt now rt s in
  match Redis.lookup (redis_client s) now (_get_cache_key tid key) with
  | Some (payload, _) =>
      total_hits (Py.final r) = total_hits s + 1 /\
      total_misses (Py.final r) = total_misses s /\
      match json_loads payload with
      | Some v =>
          Py.result r = Returned (Some v) /\
          tenant_metrics (Py.final r) !! tid
            = Some (updated_metrics rt true (with_cache_hits (cache_hits m + 1) m))
      | None =>
          Py.result r = Returned dflt /\
          tenant_metrics (Py.final r) !! tid
            = Some (updated_metrics 0 false (with_cache_hits (cache_hits m + 1) m))
      end
  | None =>
      total_hits (Py.final r) = total_hits s /\
      total_misses (Py.final r) = total_misses s + 1 /\
      Py.result r = Returned dflt /\
      tenant_metrics (Py.final r) !! tid
        = Some (updated_metrics rt false (with_cache_misses (cache_misses m + 1) m))
  end.
Proof.
  intros Hm Hadm Hav. cbv zeta.
  pose proof (check_frame s tid "get" now) as Hfr. cbv zeta in Hfr.
  unfold get. py_simpl.
  destruct (_check_tenant_quota tid "get" now s) as [o s1]. py_simpl. subst o.
  destruct Hfr as (Hr & _ & Hms & Hh & Hmi). py_simpl.
  rewrite redis_get_eq, Hr, Hav. cm_simpl.
  destruct (Redis.lookup (redis_client s) now (_get_cache_key tid key))
    as [[payload ttl]|]; cbn [fmap option_fmap option_map fst].
  - rewrite update_metrics_eq. cm_simpl. rewrite Hms, Hm. cm_simpl.
    unfold loads. destruct (json_loads payload) as [v|]; cm_simpl.
    + rewrite update_op_eq. cm_simpl. rewrite lookup_insert_eq. cm_simpl.
      rewrite Hh, Hmi. repeat split. now rewrite lookup_insert_eq.
    + rewrite update_op_eq. cm_simpl. rewrite lookup_insert_eq. cm_simpl.
      rewrite Hh, Hmi. repeat split. now rewrite lookup_insert_eq.
  - cm_simpl. rewrite update_metrics_eq. cm_simpl. rewrite Hms, Hm. cm_simpl.
    rewrite update_op_eq. cm_simpl. rewrite lookup_insert_eq. cm_simpl.
    rewrite Hh, Hmi. repeat split. now rewrite lookup_insert_eq.
Qed.

(** An admitted [get] on a reachable backend; the entry is the one the
    backend finds at the time of the call, so an entry whose time-to-live
    has run out is no entry.  If the entry exists and decodes, the value
    is returned and the tenant counts one more hit and one more
    successful request.  If the entry does not exist, the default is
    returned and the tenant counts one more miss and one more failed
    request: a miss raises the error rate.  If the entry exists but does
    not decode, the default is returned and the request counts both as a
    hit and as a failure. *)
Theorem get_accounting {Value : Type} `{JsonCodec Value}
    (s : t) (tid key : string) (dflt : option Value) (now rt : Q) (m : CacheMetrics) :
  tenant_metrics s !! tid = Some m ->
  Py.result (_check_tenant_quota tid "get" now s) = Returned true ->
  Redis.available (redis_client s) = true ->
  let r := get tid key dflt now rt s in
  let entry := Redis.lookup (redis_client s) now (_get_cache_key tid key) in
  exists m',
    tenant_metrics (Py.final r) !! tid = Some m' /\
    total_requests m' = total_requests m + 1 /\
    (forall payload ttl v,
       entry = Some (payload, ttl) -> json_loads payload = Some v ->
       Py.result r = Returned (Some v) /\
       total_hits (Py.final r) = total_hits s + 1 /\
       cache_hits m' = cache_hits m + 1 /\ cache_misses m' = cache_misses m /\
       successful_requests m' = successful_requests m + 1 /\
       failed_requests m' = failed_requests m) /\
    (entry = None ->
       Py.result r = Returned dflt /\
       total_misses (Py.final r) = total_misses s + 1 /\
       cache_misses m' = cache_misses m + 1 /\ cache_hits m' = cache_hits m /\
       successful_requests m' = successful_requests m /\
       failed_requests m' = failed_requests m + 1) /\
    (forall payload ttl,
       entry = Some (payload, ttl) -> json_loads payload = None ->
       Py.result r = Returned dflt /\
       total_hits (Py.final r) = total_hits s + 1 /\
       cache_hits m' = cache_hits m + 1 /\
       failed_requests m' = failed_requests m + 1).
Proof.
  intros Hm Hadm Hav. cbv zeta.
  pose proof (get_admitted s tid key dflt now rt m Hm Hadm Hav) as Hg. cbv zeta in Hg.
  destruct (Redis.lookup (redis_client s) now (_get_cache_key tid key))
    as [[payload ttl]|].
  - destruct Hg as (Hh & Hmi & Hg).
    destruct (json_loads payload) as [v|] eqn:Hl; destruct Hg as [Hres Hrec];
      eexists; (split; [exact Hrec|]); (split; [reflexivity|]);
      (split; [|split]); try discriminate.
    + intros p t' v' [= <- <-] Hv. rewrite Hl in Hv. injection Hv as <-.
      repeat split; assumption.
    + intros p t' [= <- <-] Hv. rewrite Hl in Hv. discriminate Hv.
    + intros p t' v' [= <- <-] Hv. rewrite Hl in Hv. discriminate Hv.
    + intros p t' [= <- <-] _. repeat split; assumption.
  - destruct Hg as (Hh & Hmi & Hres & Hrec).
    eexists. split; [exact Hrec|]. split; [reflexivity|].
    split; [|split]; try discriminate.
    intros _. repeat split; assumption.
Qed.

(** The key written by the first [set] is read back as a hit; a key never
    written is a miss that counts as a failed request. *)
Lemma get_accounting_witness :
  Py.result (get (Value := Z) "acme" "k" None (200 # 1) (1 # 1) Scenario.after_set)
    = Returned (Some 42) /\
  Py.result (get (Value := Z) "acme" "nope" None (200 # 1) (1 # 1) Scenario.after_set)
    = Returned None.
Proof.
  eassert (Hm : tenant_metrics Scenario.after_set !! "acme" = Some _)
    by (vm_compute; reflexivity).
  assert (Hadm : Py.result (_check_tenant_quota "acme" "get" (200 # 1) Scenario.after_set)
                 = Returned true) by (vm_compute; reflexivity).
  assert (Hav : Redis.available (redis_client Scenario.after_set) = true)
    by (vm_compute; reflexivity).
  split.
  - destruct (get_accounting (Value := Z) Scenario.after_set "acme" "k" None
                (200 # 1) (1 # 1) _ Hm Hadm Hav) as (m' & _ & _ & Hhit & _).
    eapply Hhit; vm_compute; reflexivity.
  - destruct (get_accounting (Value := Z) Scenario.after_set "acme" "nope" None
                (200 # 1) (1 # 1) _ Hm Hadm Hav) as (m' & _ & _ & _ & Hmiss & _).
    apply Hmiss. vm_compute. reflexivity.
Defined.

(** *** [set] followed by [get] *)

Lemma redis_set_eq k v s :
  redis (Redis.set k v) s =
    if Redis.available (redis_client s)
    then (Returned tt,
          set_redis_client
            (Redis.with_store (insert k (v, None)) (Redis.log (Redis.SET k v) (redis_client s)))
            s)
    else (Raised ConnectionError, logged (Redis.SET k v) s).
Proof.
  unfold redis, Redis.set, Redis.issue, logged. py_simpl.
  cbn [Redis.log Redis.available]. now destruct (Redis.available (redis_client s)).
Qed.

Lemma redis_setex_eq now k ttl v s :
  redis (Redis.setex now k ttl v) s =
    if Redis.available (redis_client s)
    then if ttl <=? 0
         then (Raised ResponseError, logged (Redis.SETEX k ttl v) s)
         else (Returned tt,
               set_redis_client
                 (Redis.with_since (insert k now)
                    (Redis.with_store (insert k (v, Some ttl))
                       (Redis.log (Redis.SETEX k ttl v) (redis_client s))))
                 s)
    else (Raised ConnectionError, logged (Redis.SETEX k ttl v) s).
Proof.
  unfold redis, Redis.setex, Redis.issue, logged. py_simpl.
  cbn [Redis.log Redis.available].
  destruct (Redis.available (redis_client s)); [|reflexivity].
  now destruct (ttl <=? 0).
Qed.

(** A guarded body whose handler answers [False] returned [True] only if
    the body itself did. *)
Lemma guarded_true {S} (body : M S bool) (h : M S unit) (s s' : S) :
  try_except body (fun _ => h ;;; ret false) s = (Returned true, s') ->
  body s = (Returned true, s').
Proof.
  unfold try_except, bind, ret. destruct (body s) as [[b|e] s1]; [easy|].
  destruct (h s1) as [[u|e'] s2]; discriminate.
Qed.

(** What a [set] that answered [True] has done. *)
Lemma set_success {Value : Type} `{JsonCodec Value}
    (s s' : t) (tid key : string) (v : Value) (ttl : option Z) (now rt : Q) :
  set tid key v ttl now rt s = (Returned true, s') ->
  exists payload m,
    json_dumps v = Some payload /\
    tenant_metrics s !! tid = Some m /\
    Redis.available (redis_client s') = true /\
    Redis.store (redis_client s')
      = <[_get_cache_key tid key := (payload, if truthy_int ttl then ttl else None)]>
          (Redis.store (redis_client s)) /\
    (truthy_int ttl = true ->
     Redis.since (redis_client s') !! _get_cache_key tid key = Some now) /\
    tenant_metrics s' !! tid
      = Some (updated_metrics rt true
                (with_memory_used_mb (memory_used_mb m + value_size_mb payload) m)) /\
    tenants s' = tenants s.
Proof.
  intros E. apply guarded_true in E.
  pose proof (check_frame s tid "set" now) as Hfr. cbv zeta in Hfr.
  py_simpl.
  destruct (_check_tenant_quota tid "set" now s) as [[[|]|e] s1]; cm_simpl;
    try discriminate E.
  destruct Hfr as (Hr & Hts & Hms & _ & _).
  unfold dumps in E. destruct (json_dumps v) as [payload|]; cm_simpl; [|discriminate E].
  destruct (tenant_metrics s1 !! tid) as [m|] eqn:Hm; cm_simpl; [|discriminate E].
  destruct (tenants s1 !! tid) as [tn|]; cm_simpl; [|discriminate E].
  destruct (Qgtb _ _); [discriminate E|].
  exists payload, m. split; [reflexivity|]. split; [now rewrite <- Hms|].
  destruct (truthy_int ttl) eqn:Htr.
  - rewrite redis_setex_eq in E.
    destruct (Redis.available (redis_client s1)) eqn:Hav; cm_simpl; [|discriminate E].
    destruct (default 0 ttl <=? 0); cm_simpl; [discriminate E|].
    rewrite update_metrics_eq in E. cm_simpl. rewrite Hm in E. cm_simpl.
    rewrite update_op_eq in E. cm_simpl. rewrite lookup_insert_eq in E. cm_simpl.
    injection E as <-. cm_simpl. rewrite Hr in *.
    destruct ttl as [n|]; [|discriminate Htr]. cbn [default from_option Datatypes.id].
    split; [exact Hav|]. split; [reflexivity|].
    split; [intros _; apply lookup_insert_eq|].
    split; [now rewrite lookup_insert_eq | exact Hts].
  - rewrite redis_set_eq in E.
    destruct (Redis.available (redis_client s1)) eqn:Hav; cm_simpl; [|discriminate E].
    rewrite update_metrics_eq in E. cm_simpl. rewrite Hm in E. cm_simpl.
    rewrite update_op_eq in E. cm_simpl. rewrite lookup_insert_eq in E. cm_simpl.
    injection E as <-. cm_simpl. rewrite Hr in *.
    split; [exact Hav|]. split; [reflexivity|]. split; [discriminate|].
    split; [now rewrite lookup_insert_eq | exact Hts].
Qed.

(** What the backend finds, at a later time, under a key that a [set] has
    just written. *)
Lemma lookup_after_set (r : Redis.t) (k payload : string) (ttl : option Z) (now1 now2 : Q) :
  Redis.store r !! k = Some (payload, if truthy_int ttl then ttl else None) ->
  (truthy_int ttl = true -> Redis.since r !! k = Some now1) ->
  ((forall n, ttl = Some n -> n <> 0 -> (now2 < now1 + inject_Z n)%Q) ->
   Redis.lookup r now2 k = Some (payload, if truthy_int ttl then ttl else None)) /\
  (forall n, ttl = Some n -> n <> 0 -> (now1 + inject_Z n < now2)%Q ->
   Redis.lookup r now2 k = None).
Proof.
  intros Hst Hsince. unfold Redis.lookup, Redis.expired. rewrite Hst.
  destruct ttl as [n|]; cbn [truthy_int] in *; [|split; [reflexivity | discriminate]].
  destruct (n =? 0) eqn:Hn; cbn [negb] in *.
  - apply Z.eqb_eq in Hn. split; [reflexivity|]. intros n' [= <-] Hne. congruence.
  - apply Z.eqb_neq in Hn. rewrite (Hsince eq_refl). cbn [default from_option Datatypes.id].
    split.
    + intros Hlive. specialize (Hlive n eq_refl Hn).
      assert (Hf : Qltb (now1 + inject_Z n) now2 = false)
        by (apply Qltb_false; now apply Qlt_le_weak).
      now rewrite Hf.
    + intros n' [= <-] _ Hdead. apply Qltb_true in Hdead. now rewrite Hdead.
Qed.

(** What a [set] has stored with [True], an admitted [get] of the same key
    returns, for every value that [json.loads] reads back from its
    [json.dumps], as long as the time-to-live given to [set], if any, has
    not run out; the read counts as one hit.  Once the time-to-live has
    run out, the [get] returns its default and counts as one miss. *)
Theorem set_get_round_trip {Value : Type} `{JsonCodec Value}
    (s : t) (tid key : string) (v : Value) (ttl : option Z) (dflt : option Value)
    (now1 rt1 now2 rt2 : Q) :
  (forall payload, json_dumps v = Some payload -> json_loads payload = Some v) ->
  let r1 := set tid key v ttl now1 rt1 s in
  Py.result r1 = Returned true ->
  Py.result (_check_tenant_quota tid "get" now2 (Py.final r1)) = Returned true ->
  let r2 := get tid key dflt now2 rt2 (Py.final r1) in
  ((forall n, ttl = Some n -> n <> 0 -> (now2 < now1 + inject_Z n)%Q) ->
   Py.result r2 = Returned (Some v) /\
   total_hits (Py.final r2) = total_hits (Py.final r1) + 1) /\
  (forall n, ttl = Some n -> n <> 0 -> (now1 + inject_Z n < now2)%Q ->
   Py.result r2 = Returned dflt /\
   total_misses (Py.final r2) = total_misses (Py.final r1) + 1).
Proof.
  intros Hcodec. cbv zeta.
  destruct (set tid key v ttl now1 rt1 s) as [o s1] eqn:E1.
  change (Py.final (o, s1)) with s1. change (Py.result (o, s1)) with o.
  intros -> Hadm.
  apply set_success in E1 as (payload & m & Hd & _ & Hav & Hst & Hsince & Hm1 & _).
  assert (Hk : Redis.store (redis_client s1) !! _get_cache_key tid key
               = Some (payload, if truthy_int ttl then ttl else None))
    by (rewrite Hst; apply lookup_insert_eq).
  destruct (lookup_after_set _ _ _ _ now1 now2 Hk Hsince) as [Hlive Hdead].
  pose proof (get_admitted s1 tid key dflt now2 rt2 _ Hm1 Hadm Hav) as Hg.
  cbv zeta in Hg. split.
  - intros Hbefore. rewrite (Hlive Hbefore) in Hg.
    rewrite (Hcodec payload Hd) in Hg.
    destruct Hg as (Hh & _ & Hres & _). split; assumption.
  - intros n Hn Hne Hafter. rewrite (Hdead n Hn Hne Hafter) in Hg.
    destruct Hg as (_ & Hmi & Hres & _). split; assumption.
Qed.

(** A value written at time 100 to live 10 seconds is read back at time
    105 and is gone at time 200. *)
Lemma set_get_round_trip_witness :
  Py.result (get (Value := Z) "acme" "k" None (105 # 1) (1 # 1)
               (Py.final (set "acme" "k" 42 (Some 10) (100 # 1) (1 # 1) Scenario.fresh)))
    = Returned (Some 42) /\
  Py.result (get (Value := Z) "acme" "k" None (200 # 1) (1 # 1)
               (Py.final (set "acme" "k" 42 (Some 10) (100 # 1) (1 # 1) Scenario.fresh)))
    = Returned None.
Proof.
  assert (Hcodec : forall payload,
            json_dumps 42 = Some payload -> json_loads payload = Some 42).
  { intros payload Hd. vm_compute in Hd. injection Hd as <-. vm_compute. reflexivity. }
  assert (Hset : Py.result (set "acme" "k" 42 (Some 10) (100 # 1) (1 # 1) Scenario.fresh)
                 = Returned true) by (vm_compute; reflexivity).
  split.
  - destruct (set_get_round_trip (Value := Z) Scenario.fresh "acme" "k" 42 (Some 10) None
                (100 # 1) (1 # 1) (105 # 1) (1 # 1) Hcodec Hset) as [Hlive _].
    + vm_compute. reflexivity.
    + apply Hlive. intros n [= <-] _. vm_compute. reflexivity.
  - destruct (set_get_round_trip (Value := Z) Scenario.fresh "acme" "k" 42 (Some 10) None
                (100 # 1) (1 # 1) (200 # 1) (1 # 1) Hcodec Hset) as [_ Hdead].
    + vm_compute. reflexivity.
    + apply (Hdead 10 eq_refl); [discriminate | vm_compute; reflexivity].
Defined.

(** *** [mset] and the memory quota *)

Lemma prepare_ok {Value : Type} `{JsonCodec Value} (tid : string)
    (kvs : list (string * Value)) (payloads : list string) :
  Forall2 (fun kv p => json_dumps (snd kv) = Some p) kvs payloads ->
  forall acc total s,
    prepare tid kvs acc total s
    = (Returned
         ((acc ++ List.map (fun kp => (_get_cache_key tid (fst (fst kp)), snd kp))
                    (combine kvs payloads))%list,
          List.fold_left (fun a p => (a + value_size_mb p)%Q) payloads total),
       s).
Proof.
  induction 1 as [|[key v] p kvs payloads Hd _ IH]; intros acc total s.
  - cbn. now rewrite List.app_nil_r.
  - cbn [prepare combine List.map List.fold_left fst snd]. cbn [snd] in Hd.
    unfold dumps, bind. rewrite Hd. cbn [ret]. rewrite IH.
    now rewrite <- List.app_assoc.
Qed.

Lemma redis_mset_eq kvs s :
  redis (Redis.mset kvs) s =
    if Redis.available (redis_client s)
    then match kvs with
         | [] => (Raised ResponseError, logged (Redis.MSET kvs) s)
         | _ =>
             (Returned tt,
              set_redis_client
                (Redis.with_store
                   (fun st => List.fold_left
                                (fun acc kv => <[fst kv := (snd kv, None)]> acc) kvs st)
                   (Redis.log (Redis.MSET kvs) (redis_client s)))
                s)
         end
    else (Raised ConnectionError, logged (Redis.MSET kvs) s).
Proof.
  unfold redis, Redis.mset, Redis.issue, logged. py_simpl.
  cbn [Redis.log Redis.available].
  destruct (Redis.available (redis_client s)); [|reflexivity].
  now destruct kvs.
Qed.

(** An admitted [mset] of encodable values, with [size] the sum of the
    encoded lengths in MB.  When [memory_used_mb + size] exceeds the
    limit, nothing is written: no backend command, no accounting.  When
    it does not, the backend is reachable and there is at least one pair,
    all pairs are written by one MSET and [size] is added to
    [memory_used_mb].  An [mset] of no pair at all answers [False]. *)
Theorem mset_respects_quota {Value : Type} `{JsonCodec Value}
    (s : t) (tid : string) (kvs : list (string * Value)) (payloads : list string)
    (now rt : Q) (tn : Tenant) (m : CacheMetrics) :
  tenants s !! tid = Some tn ->
  tenant_metrics s !! tid = Some m ->
  Forall2 (fun kv p => json_dumps (snd kv) = Some p) kvs payloads ->
  Py.result (_check_tenant_quota tid "mset" now s) = Returned true ->
  let size := List.fold_left (fun a p => (a + value_size_mb p)%Q) payloads 0%Q in
  let data := List.map (fun kp => (_get_cache_key tid (fst (fst kp)), snd kp))
                (combine kvs payloads) in
  let limit := inject_Z (memory_limit_mb tn) in
  let r := mset tid kvs now rt s in
  ((limit < memory_used_mb m + size)%Q ->
     Py.result r = Returned false /\
     redis_client (Py.final r) = redis_client s /\
     memory_used (Py.final r) tid = Some (memory_used_mb m)) /\
  ((memory_used_mb m + size <= limit)%Q ->
     Redis.available (redis_client s) = true ->
     kvs <> [] ->
     Py.result r = Returned true /\
     Redis.calls (redis_client (Py.final r))
       = (Redis.calls (redis_client s) ++ [Redis.MSET data])%list /\
     Redis.store (redis_client (Py.final r))
       = List.fold_left (fun acc kv => <[fst kv := (snd kv, None)]> acc) data
           (Redis.store (redis_client s)) /\
     memory_used (Py.final r) tid = Some (memory_used_mb m + size)%Q) /\
  (kvs = [] -> Py.result r = Returned false).
Proof.
  intros Ht Hm Hd Hadm size data limit r.
  pose proof (check_frame s tid "mset" now) as Hfr. cbv zeta in Hfr.
  assert (Hr : r =
    let s1 := Py.final (_check_tenant_quota tid "mset" now s) in
    if Qgtb (memory_used_mb m + size) limit then (Returned false, s1)
    else try_except
           (redis (Redis.mset data) ;;;
            update_metrics tid (fun m0 => with_memory_used_mb (memory_used_mb m0 + size) m0) ;;;
            _update_operation_metrics tid "mset" rt true ;;; ret true)
           (fun _ => _update_operation_metrics tid "mset" 0 false ;;; ret false) s1).
  { subst r. unfold mset. cbv zeta. unfold try_except at 1, bind at 1.
    destruct (_check_tenant_quota tid "mset" now s) as [o s1].
    unfold Py.result, Py.final in *. cbn [fst snd] in *. subst o. cbn [negb].
    destruct Hfr as (_ & Hts & Hms & _ & _).
    unfold bind at 1. rewrite (prepare_ok tid kvs payloads Hd). cbn [app fst snd].
    fold size data. unfold bind at 1, get_self at 1.
    unfold bind at 1. rewrite Hms, Hm. unfold getitem at 1, ret at 1.
    unfold bind at 1. rewrite Hts, Ht. unfold getitem at 1, ret at 1.
    cbn [memory_used_mb]. fold limit.
    destruct (Qgtb (memory_used_mb m + size) limit); [reflexivity|].
    unfold try_except. reflexivity. }
  destruct Hfr as (Hrc & _ & Hms & _ & _).
  set (s1 := Py.final (_check_tenant_quota tid "mset" now s)) in *.
  cbv zeta in Hr. rewrite Hr.
  split; [|split].
  - intros Hover. apply Qgtb_true in Hover. rewrite Hover.
    unfold memory_used. py_simpl. now rewrite Hrc, Hms, Hm.
  - intros Hfit Hav Hne. apply Qgtb_false in Hfit. rewrite Hfit.
    assert (Hdata : data <> []).
    { subst data. destruct Hd; [congruence|]. cbn. discriminate. }
    unfold memory_used. py_simpl. rewrite redis_mset_eq, Hrc, Hav.
    destruct data as [|kv rest] eqn:Hdt; [congruence|]. cm_simpl.
    rewrite update_metrics_eq. cm_simpl. rewrite Hms, Hm. cm_simpl.
    rewrite update_op_eq. cm_simpl. rewrite lookup_insert_eq. cm_simpl.
    rewrite lookup_insert_eq. cbn. repeat split; reflexivity.
  - intros ->. inversion Hd; subst. cbn in size, data. subst size data.
    destruct (Qgtb _ limit); [reflexivity|].
    py_simpl. rewrite redis_mset_eq.
    destruct (Redis.available (redis_client s1)); cm_simpl;
      rewrite update_op_eq; cm_simpl;
      now destruct (tenant_metrics s1 !! tid).
Qed.

(** Two integers are written to the fresh tenant at once. *)
Lemma mset_respects_quota_witness :
  Py.result (mset "acme" [("a", 1); ("b", 22)] (100 # 1) (1 # 1) Scenario.fresh)
    = Returned true /\
  Py.result (mset (Value := Z) "acme" [] (100 # 1) (1 # 1) Scenario.fresh)
    = Returned false.
Proof.
  split.
  - destruct (mset_respects_quota Scenario.fresh "acme" [("a", 1); ("b", 22)] ["1"; "22"]
                (100 # 1) (1 # 1) Scenario.acme CacheMetrics_default eq_refl eq_refl)
      as (_ & Hfit & _).
    + repeat constructor.
    + vm_compute. reflexivity.
    + apply Hfit; [vm_compute; discriminate | reflexivity | discriminate].
  - destruct (mset_respects_quota (Value := Z) Scenario.fresh "acme" [] []
                (100 # 1) (1 # 1) Scenario.acme CacheMetrics_default eq_refl eq_refl)
      as (_ & _ & Hempty).
    + constructor.
    + vm_compute. reflexivity.
    + now apply Hempty.
Defined.


(** *** Memory accounting across calls *)

(** An admitted [delete] of an entry that the backend finds, on a
    reachable backend. *)
Lemma delete_admitted (s : t) (tid key : string) (now rt : Q) (m : CacheMetrics)
    (payload : string) (ttl : option Z) :
  tenant_metrics s !! tid = Some m ->
  Py.result (_check_tenant_quota tid "delete" now s) = Returned true ->
  Redis.available (redis_client s) = true ->
  Redis.lookup (redis_client s) now (_get_cache_key tid key) = Some (payload, ttl) ->
  let r := delete tid key now rt s in
  Py.result r = Returned true /\
  Redis.store (redis_client (Py.final r))
    = base.delete (_get_cache_key tid key) (Redis.store (redis_client s)) /\
  tenant_metrics (Py.final r) !! tid
    = Some (updated_metrics rt true
              (if len payload =? 0 then m
               else with_memory_used_mb
                      (memory_used_mb m - inject_Z (len payload) / MiB) m)).
Proof.
  intros Hm Hadm Hav Hk. cbv zeta.
  pose proof (check_frame s tid "delete" now) as Hfr. cbv zeta in Hfr.
  unfold delete. py_simpl.
  destruct (_check_tenant_quota tid "delete" now s) as [o s1]. py_simpl. subst o.
  destruct Hfr as (Hr & _ & Hms & _ & _). py_simpl.
  rewrite redis_get_eq, Hr, Hav. cm_simpl. rewrite Hk.
  cbn [fmap option_fmap option_map fst truthy_bytes].
  destruct (len payload =? 0); cm_simpl.
  - rewrite redis_delete_eq. cm_simpl. rewrite Hr, Hav, Hk. cm_simpl.
    rewrite update_op_eq. cm_simpl. rewrite Hms, Hm. cm_simpl. rewrite ?Hr.
    repeat split. now rewrite lookup_insert_eq.
  - rewrite update_metrics_eq. cm_simpl. rewrite Hms, Hm. cm_simpl.
    rewrite redis_delete_eq. cm_simpl. rewrite Hr, Hav, Hk. cm_simpl.
    rewrite update_op_eq. cm_simpl. rewrite lookup_insert_eq. cm_simpl. rewrite ?Hr.
    repeat split. now rewrite lookup_insert_eq.
Qed.

(** An admitted [delete] of an entry that the backend does not find. *)
Lemma delete_missing (s : t) (tid key : string) (now rt : Q) (m : CacheMetrics) :
  tenant_metrics s !! tid = Some m ->
  Py.result (_check_tenant_quota tid "delete" now s) = Returned true ->
  Redis.available (redis_client s) = true ->
  Redis.lookup (redis_client s) now (_get_cache_key tid key) = None ->
  let r := delete tid key now rt s in
  Py.result r = Returned false /\
  tenant_metrics (Py.final r) !! tid = Some (updated_metrics rt false m).
Proof.
  intros Hm Hadm Hav Hk. cbv zeta.
  pose proof (check_frame s tid "delete" now) as Hfr. cbv zeta in Hfr.
  unfold delete. py_simpl.
  destruct (_check_tenant_quota tid "delete" now s) as [o s1]. py_simpl. subst o.
  destruct Hfr as (Hr & _ & Hms & _ & _). py_simpl.
  rewrite redis_get_eq, Hr, Hav. cm_simpl. rewrite Hk.
  cbn [fmap option_fmap option_map fst truthy_bytes]. cm_simpl.
  rewrite redis_delete_eq. cm_simpl. rewrite Hr, Hav, Hk. cm_simpl.
  rewrite update_op_eq. cm_simpl. rewrite Hms, Hm. cm_simpl.
  split; [reflexivity|]. now rewrite lookup_insert_eq.
Qed.

Lemma size_of_nothing payload :
  (len payload =? 0) = true -> (value_size_mb payload == 0)%Q.
Proof.
  intros Hz. apply Z.eqb_eq in Hz. unfold value_size_mb. rewrite Hz. reflexivity.
Qed.

(** A [set] that answered [True], followed by an admitted [delete] of the
    same key.  As long as the time-to-live given to [set], if any, has not
    run out, the [delete] answers [True], the entry is gone and the
    tenant's [memory_used_mb] is back at its value before the [set].
    Once the time-to-live has run out, the [delete] answers [False] and
    the tenant's [memory_used_mb] stays where the [set] left it: the bytes
    of an expired entry remain accounted for. *)
Theorem set_then_delete_restores_memory {Value : Type} `{JsonCodec Value}
    (s : t) (tid key : string) (v : Value) (ttl : option Z) (m : CacheMetrics)
    (now1 rt1 now2 rt2 : Q) :
  tenant_metrics s !! tid = Some m ->
  let r1 := set tid key v ttl now1 rt1 s in
  Py.result r1 = Returned true ->
  Py.result (_check_tenant_quota tid "delete" now2 (Py.final r1)) = Returned true ->
  let r2 := delete tid key now2 rt2 (Py.final r1) in
  ((forall n, ttl = Some n -> n <> 0 -> (now2 < now1 + inject_Z n)%Q) ->
   Py.result r2 = Returned true /\
   Redis.store (redis_client (Py.final r2)) !! _get_cache_key tid key = None /\
   exists used, memory_used (Py.final r2) tid = Some used /\
                (used == memory_used_mb m)%Q) /\
  (forall n, ttl = Some n -> n <> 0 -> (now1 + inject_Z n < now2)%Q ->
   Py.result r2 = Returned false /\
   memory_used (Py.final r2) tid = memory_used (Py.final r1) tid).
Proof.
  intros Hm. cbv zeta.
  destruct (set tid key v ttl now1 rt1 s) as [o s1] eqn:E1.
  change (Py.final (o, s1)) with s1. change (Py.result (o, s1)) with o.
  intros -> Hadm.
  apply set_success in E1 as (payload & m0 & Hd & Hm0 & Hav & Hst & Hsince & Hm1 & _).
  rewrite Hm in Hm0. injection Hm0 as <-.
  assert (Hk : Redis.store (redis_client s1) !! _get_cache_key tid key
               = Some (payload, if truthy_int ttl then ttl else None))
    by (rewrite Hst; apply lookup_insert_eq).
  destruct (lookup_after_set _ _ _ _ now1 now2 Hk Hsince) as [Hlive Hdead].
  split.
  - intros Hbefore.
    destruct (delete_admitted s1 tid key now2 rt2 _ _ _ Hm1 Hadm Hav (Hlive Hbefore))
      as (Hres & Hgone & Hrec).
    split; [exact Hres|]. split; [rewrite Hgone; apply lookup_delete_eq|].
    unfold memory_used. rewrite Hrec. cbn [fmap option_fmap option_map].
    eexists. split; [reflexivity|].
    destruct (len payload =? 0) eqn:Hz;
      cbn [updated_metrics memory_used_mb with_memory_used_mb].
    + rewrite (size_of_nothing _ Hz). ring.
    + unfold value_size_mb. ring.
  - intros n Hn Hne Hafter.
    destruct (delete_missing s1 tid key now2 rt2 _ Hm1 Hadm Hav (Hdead n Hn Hne Hafter))
      as (Hres & Hrec).
    split; [exact Hres|]. unfold memory_used. now rewrite Hrec, Hm1.
Qed.

(** The entry written at time 100 to live 10 seconds is deleted with
    success at time 105, and without at time 200. *)
Lemma set_then_delete_restores_memory_witness :
  Py.result (delete "acme" "k" (105 # 1) (1 # 1)
               (Py.final (set "acme" "k" 42 (Some 10) (100 # 1) (1 # 1) Scenario.fresh)))
    = Returned true /\
  Py.result (delete "acme" "k" (200 # 1) (1 # 1)
               (Py.final (set "acme" "k" 42 (Some 10) (100 # 1) (1 # 1) Scenario.fresh)))
    = Returned false.
Proof.
  assert (Hset : Py.result (set "acme" "k" 42 (Some 10) (100 # 1) (1 # 1) Scenario.fresh)
                 = Returned true) by (vm_compute; reflexivity).
  split.
  - destruct (set_then_delete_restores_memory Scenario.fresh "acme" "k" 42 (Some 10)
                CacheMetrics_default (100 # 1) (1 # 1) (105 # 1) (1 # 1) eq_refl Hset)
      as [Hlive _].
    + vm_compute. reflexivity.
    + apply Hlive. intros n [= <-] _. vm_compute. reflexivity.
  - destruct (set_then_delete_restores_memory Scenario.fresh "acme" "k" 42 (Some 10)
                CacheMetrics_default (100 # 1) (1 # 1) (200 # 1) (1 # 1) eq_refl Hset)
      as [_ Hdead].
    + vm_compute. reflexivity.
    + apply (Hdead 10 eq_refl); [discriminate | vm_compute; reflexivity].
Defined.

(** Two [set]s of the same key that both answered [True] leave one entry,
    the second payload, but both sizes in [memory_used_mb]: the bytes of
    an overwritten payload stay accounted for. *)
Theorem overwrite_is_accounted_twice {Value : Type} `{JsonCodec Value}
    (s : t) (tid key : string) (v1 v2 : Value) (m : CacheMetrics)
    (p1 p2 : string) (now1 rt1 now2 rt2 : Q) :
  tenant_metrics s !! tid = Some m ->
  json_dumps v1 = Some p1 -> json_dumps v2 = Some p2 ->
  let r1 := set tid key v1 None now1 rt1 s in
  Py.result r1 = Returned true ->
  let r2 := set tid key v2 None now2 rt2 (Py.final r1) in
  Py.result r2 = Returned true ->
  Redis.store (redis_client (Py.final r2))
    = <[_get_cache_key tid key := (p2, None)]> (Redis.store (redis_client s)) /\
  memory_used (Py.final r2) tid
    = Some (memory_used_mb m + value_size_mb p1 + value_size_mb p2)%Q.
Proof.
  intros Hm Hd1 Hd2. cbv zeta.
  destruct (set tid key v1 None now1 rt1 s) as [o1 s1] eqn:E1.
  change (Py.final (o1, s1)) with s1. change (Py.result (o1, s1)) with o1. intros ->.
  destruct (set tid key v2 None now2 rt2 s1) as [o2 s2] eqn:E2.
  change (Py.final (o2, s2)) with s2. change (Py.result (o2, s2)) with o2. intros ->.
  apply set_success in E1 as (q1 & m0 & Hq1 & Hm0 & _ & Hst1 & _ & Hm1 & _).
  apply set_success in E2 as (q2 & m1 & Hq2 & Hm1' & _ & Hst2 & _ & Hm2 & _).
  rewrite Hd1 in Hq1. injection Hq1 as <-. rewrite Hd2 in Hq2. injection Hq2 as <-.
  rewrite Hm in Hm0. injection Hm0 as <-. rewrite Hm1 in Hm1'. injection Hm1' as <-.
  cbn [truthy_int] in Hst1, Hst2.
  split.
  - rewrite Hst2, Hst1. apply insert_insert_eq.
  - unfold memory_used. rewrite Hm2. reflexivity.
Qed.

Lemma overwrite_is_accounted_twice_witness :
  memory_used
    (Py.final (set "acme" "k" 7 None (101 # 1) (1 # 1) Scenario.after_set)) "acme"
  = Some (0 + value_size_mb "42" + value_size_mb "7")%Q.
Proof.
  assert (H42 : json_dumps 42 = Some "42") by (vm_compute; reflexivity).
  assert (H7 : json_dumps 7 = Some "7") by (vm_compute; reflexivity).
  apply (overwrite_is_accounted_twice Scenario.fresh "acme" "k" 42 7
           CacheMetrics_default "42" "7" (100 # 1) (1 # 1) (101 # 1) (1 # 1)
           eq_refl H42 H7).
  - vm_compute. reflexivity.
  - vm_compute. reflexivity.
Defined.

End CacheManagerMore.

(* ===================================================================== *)
(** * Properties of the auto-scaler *)
(* ===================================================================== *)

Module AutoScalerSpec.
Import AutoScaler.

Ltac py_simpl :=
  repeat (unfold bind, ret, raise, try_except, get_self, put_self, modify, getitem,
            zoom, Py.result, Py.final in *;
          cbn [fst snd negb option_map default from_option Datatypes.id] in *;
          cbv beta iota).

Import PyFacts.

(** *** The decision rule *)

(** C5.  [evaluate_scaling_needs] returns no decision while a
    cooldown is in effect; with both cooldowns elapsed and
    [current_nodes < max_nodes], a sample whose CPU or memory is strictly
    above [scale_up_threshold], or whose request rate is strictly above
    [1000 * current_nodes], yields a [scale_up] decision with
    [target_nodes = min(current_nodes + 1, max_nodes)]; a sample that is
    nowhere strictly above (in particular one with CPU exactly at the
    threshold) yields no [scale_up] decision. *)
Theorem evaluate_scaling_needs_rule {CM : Type}
    (s : t CM) (m : gmap string Q) (now utcnow : Q) :
  let cpu := metric m "cpu_usage_percent" in
  let mem := metric m "memory_usage_percent" in
  let rate := metric m "requests_per_second" in
  ((now - last_scale_up s < scale_up_cooldown s)%Q \/
   (now - last_scale_down s < scale_down_cooldown s)%Q ->
   evaluate_scaling_needs s m now utcnow = None) /\
  ((scale_up_cooldown s <= now - last_scale_up s)%Q ->
   (scale_down_cooldown s <= now - last_scale_down s)%Q ->
   current_nodes s < max_nodes s ->
   (scale_up_threshold s < cpu)%Q \/ (scale_up_threshold s < mem)%Q \/
   (inject_Z (1000 * current_nodes s) < rate)%Q ->
   exists d,
     evaluate_scaling_needs s m now utcnow = Some d /\
     ScalingDecision.decision_type d = "scale_up" /\
     ScalingDecision.current_nodes d = current_nodes s /\
     ScalingDecision.target_nodes d = Z.min (current_nodes s + 1) (max_nodes s)) /\
  ((cpu <= scale_up_threshold s)%Q -> (mem <= scale_up_threshold s)%Q ->
   (rate <= inject_Z (1000 * current_nodes s))%Q ->
   forall d, evaluate_scaling_needs s m now utcnow = Some d ->
             ScalingDecision.decision_type d <> "scale_up").
Proof.
  intros cpu mem rate. unfold evaluate_scaling_needs.
  fold cpu mem rate. unfold _get_request_rate_threshold.
  split; [|split].
  - intros [Hup | Hdown].
    + apply Qltb_true in Hup. now rewrite Hup.
    + apply Qltb_true in Hdown. rewrite Hdown.
      now destruct (Qltb (now - last_scale_up s) _).
  - intros Hup Hdown Hroom Hload.
    apply Qltb_false in Hup, Hdown. rewrite Hup, Hdown.
    assert (Hneed : Qgtb cpu (scale_up_threshold s)
                    || Qgtb mem (scale_up_threshold s)
                    || Qgtb rate (inject_Z (1000 * current_nodes s)) = true).
    { unfold Qgtb. destruct Hload as [Hl | [Hl | Hl]]; apply Qltb_true in Hl;
        rewrite Hl; rewrite ?orb_true_r; reflexivity. }
    rewrite Hneed. apply Z.ltb_lt in Hroom. rewrite Hroom. cbn [andb].
    eexists. split; [reflexivity|]. repeat split; reflexivity.
  - intros Hcpu Hmem Hrate d.
    assert (Hneed : Qgtb cpu (scale_up_threshold s)
                    || Qgtb mem (scale_up_threshold s)
                    || Qgtb rate (inject_Z (1000 * current_nodes s)) = false).
    { unfold Qgtb. apply Qltb_false in Hcpu, Hmem, Hrate.
      now rewrite Hcpu, Hmem, Hrate. }
    rewrite Hneed. cbn [andb].
    destruct (Qltb (now - last_scale_up s) _); [discriminate|].
    destruct (Qltb (now - last_scale_down s) _); [discriminate|].
    destruct (_ && _); [|discriminate].
    intros [= <-]. cbn. discriminate.
Qed.

(** With CPU exactly at the threshold of 80 and nothing else loaded, no
    decision is produced although no cooldown is in effect. *)
Lemma no_scale_up_at_threshold :
  ~ Stated.scale_up_rule Scenario.scaler (Scenario.sample (80 # 1)) (1000 # 1) (1000 # 1).
Proof.
  intros [_ Hc].
  destruct Hc as (d & Hd & _).
  - intros [Hcd | Hcd]; vm_compute in Hcd; discriminate Hcd.
  - vm_compute. reflexivity.
  - left. vm_compute. discriminate.
  - vm_compute in Hd. discriminate Hd.
Qed.

(** The scale-up scenario: 85 % CPU against a threshold of 80 proposes 3
    nodes; 59 seconds after a scale-up, nothing is proposed. *)
Lemma evaluate_scaling_needs_rule_witness :
  (exists d,
     evaluate_scaling_needs Scenario.scaler (Scenario.sample (85 # 1)) (1000 # 1) (1000 # 1)
       = Some d /\
     ScalingDecision.decision_type d = "scale_up" /\
     ScalingDecision.target_nodes d = 3) /\
  evaluate_scaling_needs (set_last_scale_up (1000 # 1) Scenario.scaler3)
    (Scenario.sample (85 # 1)) (1059 # 1) (1059 # 1) = None.
Proof.
  split.
  - destruct (evaluate_scaling_needs_rule Scenario.scaler (Scenario.sample (85 # 1))
                (1000 # 1) (1000 # 1)) as (_ & Hup & _).
    destruct Hup as (d & Hd & Hty & _ & Htg).
    + vm_compute. discriminate.
    + vm_compute. discriminate.
    + vm_compute. reflexivity.
    + left. vm_compute. reflexivity.
    + exists d. split; [exact Hd|]. split; [exact Hty | exact Htg].
  - apply (evaluate_scaling_needs_rule (set_last_scale_up (1000 # 1) Scenario.scaler3)
             (Scenario.sample (85 # 1)) (1059 # 1) (1059 # 1)).
    left. vm_compute. reflexivity.
Defined.


(** *** Execution on the real cache manager *)

(** None of the methods the scaler calls is an attribute of a
    [MultiTenantCacheManager]. *)
Lemma lifecycle_methods_undefined :
  Forall (fun method => method ∉ CacheManager.attributes) lifecycle_methods.
Proof.
  unfold lifecycle_methods, CacheManager.attributes.
  repeat constructor; intros Hin; repeat (apply elem_of_cons in Hin as [Hin|Hin]; [discriminate Hin|]);
    inversion Hin.
Qed.

Lemma range_pos n : 0 < n -> exists rest, range n = 0 :: rest.
Proof.
  intros Hn. unfold range.
  destruct (Z.to_nat n) as [|k] eqn:Hk; [lia|].
  cbn. eauto.
Qed.

Lemma range_nonpos n : n <= 0 -> range n = [].
Proof.
  intros Hn. unfold range. now replace (Z.to_nat n) with 0%nat by lia.
Qed.

(** [_scale_up] on the real manager: the first method it looks up is
    missing, whatever the target. *)
Lemma scale_up_fails (s : t CacheManager.t) target :
  _scale_up target s = (Returned false, s).
Proof.
  unfold _scale_up. py_simpl.
  destruct (Z_lt_le_dec 0 (target - current_nodes s)) as [Hpos|Hnp].
  - destruct (range_pos _ Hpos) as [rest ->]. cbn [for_each]. py_simpl. reflexivity.
  - rewrite (range_nonpos _ Hnp). cbn [for_each]. py_simpl. reflexivity.
Qed.

Lemma scale_down_fails (s : t CacheManager.t) target :
  target < current_nodes s ->
  _scale_down target s = (Returned false, s).
Proof.
  intros Hlt. unfold _scale_down. py_simpl.
  assert (Hgt : (current_nodes s - target <=? 0) = false) by (apply Z.leb_gt; lia).
  rewrite Hgt. destruct (range_pos (current_nodes s - target)) as [rest ->]; [lia|].
  cbn [for_each]. py_simpl. reflexivity.
Qed.

(** The guard [nodes_to_remove <= 0] answers [True] without any call. *)
Lemma scale_down_nothing_to_remove {CM : Type} `{NodeLifecycle CM} (s : t CM) target :
  current_nodes s <= target ->
  _scale_down target s = (Returned true, s).
Proof.
  intros Hle. unfold _scale_down. py_simpl.
  assert (Hg : (current_nodes s - target <=? 0) = true) by (apply Z.leb_le; lia).
  now rewrite Hg.
Qed.

Lemma last_store_decision {CM : Type} (s : t CM) d :
  last (scaling_decisions (store_decision d s)) = Some d.
Proof.
  unfold store_decision. cbn [set_scaling_decisions scaling_decisions].
  destruct (100 <? _) eqn:Hlen.
  - apply Z.ltb_lt in Hlen.
    destruct (scaling_decisions s) as [|x l]; [cbn in Hlen; lia|].
    cbn [app List.tl]. apply last_snoc.
  - apply last_snoc.
Qed.

(** C7.  On a [MultiTenantCacheManager], executing a decision of
    type [scale_up] (any target), or of type [scale_down] with a target
    below [current_nodes], returns [False]: [_scale_up] / [_scale_down]
    fail on the first method they look up, without changing anything.
    The decision is nevertheless appended to the history with
    [executed = True] and [successful = False]. *)
Theorem real_execution_fails
    (s : t CacheManager.t) (d : ScalingDecision.t) (now utcnow : Q) :
  ScalingDecision.decision_type d = "scale_up" \/
  (ScalingDecision.decision_type d = "scale_down" /\
   ScalingDecision.target_nodes d < current_nodes s) ->
  let r := execute_scaling_decision d now utcnow s in
  Py.result r = Returned false /\
  last (scaling_decisions (Py.final r))
    = Some (ScalingDecision.mark_executed utcnow false d) /\
  ScalingDecision.executed (ScalingDecision.mark_executed utcnow false d) = true /\
  ScalingDecision.successful (ScalingDecision.mark_executed utcnow false d) = Some false /\
  cache_manager (Py.final r) = cache_manager s.
Proof.
  intros Hty. cbv zeta. unfold execute_scaling_decision, record_execution. py_simpl.
  destruct Hty as [Hup | [Hdown Hlt]].
  - rewrite Hup. cbn [String.eqb Ascii.eqb Bool.eqb andb].
    rewrite scale_up_fails. py_simpl.
    repeat split.
    cbn [set_current_nodes set_last_scale_up scaling_decisions].
    apply last_store_decision.
  - rewrite Hdown. cbn [String.eqb Ascii.eqb Bool.eqb andb].
    rewrite scale_down_fails by exact Hlt. py_simpl.
    repeat split.
    cbn [set_current_nodes set_last_scale_down scaling_decisions].
    apply last_store_decision.
Qed.


(** A [scale_down] decision whose target lies above [current_nodes] takes
    the guard [nodes_to_remove <= 0] and is reported as a success. *)
Lemma scale_down_above_current_succeeds :
  ~ Stated.every_execution_fails Scenario.scaler3
      (Scenario.decision "scale_down" 3 5) (1000 # 1) (1000 # 1).
Proof.
  intros Hc. destruct Hc as [Hres _].
  - vm_compute. discriminate.
  - vm_compute in Hres. discriminate Hres.
Qed.

(** Scaling the scenario's cluster up from 2 and down from 3 both fail. *)
Lemma real_execution_fails_witness :
  Py.result (execute_scaling_decision (Scenario.decision "scale_up" 2 3)
               (1000 # 1) (1000 # 1) Scenario.scaler) = Returned false /\
  Py.result (execute_scaling_decision (Scenario.decision "scale_down" 3 2)
               (1000 # 1) (1000 # 1) Scenario.scaler3) = Returned false.
Proof.
  split.
  - apply (real_execution_fails Scenario.scaler (Scenario.decision "scale_up" 2 3)
             (1000 # 1) (1000 # 1)).
    left. reflexivity.
  - apply (real_execution_fails Scenario.scaler3 (Scenario.decision "scale_down" 3 2)
             (1000 # 1) (1000 # 1)).
    right. split; [reflexivity | vm_compute; reflexivity].
Defined.

(** *** What a failed execution leaves behind *)

(** Whatever [_scale_up] answers, [execute_scaling_decision] stores the
    target as [current_nodes] and restarts the scale-up cooldown. *)
Lemma scale_up_commits_regardless
    (s : t CacheManager.t) (d : ScalingDecision.t) (now utcnow : Q) :
  ScalingDecision.decision_type d = "scale_up" ->
  let r := execute_scaling_decision d now utcnow s in
  Py.result r = Returned false /\
  current_nodes (Py.final r) = ScalingDecision.target_nodes d /\
  last_scale_up (Py.final r) = now.
Proof.
  intros Hup. cbv zeta. unfold execute_scaling_decision, record_execution. py_simpl.
  rewrite Hup. cbn [String.eqb Ascii.eqb Bool.eqb andb].
  rewrite scale_up_fails. py_simpl. repeat split.
Qed.

(** C6.  The scaler of the scale-up scenario runs 2 nodes and has never
    scaled.  The decision it derives from a sample with 85 % CPU fails to
    execute on the real cache manager, and yet the scaler then counts 3
    nodes and has restarted its scale-up cooldown at the time of the
    attempt: the next evaluation within the cooldown yields nothing. *)
Theorem failed_execution_still_commits :
  exists d,
    evaluate_scaling_needs Scenario.scaler (Scenario.sample (85 # 1)) (1000 # 1) (1000 # 1)
      = Some d /\
    let r := execute_scaling_decision d (1000 # 1) (1000 # 1) Scenario.scaler in
    Py.result r = Returned false /\
    current_nodes Scenario.scaler = 2 /\ current_nodes (Py.final r) = 3 /\
    last_scale_up Scenario.scaler = 0%Q /\ last_scale_up (Py.final r) = (1000 # 1)%Q /\
    evaluate_scaling_needs (Py.final r) (Scenario.sample (85 # 1)) (1030 # 1) (1030 # 1)
      = None /\
    ~ Stated.failure_leaves_state Scenario.scaler d (1000 # 1) (1000 # 1).
Proof.
  eexists. split; [vm_compute; reflexivity|]. cbv zeta.
  repeat (split; [vm_compute; reflexivity|]).
  intros Hc. destruct Hc as (Hn & _).
  - vm_compute. reflexivity.
  - vm_compute in Hn. discriminate Hn.
Qed.

End AutoScalerSpec.

(* ===================================================================== *)
(** * The auto-scaler over any cache manager *)
(* ===================================================================== *)

Module AutoScalerMore.
Import AutoScaler AutoScalerSpec PyFacts.

Ltac py_simpl :=
  repeat (unfold bind, ret, raise, try_except, get_self, put_self, modify, getitem,
            zoom, Py.result, Py.final in *;
          cbn [fst snd negb option_map default from_option Datatypes.id] in *;
          cbv beta iota).

(** *** The decision rule, continued *)

(** Every decision [evaluate_scaling_needs] produces is unexecuted, records
    the node count it was taken at, and moves it by exactly one node: a
    [scale_up] to [current_nodes + 1], which does not exceed [max_nodes],
    or a [scale_down] to [current_nodes - 1], which does not fall below
    [min_nodes].  The [min] and [max] in the target never clamp. *)
Theorem evaluate_scaling_needs_one_step {CM : Type}
    (s : t CM) (m : gmap string Q) (now utcnow : Q) (d : ScalingDecision.t) :
  evaluate_scaling_needs s m now utcnow = Some d ->
  ScalingDecision.current_nodes d = current_nodes s /\
  ScalingDecision.executed d = false /\
  ScalingDecision.successful d = None /\
  ((ScalingDecision.decision_type d = "scale_up" /\
    ScalingDecision.target_nodes d = current_nodes s + 1 /\
    ScalingDecision.target_nodes d <= max_nodes s) \/
   (ScalingDecision.decision_type d = "scale_down" /\
    ScalingDecision.target_nodes d = current_nodes s - 1 /\
    min_nodes s <= ScalingDecision.target_nodes d)).
Proof.
  unfold evaluate_scaling_needs.
  destruct (Qltb (now - last_scale_up s) _); [discriminate|].
  destruct (Qltb (now - last_scale_down s) _); [discriminate|].
  destruct (current_nodes s <? max_nodes s) eqn:Hroom.
  - apply Z.ltb_lt in Hroom.
    destruct (_ || _ || _); cbn [andb].
    + intros [= <-]. cbn. repeat split. left. repeat split; lia.
    + destruct (current_nodes s >? min_nodes s) eqn:Hmin;
        [|rewrite andb_false_r; discriminate].
      apply Z.gtb_lt in Hmin.
      destruct (_ && _ && _); cbn [andb]; [|discriminate].
      intros [= <-]. cbn. repeat split. right. repeat split; lia.
  - rewrite andb_false_r.
    destruct (current_nodes s >? min_nodes s) eqn:Hmin;
      [|rewrite andb_false_r; discriminate].
    apply Z.gtb_lt in Hmin.
    destruct (_ && _ && _); cbn [andb]; [|discriminate].
    intros [= <-]. cbn. repeat split. right. repeat split; lia.
Qed.

Lemma evaluate_scaling_needs_one_step_witness :
  exists d,
    evaluate_scaling_needs Scenario.scaler (Scenario.sample (85 # 1)) (1000 # 1) (1000 # 1)
      = Some d /\
    ScalingDecision.decision_type d = "scale_up" /\
    ScalingDecision.target_nodes d = 3.
Proof.
  eexists. split; [vm_compute; reflexivity|].
  destruct (evaluate_scaling_needs_one_step Scenario.scaler (Scenario.sample (85 # 1))
              (1000 # 1) (1000 # 1) _ eq_refl) as (_ & _ & _ & [Hup | Hdown]).
  - destruct Hup as (Hty & Htg & _). split; [exact Hty | exact Htg].
  - destruct Hdown as (Hty & _). vm_compute in Hty. discriminate Hty.
Defined.

(** With both cooldowns elapsed, [evaluate_scaling_needs] produces a
    [scale_down] decision exactly when CPU and memory are strictly below
    [scale_down_threshold], the request rate is strictly below half of
    [1000 * current_nodes], [current_nodes] is above [min_nodes], and the
    scale-up branch does not take the sample first (nothing is above the
    scale-up limits, or the cluster already has [max_nodes]). *)
Theorem evaluate_scaling_needs_scale_down {CM : Type}
    (s : t CM) (m : gmap string Q) (now utcnow : Q) :
  let cpu := metric m "cpu_usage_percent" in
  let mem := metric m "memory_usage_percent" in
  let rate := metric m "requests_per_second" in
  (scale_up_cooldown s <= now - last_scale_up s)%Q ->
  (scale_down_cooldown s <= now - last_scale_down s)%Q ->
  ((exists d, evaluate_scaling_needs s m now utcnow = Some d /\
              ScalingDecision.decision_type d = "scale_down") <->
   ((cpu < scale_down_threshold s)%Q /\ (mem < scale_down_threshold s)%Q /\
    (rate < inject_Z (1000 * current_nodes s) * (1 # 2))%Q /\
    min_nodes s < current_nodes s /\
    (((cpu <= scale_up_threshold s)%Q /\ (mem <= scale_up_threshold s)%Q /\
      (rate <= inject_Z (1000 * current_nodes s))%Q) \/
     max_nodes s <= current_nodes s))).
Proof.
  intros cpu mem rate Hup Hdown. unfold evaluate_scaling_needs.
  fold cpu mem rate. unfold _get_request_rate_threshold.
  apply Qltb_false in Hup, Hdown. rewrite Hup, Hdown.
  set (up := Qgtb cpu (scale_up_threshold s) || Qgtb mem (scale_up_threshold s)
             || Qgtb rate (inject_Z (1000 * current_nodes s))).
  assert (Hupspec : up = false <->
            (cpu <= scale_up_threshold s)%Q /\ (mem <= scale_up_threshold s)%Q /\
            (rate <= inject_Z (1000 * current_nodes s))%Q).
  { subst up. rewrite !orb_false_iff, !Qgtb_false. tauto. }
  set (down := Qltb cpu (scale_down_threshold s) && Qltb mem (scale_down_threshold s)
               && Qltb rate (inject_Z (1000 * current_nodes s) * (1 # 2))
               && (current_nodes s >? min_nodes s)).
  assert (Hdownspec : down = true <->
            (cpu < scale_down_threshold s)%Q /\ (mem < scale_down_threshold s)%Q /\
            (rate < inject_Z (1000 * current_nodes s) * (1 # 2))%Q /\
            min_nodes s < current_nodes s).
  { subst down. rewrite !andb_true_iff, !Qltb_true, Z.gtb_lt. tauto. }
  assert (Hroom : (current_nodes s <? max_nodes s) = false <->
                  max_nodes s <= current_nodes s) by apply Z.ltb_ge.
  split.
  - intros (d & Hd & Hty).
    destruct up; destruct (current_nodes s <? max_nodes s); cbn [andb] in Hd;
      try (injection Hd as <-; cbn in Hty; discriminate Hty);
      (destruct down; [|discriminate Hd]);
      (destruct Hdownspec as [Hds _]; destruct (Hds eq_refl) as (? & ? & ? & ?));
      repeat (split; [assumption|]).
    + right. now apply Hroom.
    + left. now apply Hupspec.
    + left. now apply Hupspec.
  - intros (Hc & Hm & Hr & Hmin & Hnoup).
    assert (Hd : down = true) by (apply Hdownspec; tauto). rewrite Hd.
    assert (Hno : up && (current_nodes s <? max_nodes s) = false).
    { destruct Hnoup as [Hn | Hn].
      - apply Hupspec in Hn. now rewrite Hn.
      - apply Hroom in Hn. rewrite Hn. apply andb_false_r. }
    rewrite Hno. eexists. split; [reflexivity | reflexivity].
Qed.

(** An idle cluster of three nodes with a minimum of two proposes to go
    down. *)
Lemma evaluate_scaling_needs_scale_down_witness :
  exists d,
    evaluate_scaling_needs Scenario.scaler3 Scenario.idle_sample (1000 # 1) (1000 # 1)
      = Some d /\
    ScalingDecision.decision_type d = "scale_down".
Proof.
  apply (evaluate_scaling_needs_scale_down Scenario.scaler3 Scenario.idle_sample
           (1000 # 1) (1000 # 1)).
  - vm_compute. discriminate.
  - vm_compute. discriminate.
  - split; [vm_compute; reflexivity|]. split; [vm_compute; reflexivity|].
    split; [vm_compute; reflexivity|]. split; [vm_compute; reflexivity|].
    left. split; [vm_compute; discriminate|]. split; vm_compute; discriminate.
Defined.


(** *** Execution, whatever the cache manager provides *)

Section AnyManager.
Context {CM : Type} `{NodeLifecycle CM}.

Lemma keeps_call {A} (method : option (M CM A)) : keeps scaling_state (call method).
Proof.
  intros s. destruct method as [m|]; unfold call; [|reflexivity].
  unfold zoom. destruct (m (cache_manager s)) as [o cm']. reflexivity.
Qed.

Lemma keeps_for_each (body : Z -> M (t CM) bool) (indices : list Z) :
  (forall i, keeps scaling_state (body i)) ->
  keeps scaling_state (for_each body indices).
Proof.
  intros Hbody. induction indices as [|i rest IH]; cbn [for_each].
  - apply keeps_ret.
  - apply keeps_bind; [apply Hbody|].
    intros success. destruct success; cbn [negb]; [exact IH | apply keeps_ret].
Qed.

Lemma keeps_health_verdict (health_check : gmap string bool) :
  keeps scaling_state
    (if negb (default false (health_check !! "healthy"))
     then @ret (t CM) bool false else ret true).
Proof. destruct (negb _); apply keeps_ret. Qed.

Lemma keeps_scale_up (target : Z) : keeps scaling_state (_scale_up target).
Proof.
  unfold _scale_up. apply keeps_try_except; [|intros e; apply keeps_ret].
  apply keeps_bind; [apply keeps_get_self|]. intros s.
  apply keeps_bind.
  - apply keeps_for_each. intros i.
    apply keeps_bind; [apply keeps_get_self|]. intros s'. apply keeps_call.
  - intros completed. destruct completed; cbn [negb]; [|apply keeps_ret].
    apply keeps_bind; [apply keeps_call|]. intros _.
    apply keeps_bind; [apply keeps_call|]. intros _.
    apply keeps_bind; [apply keeps_call|]. intros hc. apply keeps_health_verdict.
Qed.

Lemma keeps_scale_down (target : Z) : keeps scaling_state (_scale_down target).
Proof.
  unfold _scale_down. apply keeps_try_except; [|intros e; apply keeps_ret].
  apply keeps_bind; [apply keeps_get_self|]. intros s.
  destruct (_ <=? 0); [apply keeps_ret|].
  apply keeps_bind.
  - apply keeps_for_each. intros i.
    apply keeps_bind; [apply keeps_get_self|]. intros s'. apply keeps_call.
  - intros migrated. destruct migrated; cbn [negb]; [|apply keeps_ret].
    apply keeps_bind.
    + apply keeps_for_each. intros i.
      apply keeps_bind; [apply keeps_get_self|]. intros s'. apply keeps_call.
    + intros removed. destruct removed; cbn [negb]; [|apply keeps_ret].
      apply keeps_bind; [apply keeps_call|]. intros _.
      apply keeps_bind; [apply keeps_call|]. intros hc. apply keeps_health_verdict.
Qed.

(** A body wrapped in [try ... except Exception: return False] returns. *)
Lemma guarded_returns {S} (body : M S bool) (s : S) :
  exists b, try_except body (fun _ => ret false) s = (Returned b, Py.final (body s)).
Proof.
  unfold try_except, Py.final. destruct (body s) as [[b|e] s']; cbn; eauto.
Qed.

Lemma scale_up_returns (target : Z) (s : t CM) :
  exists b s', _scale_up target s = (Returned b, s') /\
               scaling_state s' = scaling_state s.
Proof.
  pose proof (keeps_scale_up target s) as Hk.
  unfold _scale_up in *.
  match type of Hk with
  | context [try_except ?body _ s] => destruct (guarded_returns body s) as [b Hb]
  end.
  rewrite Hb in *. eauto.
Qed.

Lemma scale_down_returns (target : Z) (s : t CM) :
  exists b s', _scale_down target s = (Returned b, s') /\
               scaling_state s' = scaling_state s.
Proof.
  pose proof (keeps_scale_down target s) as Hk.
  unfold _scale_down in *.
  match type of Hk with
  | context [try_except ?body _ s] => destruct (guarded_returns body s) as [b Hb]
  end.
  rewrite Hb in *. eauto.
Qed.

(** The attributes [record_execution] writes, read off the state the
    scaling attempt started from. *)
Lemma record_execution_spec (d : ScalingDecision.t) (success : bool) (now utcnow : Q)
    (s0 s : t CM) :
  scaling_state s = scaling_state s0 ->
  let r := record_execution d success now utcnow s in
  Py.result r = Returned success /\
  cache_manager (Py.final r) = cache_manager s /\
  scaling_state (Py.final r)
    = scaling_state
        (set_current_nodes (ScalingDecision.target_nodes d)
           ((if String.eqb (ScalingDecision.decision_type d) "scale_up"
             then set_last_scale_up now else set_last_scale_down now)
              (store_decision (ScalingDecision.mark_executed utcnow success d) s0))).
Proof.
  intros Hs. cbv zeta. unfold record_execution. py_simpl.
  split; [reflexivity|].
  destruct s, s0. unfold scaling_state in Hs. cbn in Hs.
  injection Hs as -> -> -> -> -> -> -> -> -> ->.
  destruct (String.eqb _ "scale_up"); split; reflexivity.
Qed.


(** What [execute_scaling_decision] does on a decision of a known type. *)
Lemma execute_scaling_decision_state (s : t CM) (d : ScalingDecision.t) (now utcnow : Q) :
  ScalingDecision.decision_type d = "scale_up" \/
  ScalingDecision.decision_type d = "scale_down" ->
  let r := execute_scaling_decision d now utcnow s in
  exists success,
    Py.result r = Returned success /\
    scaling_state (Py.final r)
      = scaling_state
          (set_current_nodes (ScalingDecision.target_nodes d)
             ((if String.eqb (ScalingDecision.decision_type d) "scale_up"
               then set_last_scale_up now else set_last_scale_down now)
                (store_decision (ScalingDecision.mark_executed utcnow success d) s))).
Proof.
  intros Hty. cbv zeta. unfold execute_scaling_decision.
  destruct Hty as [Hty | Hty]; rewrite Hty; cbn [String.eqb Ascii.eqb Bool.eqb andb].
  - destruct (scale_up_returns (ScalingDecision.target_nodes d) s)
      as (b & s1 & Hrun & Hs1).
    destruct (record_execution_spec d b now utcnow s s1 Hs1) as (Hres & _ & Hst).
    rewrite Hty in Hst. cbn [String.eqb Ascii.eqb Bool.eqb andb] in Hst.
    exists b. unfold try_except, bind. rewrite Hrun.
    destruct (record_execution d b now utcnow s1) as [o s2].
    unfold Py.result, Py.final in *. cbn [fst snd] in *. subst o. split; [reflexivity|].
    exact Hst.
  - destruct (scale_down_returns (ScalingDecision.target_nodes d) s)
      as (b & s1 & Hrun & Hs1).
    destruct (record_execution_spec d b now utcnow s s1 Hs1) as (Hres & _ & Hst).
    rewrite Hty in Hst. cbn [String.eqb Ascii.eqb Bool.eqb andb] in Hst.
    exists b. unfold try_except, bind. rewrite Hrun.
    destruct (record_execution d b now utcnow s1) as [o s2].
    unfold Py.result, Py.final in *. cbn [fst snd] in *. subst o. split; [reflexivity|].
    exact Hst.
Qed.

Lemma evaluate_scaling_needs_ext (s s' : t CM) m now utcnow :
  scaling_state s = scaling_state s' ->
  evaluate_scaling_needs s m now utcnow = evaluate_scaling_needs s' m now utcnow.
Proof.
  intros Hs. destruct s, s'. unfold scaling_state in Hs. cbn in Hs.
  injection Hs as -> -> -> -> -> -> -> -> -> ->. reflexivity.
Qed.

End AnyManager.



(** After a decision of type [scale_up] (resp. [scale_down]) has been
    executed at time [now], with whatever outcome, every evaluation at a
    time [now'] less than [scale_up_cooldown] (resp. [scale_down_cooldown])
    later produces no decision, whatever the metrics. *)
Theorem cooldown_follows_execution {CM : Type} `{NodeLifecycle CM}
    (s : t CM) (d : ScalingDecision.t) (now utcnow : Q)
    (m : gmap string Q) (now' utcnow' : Q) :
  (ScalingDecision.decision_type d = "scale_up" /\
   (now' - now < scale_up_cooldown s)%Q) \/
  (ScalingDecision.decision_type d = "scale_down" /\
   (now' - now < scale_down_cooldown s)%Q) ->
  evaluate_scaling_needs (Py.final (execute_scaling_decision d now utcnow s)) m now' utcnow'
    = None.
Proof.
  intros Hcase.
  assert (Hty : ScalingDecision.decision_type d = "scale_up" \/
                ScalingDecision.decision_type d = "scale_down") by tauto.
  destruct (execute_scaling_decision_state s d now utcnow Hty) as (b & _ & Hst).
  rewrite (evaluate_scaling_needs_ext _ _ m now' utcnow' Hst).
  unfold evaluate_scaling_needs.
  destruct Hcase as [[Hup Hcd] | [Hdown Hcd]].
  - rewrite Hup. cbn [String.eqb Ascii.eqb Bool.eqb andb].
    cbn [set_current_nodes set_last_scale_up store_decision set_scaling_decisions
         last_scale_up scale_up_cooldown].
    apply Qltb_true in Hcd. now rewrite Hcd.
  - rewrite Hdown. cbn [String.eqb Ascii.eqb Bool.eqb andb].
    cbn [set_current_nodes set_last_scale_down store_decision set_scaling_decisions
         last_scale_up last_scale_down scale_up_cooldown scale_down_cooldown].
    apply Qltb_true in Hcd. rewrite Hcd.
    now destruct (Qltb (now' - last_scale_up s) _).
Qed.

Lemma cooldown_follows_execution_witness :
  evaluate_scaling_needs
    (Py.final (execute_scaling_decision (Scenario.decision "scale_down" 3 2)
                 (1000 # 1) (1000 # 1) Scenario.scaler3))
    Scenario.idle_sample (1059 # 1) (1059 # 1) = None.
Proof.
  apply (cooldown_follows_execution Scenario.scaler3 (Scenario.decision "scale_down" 3 2)
           (1000 # 1) (1000 # 1) Scenario.idle_sample (1059 # 1) (1059 # 1)).
  right. split; [reflexivity | vm_compute; reflexivity].
Defined.

(** [force_scale] refuses a target outside [min_nodes .. max_nodes] and
    changes nothing.  A target inside is committed as [current_nodes]
    whatever the cache manager answers; forcing the count the scaler
    already has goes the scale-down way, succeeds without a call to the
    cache manager and restarts the scale-down cooldown. *)
Theorem force_scale_spec {CM : Type} `{NodeLifecycle CM}
    (s : t CM) (target : Z) (now utcnow : Q) :
  let r := force_scale target now utcnow s in
  (target < min_nodes s \/ max_nodes s < target -> r = (Returned false, s)) /\
  (min_nodes s <= target <= max_nodes s ->
   (exists success, Py.result r = Returned success) /\
   current_nodes (Py.final r) = target /\
   (target = current_nodes s ->
    Py.result r = Returned true /\
    cache_manager (Py.final r) = cache_manager s /\
    last_scale_down (Py.final r) = now)).
Proof.
  cbv zeta. unfold force_scale. split.
  - intros Hout. py_simpl.
    assert (Hg : (target <? min_nodes s) || (target >? max_nodes s) = true).
    { apply orb_true_iff. destruct Hout as [Hlo | Hhi];
        [left; now apply Z.ltb_lt | right; now apply Z.gtb_lt]. }
    now rewrite Hg.
  - intros [Hlo Hhi]. py_simpl.
    assert (Hg : (target <? min_nodes s) || (target >? max_nodes s) = false).
    { apply orb_false_iff. split; [apply Z.ltb_ge; lia|].
      rewrite Z.gtb_ltb. apply Z.ltb_ge. lia. }
    rewrite Hg.
    match goal with
    | |- context [execute_scaling_decision ?d _ _ _] => set (dec := d)
    end.
    assert (Hty : ScalingDecision.decision_type dec = "scale_up" \/
                  ScalingDecision.decision_type dec = "scale_down").
    { subst dec. destruct (target >? current_nodes s); [left | right]; reflexivity. }
    assert (Htg : ScalingDecision.target_nodes dec = target).
    { subst dec. destruct (target >? current_nodes s); reflexivity. }
    destruct (execute_scaling_decision_state s dec now utcnow Hty) as (b & Hres & Hst).
    unfold Py.result, Py.final in *.
    destruct (execute_scaling_decision dec now utcnow s) as [o s'] eqn:Hrun.
    cbn [fst snd] in *. subst o. cbn [fst snd].
    split; [eauto|]. split.
    + unfold scaling_state in Hst. injection Hst. intros _ _ _ _ _ _ _ Hc _ _.
      rewrite Hc. cbn [set_current_nodes current_nodes]. exact Htg.
    + intros ->.
      assert (Hdec : (current_nodes s >? current_nodes s) = false)
        by (rewrite Z.gtb_ltb; apply Z.ltb_irrefl).
      subst dec. rewrite Hdec in Hrun.
      unfold execute_scaling_decision in Hrun.
      cbn [ScalingDecision.decision_type ScalingDecision.target_nodes
           String.eqb Ascii.eqb Bool.eqb andb] in Hrun.
      unfold try_except, bind in Hrun.
      rewrite scale_down_nothing_to_remove in Hrun by lia.
      unfold record_execution in Hrun. py_simpl.
      injection Hrun as <- <-. repeat split.
Qed.

Lemma force_scale_spec_witness :
  force_scale 9 (1000 # 1) (1000 # 1) Scenario.scaler = (Returned false, Scenario.scaler) /\
  Py.result (force_scale 2 (1000 # 1) (1000 # 1) Scenario.scaler) = Returned true /\
  current_nodes (Py.final (force_scale 4 (1000 # 1) (1000 # 1) Scenario.scaler)) = 4.
Proof.
  split; [|split].
  - apply (force_scale_spec Scenario.scaler 9 (1000 # 1) (1000 # 1)).
    right. vm_compute. reflexivity.
  - apply (force_scale_spec Scenario.scaler 2 (1000 # 1) (1000 # 1)).
    + vm_compute. split; discriminate.
    + reflexivity.
  - apply (force_scale_spec Scenario.scaler 4 (1000 # 1) (1000 # 1)).
    vm_compute. split; discriminate.
Defined.

End AutoScalerMore.

(* ===================================================================== *)
(** * Properties of the load balancer *)
(* ===================================================================== *)

Module LoadBalancerSpec.
Import LoadBalancer.

Ltac py_simpl :=
  repeat (unfold bind, ret, raise, try_except, get_self, put_self, modify, getitem,
            zoom, Py.result, Py.final, index in *;
          cbn [fst snd negb default from_option Datatypes.id
               algorithm nodes node_weights node_health max_connections_per_node
               min_connections_per_node request_counters response_times
               current_node_index set_algorithm_field set_nodes set_node_weights
               set_node_health set_request_counters set_response_times
               set_current_node_index] in *;
          cbv beta iota).

(** *** Consistent-hash selection *)

Lemma nth_error_in_range {A} (l : list A) (h : Z) :
  l <> [] ->
  exists a, nth_error l (Z.to_nat (h mod Z.of_nat (length l))) = Some a /\ In a l.
Proof.
  intros Hne.
  assert (Hlen : 0 < Z.of_nat (length l)) by (destruct l; [congruence | cbn; lia]).
  pose proof (Z.mod_pos_bound h _ Hlen) as Hb.
  destruct (nth_error l (Z.to_nat (h mod Z.of_nat (length l)))) as [a|] eqn:Hn.
  - exists a. split; [reflexivity|]. eapply nth_error_In; eauto.
  - apply nth_error_None in Hn. lia.
Qed.

(** What [get_node] does under the consistent-hash algorithm. *)
Lemma get_node_consistent_hash (s : t) tenant key :
  algorithm s = "consistent_hash" ->
  get_node tenant key s =
    (Returned
       (nth_error (healthy_nodes s)
          (Z.to_nat (MD5.hexdigest_int (hash_key tenant key)
                     mod Z.of_nat (length (healthy_nodes s))))),
     s).
Proof.
  intros Halg. unfold get_node. py_simpl. rewrite Halg.
  cbn [String.eqb Ascii.eqb Bool.eqb andb].
  destruct (healthy_nodes s) as [|n0 l] eqn:Hh.
  - cbn. now destruct (Z.to_nat _).
  - unfold _consistent_hash_select. py_simpl.
    destruct (nth_error_in_range (n0 :: l) (MD5.hexdigest_int (hash_key tenant key)))
      as (a & Ha & _); [discriminate|].
    now rewrite Ha.
Qed.

(** C10.  Under the consistent-hash algorithm, two calls of [get_node]
    with the same tenant and key (the key possibly absent), made in any
    two states of the balancer that have the same healthy nodes, return the
    same node; the call changes nothing in the balancer, and with at
    least one healthy node the node returned is the healthy node at
    position [md5(hash_key) mod len(healthy)]. *)
Theorem consistent_hash_select_is_function
    (s1 s2 : t) (tenant : string) (key : option string) :
  algorithm s1 = "consistent_hash" ->
  algorithm s2 = "consistent_hash" ->
  healthy_nodes s1 = healthy_nodes s2 ->
  Py.result (get_node tenant key s1) = Py.result (get_node tenant key s2) /\
  Py.final (get_node tenant key s1) = s1 /\
  Py.final (get_node tenant key s2) = s2 /\
  (healthy_nodes s1 <> [] ->
   exists node,
     Py.result (get_node tenant key s1) = Returned (Some node) /\
     In node (healthy_nodes s1) /\
     nth_error (healthy_nodes s1)
       (Z.to_nat (MD5.hexdigest_int (hash_key tenant key)
                  mod Z.of_nat (length (healthy_nodes s1)))) = Some node).
Proof.
  intros H1 H2 Hsame.
  rewrite (get_node_consistent_hash s1 tenant key H1).
  rewrite (get_node_consistent_hash s2 tenant key H2).
  py_simpl. rewrite Hsame. repeat split.
  intros Hne.
  destruct (nth_error_in_range (healthy_nodes s2)
              (MD5.hexdigest_int (hash_key tenant key)) Hne) as (a & Ha & Hin).
  exists a. rewrite Ha. repeat split. exact Hin.
Qed.

(** The routing scenario: ["acme"], ["session:42"] goes to the same node
    before and after traffic has changed the connection counters. *)
Lemma consistent_hash_select_is_function_witness :
  Py.result (get_node "acme" (Some "session:42") Scenario.balancer)
    = Returned (Some "redis-1") /\
  Py.result (get_node "acme" (Some "session:42") Scenario.balancer_busy)
    = Returned (Some "redis-1").
Proof.
  destruct (consistent_hash_select_is_function Scenario.balancer Scenario.balancer_busy
              "acme" (Some "session:42"))
    as (Hsame & _ & _ & _).
  - reflexivity.
  - vm_compute. reflexivity.
  - vm_compute. reflexivity.
  - split; [vm_compute; reflexivity|].
    rewrite <- Hsame. vm_compute. reflexivity.
Defined.

(** Round-robin selection, by contrast, advances a counter: the same call
    twice returns two nodes. *)
Example round_robin_is_stateful :
  let s0 := set_algorithm_field "round_robin" Scenario.balancer in
  let r1 := get_node "acme" (Some "session:42") s0 in
  let r2 := get_node "acme" (Some "session:42") (Py.final r1) in
  Py.result r1 = Returned (Some "redis-1") /\ Py.result r2 = Returned (Some "redis-2").
Proof. vm_compute. split; reflexivity. Qed.


(** *** Connection counters *)

Lemma get_in_values {V} k (d : list (string * V)) v :
  Dict.get k d = Some v -> In v (Dict.values d).
Proof.
  induction d as [|[k' v'] d IH]; cbn; [discriminate|].
  destruct (String.eqb k k'); [intros [= ->]; now left | right; auto].
Qed.

Lemma Forall_values_set {V} (P : V -> Prop) k v (d : list (string * V)) :
  Forall P (Dict.values d) -> P v -> Forall P (Dict.values (Dict.set k v d)).
Proof.
  intros Hd Hv. induction d as [|[k' v'] d IH]; cbn.
  - repeat constructor. exact Hv.
  - cbn in Hd. inversion Hd as [|? ? Hv' Hd']; subst.
    destruct (String.eqb k k'); cbn; constructor; auto.
Qed.

Lemma update_node_eq k f s :
  update_node k f s =
    match Dict.get k (nodes s) with
    | Some node => (Returned tt, set_nodes (Dict.set k (f node)) s)
    | None => (Raised KeyError, s)
    end.
Proof. unfold update_node. py_simpl. now destruct (Dict.get k (nodes s)). Qed.

(** An update of one node that keeps that node in range keeps the table
    in range. *)
Lemma update_node_invariant k f s :
  invariant s ->
  (forall node, Dict.get k (nodes s) = Some node ->
                connections_in_range node -> connections_in_range (f node)) ->
  invariant (Py.final (update_node k f s)).
Proof.
  intros Hinv Hf. rewrite update_node_eq.
  destruct (Dict.get k (nodes s)) as [node|] eqn:Hk; py_simpl; [|exact Hinv].
  unfold invariant in *. py_simpl. apply Forall_values_set; [exact Hinv|].
  apply Hf; [reflexivity|].
  rewrite List.Forall_forall in Hinv. apply Hinv. eapply get_in_values; eauto.
Qed.

(** [acquire_connection] increments exactly when the counter is below
    [max_connections], and refuses otherwise. *)
Lemma acquire_connection_spec k s node :
  Dict.get k (nodes s) = Some node ->
  acquire_connection k s =
    if current_connections node >=? max_connections node then (Returned false, s)
    else (Returned true,
          set_nodes (Dict.set k (with_current_connections (current_connections node + 1) node)) s).
Proof.
  intros Hk. unfold acquire_connection, Dict.mem. py_simpl. rewrite Hk. py_simpl.
  destruct (_ >=? _); [reflexivity|].
  rewrite update_node_eq, Hk. reflexivity.
Qed.

Lemma acquire_connection_unknown k s :
  Dict.get k (nodes s) = None -> acquire_connection k s = (Returned false, s).
Proof.
  intros Hk. unfold acquire_connection, Dict.mem. py_simpl. now rewrite Hk.
Qed.

Lemma acquire_connection_invariant k s :
  invariant s -> invariant (Py.final (acquire_connection k s)).
Proof.
  intros Hinv. destruct (Dict.get k (nodes s)) as [node|] eqn:Hk.
  - rewrite (acquire_connection_spec _ _ _ Hk).
    destruct (_ >=? _) eqn:Hfull; [exact Hinv|]. py_simpl.
    unfold invariant in *. py_simpl. apply Forall_values_set; [exact Hinv|].
    assert (Hn : connections_in_range node).
    { rewrite List.Forall_forall in Hinv. apply Hinv. eapply get_in_values; eauto. }
    unfold connections_in_range in *. cbn. rewrite Z.geb_leb in Hfull.
    apply Z.leb_gt in Hfull. lia.
  - now rewrite acquire_connection_unknown.
Qed.

Lemma floor_release_in_range node :
  connections_in_range node ->
  connections_in_range
    (with_current_connections (Z.max 0 (current_connections node - 1)) node).
Proof. unfold connections_in_range. cbn. lia. Qed.

Lemma release_connection_invariant k s :
  invariant s -> invariant (Py.final (release_connection k s)).
Proof.
  intros Hinv. unfold release_connection. py_simpl.
  destruct (Dict.mem k (nodes s)); py_simpl; [|exact Hinv].
  pose proof (update_node_invariant k
                (fun node => with_current_connections
                               (Z.max 0 (current_connections node - 1)) node)
                s Hinv (fun node _ => floor_release_in_range node)) as Hu.
  py_simpl. destruct (update_node _ _ s) as [[u|e] s']; exact Hu.
Qed.

Lemma record_request_invariant k rt ok s :
  invariant s -> invariant (Py.final (record_request k rt ok s)).
Proof.
  intros Hinv. unfold record_request. py_simpl.
  destruct (Dict.mem k (nodes s)); py_simpl; [|exact Hinv].
  destruct (Dict.get k (request_counters s)) as [count|]; py_simpl; [|exact Hinv].
  destruct (Dict.mem k (response_times s)); py_simpl.
  - destruct (Dict.get k (response_times s)) as [times|]; py_simpl; [|exact Hinv].
    destruct ok; py_simpl; [|exact Hinv].
    match goal with
    | |- context [update_node k ?f ?s1] =>
        pose proof (update_node_invariant k f s1 Hinv
                      (fun node _ => floor_release_in_range node)) as Hu;
        py_simpl; destruct (update_node k f s1) as [[u|e] s']; exact Hu
    end.
  - destruct (Dict.get k (Dict.set k [] (response_times s))) as [times|]; py_simpl;
      [|exact Hinv].
    destruct ok; py_simpl; [|exact Hinv].
    match goal with
    | |- context [update_node k ?f ?s1] =>
        pose proof (update_node_invariant k f s1 Hinv
                      (fun node _ => floor_release_in_range node)) as Hu;
        py_simpl; destruct (update_node k f s1) as [[u|e] s']; exact Hu
    end.
Qed.


(** The pool manager moves [max_connections] only where the counter stays
    below it. *)
Lemma manage_node_connections_invariant k s :
  min_connections_per_node s <= max_connections_per_node s * 2 ->
  invariant s -> capped s ->
  invariant (Py.final (_manage_node_connections k s)) /\
  capped (Py.final (_manage_node_connections k s)).
Proof.
  intros Hcfg Hinv Hcap. unfold _manage_node_connections. py_simpl.
  destruct (Dict.get k (nodes s)) as [node|] eqn:Hk; py_simpl; [|now split].
  assert (Hn : connections_in_range node).
  { unfold invariant in Hinv. rewrite List.Forall_forall in Hinv.
    apply Hinv. eapply get_in_values; eauto. }
  assert (Hc : max_connections node <= max_connections_per_node s * 2).
  { unfold capped in Hcap. rewrite List.Forall_forall in Hcap.
    apply (Hcap node). eapply get_in_values; eauto. }
  unfold connections_in_range in Hn.
  destruct (Qgtb _ _).
  - rewrite update_node_eq, Hk. py_simpl. unfold invariant, capped. py_simpl.
    split; apply Forall_values_set; auto; unfold connections_in_range; cbn; lia.
  - destruct (_ <? _) eqn:Hlow; py_simpl; [|now split].
    apply Z.ltb_lt in Hlow.
    rewrite update_node_eq, Hk. py_simpl. unfold invariant, capped. py_simpl.
    split; apply Forall_values_set; auto; unfold connections_in_range; cbn; lia.
Qed.

(** C9.  In the balancer of three nodes where the two added nodes hold
    100 connections each and have just been found unresponsive, every
    counter is within [0, max_connections].  [rebalance_connections]
    then assigns all 200 connections to the one healthy node, whose
    [max_connections] is 100, and reports success. *)
Theorem rebalance_connections_exceeds_max :
  let s := Scenario.balancer_degraded in
  let r := rebalance_connections s in
  invariant s /\
  Py.result r = Returned true /\
  (exists node,
     Dict.get "redis-1" (nodes (Py.final r)) = Some node /\
     current_connections node = 200 /\ max_connections node = 100) /\
  ~ invariant (Py.final r).
Proof.
  cbv zeta. split; [|split; [|split]].
  - unfold invariant. vm_compute. repeat constructor; discriminate.
  - vm_compute. reflexivity.
  - eexists. split; [vm_compute; reflexivity|]. split; reflexivity.
  - intros Hinv. unfold invariant in Hinv. vm_compute in Hinv.
    inversion Hinv as [|? ? [_ Hmax] _]. apply Hmax. reflexivity.
Qed.


(** The same happens with every node healthy, once the pool manager has
    lowered the [max_connections] of an idle node: the idle node is given
    50 connections against a maximum of 45. *)
Example rebalance_connections_exceeds_lowered_max :
  let s := Scenario.balancer_skewed in
  let r := rebalance_connections s in
  invariant s /\
  healthy_nodes s = ["redis-1"; "redis-2"] /\
  Py.result r = Returned true /\
  (exists node,
     Dict.get "redis-1" (nodes (Py.final r)) = Some node /\
     current_connections node = 50 /\ max_connections node = 45).
Proof.
  cbv zeta. split; [|split; [|split]].
  - unfold invariant. vm_compute. repeat constructor; discriminate.
  - vm_compute. reflexivity.
  - vm_compute. reflexivity.
  - eexists. split; [vm_compute; reflexivity|]. split; reflexivity.
Qed.

(** *** Traffic does not move the healthy nodes *)

Import PyFacts.

Ltac keeps_step :=
  first
    [ apply keeps_ret | apply keeps_raise | apply keeps_get_self | apply keeps_getitem
    | apply keeps_modify; intros; reflexivity
    | apply keeps_bind; [|intros]
    | apply keeps_try_except; [|intros]
    | match goal with
      | |- keeps _ (if ?b then _ else _) => destruct b
      | |- keeps _ (match ?x with _ => _ end) => destruct x
      end ].

Lemma update_node_keeps_health k f : keeps node_health (update_node k f).
Proof. unfold update_node. repeat keeps_step. Qed.

Lemma acquire_connection_keeps_health k : keeps node_health (acquire_connection k).
Proof.
  unfold acquire_connection. repeat first [apply update_node_keeps_health | keeps_step].
Qed.

Lemma release_connection_keeps_health k : keeps node_health (release_connection k).
Proof.
  unfold release_connection. repeat first [apply update_node_keeps_health | keeps_step].
Qed.

Lemma record_request_keeps_health k rt ok : keeps node_health (record_request k rt ok).
Proof.
  unfold record_request. repeat first [apply update_node_keeps_health | keeps_step].
Qed.

Lemma manage_node_connections_keeps_health k :
  keeps node_health (_manage_node_connections k).
Proof.
  unfold _manage_node_connections.
  repeat first [apply update_node_keeps_health | keeps_step].
Qed.

Lemma redistribute_keeps_health healthy target :
  keeps node_health (redistribute healthy target).
Proof.
  induction healthy as [|k rest IH]; cbn [redistribute].
  - apply keeps_ret.
  - repeat first [apply update_node_keeps_health | exact IH | keeps_step].
Qed.

Lemma rebalance_connections_keeps_health : keeps node_health rebalance_connections.
Proof.
  unfold rebalance_connections.
  repeat first [apply redistribute_keeps_health | keeps_step].
Qed.

(** Taking, releasing and rebalancing connections, recording requests and
    the pool manager leave [node_health], hence the list of healthy nodes
    and the node the consistent hash selects, as they were. *)
Lemma traffic_keeps_healthy_nodes {A} (c : M t A) s :
  keeps node_health c -> healthy_nodes (Py.final (c s)) = healthy_nodes s.
Proof. intros Hk. unfold healthy_nodes. now rewrite Hk. Qed.

(** A health-monitor assignment that confirms a node's bit changes
    nothing. *)
Lemma set_same_health k b (d : list (string * bool)) :
  Dict.get k d = Some b -> Dict.set k b d = d.
Proof.
  induction d as [|[k' b'] d IH]; cbn; [discriminate|].
  destruct (String.eqb k k') eqn:Hk.
  - intros [= ->]. apply String.eqb_eq in Hk. now subst.
  - intros Hg. now rewrite IH.
Qed.

End LoadBalancerSpec.

(* ===================================================================== *)
(** * More on the load balancer: bookkeeping, selection, membership *)
(* ===================================================================== *)

Module LoadBalancerMore.
Import LoadBalancer LoadBalancerSpec PyFacts.

Ltac py_simpl :=
  repeat (unfold bind, ret, raise, try_except, get_self, put_self, modify, getitem,
            zoom, Py.result, Py.final, index in *;
          cbn [fst snd negb default from_option Datatypes.id
               algorithm nodes node_weights node_health max_connections_per_node
               min_connections_per_node request_counters response_times
               current_node_index set_algorithm_field set_nodes set_node_weights
               set_node_health set_request_counters set_response_times
               set_current_node_index] in *;
          cbv beta iota).

(** *** Dict facts *)

Lemma dict_set_same {V} k v (d : list (string * V)) :
  Dict.get k d = Some v -> Dict.set k v d = d.
Proof.
  induction d as [|[k' v'] d IH]; cbn; [discriminate|].
  destruct (String.eqb k k') eqn:Hk.
  - intros [= ->]. apply String.eqb_eq in Hk. now subst.
  - intros Hg. now rewrite IH.
Qed.

Lemma dict_set_set {V} k v w (d : list (string * V)) :
  Dict.set k w (Dict.set k v d) = Dict.set k w d.
Proof.
  induction d as [|[k' v'] d IH]; cbn.
  - now rewrite String.eqb_refl.
  - destruct (String.eqb k k') eqn:Hk; cbn; rewrite ?String.eqb_refl, ?Hk; [reflexivity|].
    now rewrite IH.
Qed.

Lemma dict_get_set_eq {V} k v (d : list (string * V)) :
  Dict.get k (Dict.set k v d) = Some v.
Proof.
  induction d as [|[k' v'] d IH]; cbn.
  - now rewrite String.eqb_refl.
  - destruct (String.eqb k k') eqn:Hk; cbn; rewrite ?String.eqb_refl, ?Hk; auto.
Qed.

Lemma dict_get_set_ne {V} k k' v (d : list (string * V)) :
  k <> k' -> Dict.get k' (Dict.set k v d) = Dict.get k' d.
Proof.
  intros Hne. induction d as [|[k0 v0] d IH]; cbn.
  - apply String.eqb_neq in Hne. rewrite String.eqb_sym in Hne. now rewrite Hne.
  - destruct (String.eqb k k0) eqn:Hk; cbn.
    + apply String.eqb_eq in Hk. subst k0.
      assert (Hn : String.eqb k' k = false) by (apply String.eqb_neq; congruence).
      now rewrite Hn.
    + destruct (String.eqb k' k0); auto.
Qed.

(** *** Taking and giving back a connection *)

(** [acquire_connection] answers [True] exactly for a registered node
    whose counter is below its maximum; it then adds one to that node's
    counter and touches no other node.  When it answers [False] the
    balancer is unchanged. *)
Theorem acquire_connection_iff (s : t) (k : string) :
  (Py.result (acquire_connection k s) = Returned true <->
   exists node, Dict.get k (nodes s) = Some node /\
                current_connections node < max_connections node) /\
  (Py.result (acquire_connection k s) = Returned true ->
   forall node, Dict.get k (nodes s) = Some node ->
     Dict.get k (nodes (Py.final (acquire_connection k s)))
       = Some (with_current_connections (current_connections node + 1) node) /\
     forall k', k' <> k ->
       Dict.get k' (nodes (Py.final (acquire_connection k s))) = Dict.get k' (nodes s)) /\
  (Py.result (acquire_connection k s) <> Returned true ->
   acquire_connection k s = (Returned false, s)).
Proof.
  destruct (Dict.get k (nodes s)) as [node|] eqn:Hk.
  - rewrite (acquire_connection_spec _ _ _ Hk).
    destruct (_ >=? _) eqn:Hfull; py_simpl.
    + rewrite Z.geb_leb in Hfull. apply Z.leb_le in Hfull.
      split; [|split]; [split|..]; try discriminate; try reflexivity.
      intros (n & [= <-] & Hlt). lia.
    + rewrite Z.geb_leb in Hfull. apply Z.leb_gt in Hfull.
      split; [|split]; [split|..]; try congruence.
      * intros _. eauto.
      * intros _ n [= <-]. split; [apply dict_get_set_eq|].
        intros k' Hne. apply dict_get_set_ne. congruence.
  - rewrite (acquire_connection_unknown _ _ Hk). py_simpl.
    split; [|split]; [split|..]; try discriminate; try reflexivity.
    intros (n & Hn & _). discriminate.
Qed.

Lemma release_connection_spec k s node :
  Dict.get k (nodes s) = Some node ->
  release_connection k s =
    (Returned tt,
     set_nodes (Dict.set k (with_current_connections
                              (Z.max 0 (current_connections node - 1)) node)) s).
Proof.
  intros Hk. unfold release_connection, Dict.mem. py_simpl. rewrite Hk. py_simpl.
  rewrite update_node_eq, Hk. reflexivity.
Qed.

(** A connection taken and given back leaves the balancer exactly as it
    was, provided the node's counter was not negative. *)
Theorem acquire_release_round_trip (s : t) (k : string) :
  invariant s ->
  Py.result (acquire_connection k s) = Returned true ->
  Py.final (release_connection k (Py.final (acquire_connection k s))) = s.
Proof.
  intros Hinv Hacq.
  destruct (Dict.get k (nodes s)) as [node|] eqn:Hk.
  2:{ rewrite (acquire_connection_unknown _ _ Hk) in Hacq. discriminate. }
  assert (Hn : connections_in_range node).
  { unfold invariant in Hinv. rewrite List.Forall_forall in Hinv.
    apply Hinv. eapply get_in_values; eauto. }
  rewrite (acquire_connection_spec _ _ _ Hk) in *.
  destruct (_ >=? _); [discriminate|]. py_simpl.
  erewrite release_connection_spec by (py_simpl; apply dict_get_set_eq).
  py_simpl. unfold set_nodes. py_simpl. rewrite dict_set_set.
  unfold connections_in_range in Hn.
  replace (with_current_connections _ _) with node.
  - rewrite (dict_set_same _ _ _ Hk). now destruct s.
  - destruct node. unfold with_current_connections. cbn in *. f_equal. lia.
Qed.

Lemma acquire_release_round_trip_witness :
  Py.final (release_connection "redis-2"
              (Py.final (acquire_connection "redis-2" Scenario.balancer_busy)))
    = Scenario.balancer_busy.
Proof.
  apply (acquire_release_round_trip Scenario.balancer_busy "redis-2").
  - unfold invariant. vm_compute. repeat constructor; discriminate.
  - vm_compute. reflexivity.
Defined.


(** *** The counters stay in range *)

(** Taking a connection, releasing one and recording a request keep every
    node's counter within [0, max_connections]. *)
Theorem bookkeeping_keeps_range (s : t) (k : string) (rt : Q) (ok : bool) :
  invariant s ->
  invariant (Py.final (acquire_connection k s)) /\
  invariant (Py.final (release_connection k s)) /\
  invariant (Py.final (record_request k rt ok s)).
Proof.
  intros Hinv. split; [|split].
  - now apply acquire_connection_invariant.
  - now apply release_connection_invariant.
  - now apply record_request_invariant.
Qed.

Lemma bookkeeping_keeps_range_witness :
  invariant (Py.final (acquire_connection "redis-2" Scenario.balancer_busy)) /\
  invariant (Py.final (release_connection "redis-2" Scenario.balancer_busy)) /\
  invariant (Py.final (record_request "redis-2" (3 # 1) true Scenario.balancer_busy)).
Proof.
  apply (bookkeeping_keeps_range Scenario.balancer_busy "redis-2" (3 # 1) true).
  unfold invariant. vm_compute. repeat constructor; discriminate.
Defined.

Lemma manage_keeps_config k :
  keeps max_connections_per_node (_manage_node_connections k) /\
  keeps min_connections_per_node (_manage_node_connections k).
Proof.
  split; unfold _manage_node_connections, update_node;
    repeat first
      [ apply keeps_ret | apply keeps_raise | apply keeps_get_self | apply keeps_getitem
      | apply keeps_modify; intros; reflexivity
      | apply keeps_bind; [|intros]
      | apply keeps_try_except; [|intros]
      | match goal with
        | |- keeps _ (if ?b then _ else _) => destruct b
        end ].
Qed.

Lemma manage_pass_keeps_range ids : forall s,
  min_connections_per_node s <= max_connections_per_node s * 2 ->
  invariant s -> capped s ->
  invariant (Py.final (manage_pass ids s)) /\ capped (Py.final (manage_pass ids s)).
Proof.
  induction ids as [|k ids IH]; intros s Hcfg Hinv Hcap; cbn [manage_pass].
  - now split.
  - destruct (manage_node_connections_invariant k s Hcfg Hinv Hcap) as [Hi Hc].
    destruct (manage_keeps_config k) as [Hmax Hmin].
    specialize (Hmax s). specialize (Hmin s).
    assert (Hret : exists u s1, _manage_node_connections k s = (Returned u, s1)).
    { unfold _manage_node_connections. py_simpl.
      destruct (Dict.get k (nodes s)); py_simpl; [|eauto].
      destruct (Qgtb _ _); [rewrite update_node_eq; destruct (Dict.get k (nodes s)); eauto|].
      destruct (_ <? _); [rewrite update_node_eq; destruct (Dict.get k (nodes s)); eauto|].
      eauto. }
    destruct Hret as (u & s1 & Hs1). py_simpl. rewrite Hs1 in *. py_simpl.
    apply IH; [rewrite Hmax, Hmin; exact Hcfg | exact Hi | exact Hc].
Qed.

(** A pass of the connection-pool manager over all nodes moves
    [max_connections] only within [.., 2 * max_connections_per_node] and
    never below a node's counter. *)
Theorem pool_manager_keeps_range (s : t) :
  min_connections_per_node s <= max_connections_per_node s * 2 ->
  invariant s -> capped s ->
  invariant (Py.final (_connection_pool_manager_cycle s)) /\
  capped (Py.final (_connection_pool_manager_cycle s)).
Proof.
  intros Hcfg Hinv Hcap. unfold _connection_pool_manager_cycle. py_simpl.
  now apply manage_pass_keeps_range.
Qed.

Lemma pool_manager_keeps_range_witness :
  invariant (Py.final (_connection_pool_manager_cycle Scenario.balancer_busy)) /\
  capped (Py.final (_connection_pool_manager_cycle Scenario.balancer_busy)).
Proof.
  apply (pool_manager_keeps_range Scenario.balancer_busy).
  - vm_compute. discriminate.
  - unfold invariant. vm_compute. repeat constructor; discriminate.
  - unfold capped. vm_compute. repeat constructor; discriminate.
Defined.


(** *** Round-robin selection *)

Lemma get_node_round_robin (s : t) tenant key :
  algorithm s = "round_robin" ->
  healthy_nodes s <> [] ->
  let n := Z.of_nat (length (healthy_nodes s)) in
  get_node tenant key s =
    (Returned (nth_error (healthy_nodes s) (Z.to_nat (current_node_index s mod n))),
     set_current_node_index ((current_node_index s + 1) mod n) s).
Proof.
  intros Halg Hne n. unfold get_node. py_simpl. rewrite Halg.
  cbn [String.eqb Ascii.eqb Bool.eqb andb].
  destruct (healthy_nodes s) as [|n0 l] eqn:Hh; [congruence|].
  unfold _round_robin_select. py_simpl. fold n.
  destruct (nth_error_in_range (n0 :: l) (current_node_index s)) as (a & Ha & _);
    [discriminate|].
  fold n in Ha. now rewrite Ha.
Qed.

(** Under round robin, with the healthy nodes unchanged, the call number
    [k] (counting from 0) returns the healthy node at position
    [(index + k) mod n]: the nodes are served in turn, each once in every
    [n] calls. *)
Theorem round_robin_in_turn (tenant : string) (key : option string) (k : nat) :
  forall s : t,
    algorithm s = "round_robin" ->
    healthy_nodes s <> [] ->
    let n := Z.of_nat (length (healthy_nodes s)) in
    Py.result (get_node tenant key (Scenario.times k (get_node tenant key) s)) =
      Returned (nth_error (healthy_nodes s)
                  (Z.to_nat ((current_node_index s + Z.of_nat k) mod n))).
Proof.
  induction k as [|k IH]; intros s Halg Hne n.
  - cbn [Scenario.times]. rewrite (get_node_round_robin s tenant key Halg Hne).
    py_simpl. fold n. now rewrite Z.add_0_r.
  - cbn [Scenario.times]. rewrite (get_node_round_robin s tenant key Halg Hne).
    py_simpl. fold n.
    set (s1 := set_current_node_index ((current_node_index s + 1) mod n) s).
    assert (Hh : healthy_nodes s1 = healthy_nodes s) by reflexivity.
    specialize (IH s1 Halg). rewrite Hh in IH. specialize (IH Hne). cbv zeta in IH.
    rewrite IH. fold n. subst s1. py_simpl.
    assert (Hn : n <> 0).
    { subst n. destruct (healthy_nodes s); [congruence | cbn; lia]. }
    do 3 f_equal.
    rewrite Z.add_mod_idemp_l by exact Hn. f_equal. lia.
Qed.

Lemma round_robin_in_turn_witness :
  Py.result
    (get_node "acme" None
       (Scenario.times 4 (get_node "acme" None)
          (set_algorithm_field "round_robin" Scenario.balancer)))
    = Returned (Some "redis-2").
Proof.
  apply (round_robin_in_turn "acme" None 4
           (set_algorithm_field "round_robin" Scenario.balancer)).
  - reflexivity.
  - vm_compute. discriminate.
Defined.


(** *** Least-connections selection *)

Lemma least_loop_spec (s : t) : forall l p1 sel p2,
  (forall id, In id l -> Dict.get id (nodes s) <> None) ->
  (forall x, In x p1 -> connections_of s sel < connections_of s x) ->
  (forall x, In x p2 -> connections_of s sel <= connections_of s x) ->
  exists r l1 l2,
    least_loop l (Some (connections_of s sel)) (Some sel) s = (Returned (Some r), s) /\
    (p1 ++ sel :: p2 ++ l = l1 ++ r :: l2)%list /\
    (forall x, In x l1 -> connections_of s r < connections_of s x) /\
    (forall x, In x l2 -> connections_of s r <= connections_of s x).
Proof.
  induction l as [|x l IH]; intros p1 sel p2 Hreg H1 H2; cbn [least_loop].
  - exists sel, p1, p2. rewrite app_nil_r. now repeat split.
  - py_simpl.
    destruct (Dict.get x (nodes s)) as [node|] eqn:Hx;
      [|exfalso; apply (Hreg x); [now left | exact Hx]].
    py_simpl.
    assert (Hcx : connections_of s x = current_connections node)
      by (unfold connections_of; now rewrite Hx).
    rewrite <- Hcx.
    destruct (connections_of s x <? connections_of s sel) eqn:Hlt.
    + apply Z.ltb_lt in Hlt.
      destruct (IH (p1 ++ sel :: p2)%list x []) as (r & l1 & l2 & Hrun & Heq & Hl1 & Hl2).
      * intros id Hid. apply Hreg. now right.
      * intros y Hy. apply in_app_or in Hy as [Hy | [<- | Hy]].
        -- specialize (H1 y Hy). lia.
        -- exact Hlt.
        -- specialize (H2 y Hy). lia.
      * intros y [].
      * exists r, l1, l2. split; [exact Hrun|]. split; [|now split].
        rewrite <- Heq. cbn [app]. now rewrite <- app_assoc.
    + apply Z.ltb_ge in Hlt.
      destruct (IH p1 sel (p2 ++ [x])%list) as (r & l1 & l2 & Hrun & Heq & Hl1 & Hl2).
      * intros id Hid. apply Hreg. now right.
      * exact H1.
      * intros y Hy. apply in_app_or in Hy as [Hy | [<- | []]]; [now apply H2 | exact Hlt].
      * exists r, l1, l2. split; [exact Hrun|]. split; [|now split].
        rewrite <- Heq. now rewrite <- app_assoc.
Qed.

(** Under least connections, when every healthy node is in the node
    table, [get_node] returns the first healthy node (in the order of
    [node_health]) among those with the fewest connections, and changes
    nothing. *)
Theorem least_connections_first_minimum (s : t) (tenant : string) (key : option string) :
  algorithm s = "least_connections" ->
  healthy_nodes s <> [] ->
  (forall id, In id (healthy_nodes s) -> Dict.get id (nodes s) <> None) ->
  exists r l1 l2,
    get_node tenant key s = (Returned (Some r), s) /\
    healthy_nodes s = (l1 ++ r :: l2)%list /\
    (forall x, In x l1 -> connections_of s r < connections_of s x) /\
    (forall x, In x l2 -> connections_of s r <= connections_of s x).
Proof.
  intros Halg Hne Hreg. unfold get_node. py_simpl. rewrite Halg.
  cbn [String.eqb Ascii.eqb Bool.eqb andb].
  destruct (healthy_nodes s) as [|x l] eqn:Hh; [congruence|].
  unfold _least_connections_select. cbn [least_loop]. py_simpl.
  destruct (Dict.get x (nodes s)) as [node|] eqn:Hx;
    [|exfalso; apply (Hreg x); [now left | exact Hx]].
  py_simpl.
  assert (Hcx : connections_of s x = current_connections node)
    by (unfold connections_of; now rewrite Hx).
  rewrite <- Hcx.
  destruct (least_loop_spec s l [] x []) as (r & l1 & l2 & Hrun & Heq & Hl1 & Hl2).
  - intros id Hid. apply Hreg. now right.
  - intros y [].
  - intros y [].
  - exists r, l1, l2. rewrite Hrun. py_simpl. now repeat split.
Qed.

Lemma least_connections_first_minimum_witness :
  exists r l1 l2,
    get_node "acme" None (set_algorithm_field "least_connections" Scenario.balancer_busy)
      = (Returned (Some r), set_algorithm_field "least_connections" Scenario.balancer_busy) /\
    healthy_nodes (set_algorithm_field "least_connections" Scenario.balancer_busy)
      = (l1 ++ r :: l2)%list /\
    (forall x, In x l1 ->
       connections_of (set_algorithm_field "least_connections" Scenario.balancer_busy) r
       < connections_of (set_algorithm_field "least_connections" Scenario.balancer_busy) x) /\
    (forall x, In x l2 ->
       connections_of (set_algorithm_field "least_connections" Scenario.balancer_busy) r
       <= connections_of (set_algorithm_field "least_connections" Scenario.balancer_busy) x).
Proof.
  apply (least_connections_first_minimum
           (set_algorithm_field "least_connections" Scenario.balancer_busy) "acme" None).
  - reflexivity.
  - vm_compute. discriminate.
  - intros id Hid. vm_compute in Hid.
    destruct Hid as [<- | [<- | [<- | []]]]; vm_compute; discriminate.
Defined.


(** *** Health gating *)

Lemma least_loop_member (s : t) r : forall l m sel s',
  least_loop l m sel s = (Returned (Some r), s') -> In r l \/ sel = Some r.
Proof.
  induction l as [|x l IH]; intros m sel s' Hrun; cbn [least_loop] in Hrun; py_simpl.
  - right. congruence.
  - destruct (Dict.get x (nodes s)) as [node|]; py_simpl; [|discriminate].
    destruct (match m with Some m0 => _ | None => true end).
    + apply IH in Hrun as [Hin | [= <-]]; [left; now right | left; now left].
    + apply IH in Hrun as [Hin | Hsel]; [left; now right | now right].
Qed.

(** Whatever the algorithm, [get_node] raises nothing, returns no node
    when no node is healthy, and never returns a node that is not
    healthy. *)
Theorem get_node_only_healthy (s : t) (tenant : string) (key : option string) :
  (exists o, Py.result (get_node tenant key s) = Returned o) /\
  (healthy_nodes s = [] -> get_node tenant key s = (Returned None, s)) /\
  (forall n, Py.result (get_node tenant key s) = Returned (Some n) ->
             In n (healthy_nodes s)).
Proof.
  unfold get_node. py_simpl.
  destruct (healthy_nodes s) as [|x l] eqn:Hh.
  { split; [eauto|]. split; [reflexivity | discriminate]. }
  assert (Hne : x :: l <> []) by discriminate.
  destruct (String.eqb (algorithm s) "round_robin").
  { unfold _round_robin_select. py_simpl.
    destruct (nth_error_in_range (x :: l) (current_node_index s) Hne) as (a & Ha & Hin).
    rewrite Ha. py_simpl. split; [eauto|]. split; [discriminate|].
    intros n [= <-]. exact Hin. }
  destruct (String.eqb (algorithm s) "least_connections").
  { unfold _least_connections_select.
    destruct (least_loop (x :: l) None None s) as [[o|e] s'] eqn:Hrun; py_simpl.
    - split; [eauto|]. split; [discriminate|].
      intros n [= ->]. apply least_loop_member in Hrun as [Hin | Hsel];
        [exact Hin | discriminate].
    - split; [eauto|]. split; discriminate. }
  destruct (String.eqb (algorithm s) "consistent_hash").
  { unfold _consistent_hash_select. py_simpl.
    destruct (nth_error_in_range (x :: l)
                (MD5.hexdigest_int (hash_key tenant key)) Hne) as (a & Ha & Hin).
    rewrite Ha. py_simpl. split; [eauto|]. split; [discriminate|].
    intros n [= <-]. exact Hin. }
  py_simpl. split; [eauto|]. split; [discriminate|].
  intros n [= <-]. now left.
Qed.


Lemma get_node_only_healthy_witness :
  In "redis-1" (healthy_nodes Scenario.balancer_degraded) /\
  get_node "acme" None (set_node_health (fun _ => []) Scenario.balancer)
    = (Returned None, set_node_health (fun _ => []) Scenario.balancer).
Proof.
  split.
  - apply (get_node_only_healthy Scenario.balancer_degraded "acme" (Some "session:42")).
    vm_compute. reflexivity.
  - apply (get_node_only_healthy (set_node_health (fun _ => []) Scenario.balancer)).
    reflexivity.
Defined.

(** *** Membership *)

Lemma dict_set_absent {V} k v (d : list (string * V)) :
  Dict.get k d = None -> Dict.set k v d = (d ++ [(k, v)])%list.
Proof.
  induction d as [|[k' v'] d IH]; cbn; [reflexivity|].
  destruct (String.eqb k k'); [discriminate|]. intros Hg. now rewrite IH.
Qed.


(** [add_node] refuses an id that is in the node table and changes
    nothing.  A new id is entered with no connection, the configured
    maximum and a healthy bit; the other nodes are untouched; if the id
    has no health entry yet, the node becomes the last of the healthy
    nodes; and the counters stay in range when the configured maximum is
    not negative. *)
Theorem add_node_spec (s : t) (id host : string) (port : Z) (w : Q) :
  let r := add_node id host port w s in
  (Dict.get id (nodes s) <> None -> r = (Returned false, s)) /\
  (Dict.get id (nodes s) = None ->
     Py.result r = Returned true /\
     Dict.get id (nodes (Py.final r))
       = Some (mkNode id host port w (max_connections_per_node s) 0 "online") /\
     Dict.get id (node_health (Py.final r)) = Some true /\
     (forall k, k <> id ->
        Dict.get k (nodes (Py.final r)) = Dict.get k (nodes s) /\
        Dict.get k (node_health (Py.final r)) = Dict.get k (node_health s)) /\
     (Dict.get id (node_health s) = None ->
        healthy_nodes (Py.final r) = (healthy_nodes s ++ [id])%list) /\
     (0 <= max_connections_per_node s -> invariant s -> invariant (Py.final r))).
Proof.
  cbv zeta. unfold add_node, Dict.mem. py_simpl.
  destruct (Dict.get id (nodes s)) as [node|] eqn:Hid; py_simpl.
  - split; [reflexivity | discriminate].
  - split; [congruence|]. intros _.
    split; [reflexivity|]. split; [apply dict_get_set_eq|].
    split; [apply dict_get_set_eq|]. split; [|split].
    + intros k Hne. split; apply dict_get_set_ne; congruence.
    + intros Hh. unfold healthy_nodes. py_simpl.
      rewrite (dict_set_absent _ _ _ Hh), List.filter_app, List.map_app. reflexivity.
    + intros Hmax Hinv. unfold invariant in *. py_simpl.
      apply Forall_values_set; [exact Hinv|].
      unfold connections_in_range. cbn. lia.
Qed.

Lemma add_node_spec_witness :
  add_node "redis-2" "10.0.0.9" 6379 1%Q Scenario.balancer
    = (Returned false, Scenario.balancer) /\
  healthy_nodes (Py.final (add_node "redis-4" "10.0.0.4" 6379 1%Q Scenario.balancer))
    = (healthy_nodes Scenario.balancer ++ ["redis-4"])%list.
Proof.
  split.
  - apply (add_node_spec Scenario.balancer "redis-2" "10.0.0.9" 6379 1%Q).
    vm_compute. discriminate.
  - apply (add_node_spec Scenario.balancer "redis-4" "10.0.0.4" 6379 1%Q);
      vm_compute; reflexivity.
Defined.


Lemma dict_get_del_absent {V} k k' (d : list (string * V)) :
  ~ In k' (Dict.keys d) -> Dict.get k' (Dict.del k d) = None.
Proof.
  induction d as [|[k0 v0] d IH]; cbn; [reflexivity|]. intros Hn.
  assert (Hk0 : String.eqb k' k0 = false) by (apply String.eqb_neq; intuition congruence).
  destruct (String.eqb k k0); cbn.
  - clear IH. induction d as [|[k1 v1] d IH]; cbn; [reflexivity|].
    cbn in Hn. destruct (String.eqb k' k1) eqn:Hk1.
    + apply String.eqb_eq in Hk1. subst. tauto.
    + apply IH. tauto.
  - rewrite Hk0. apply IH. tauto.
Qed.







(** *** Request statistics *)





(** *** The health monitor *)

Lemma check_node_health_spec k rtm s node :
  Dict.get k (nodes s) = Some node ->
  _check_node_health k rtm s =
    (Returned (answers_in_time rtm),
     set_nodes (Dict.set k (with_status (if answers_in_time rtm then "online" else "offline")
                              node)) s).
Proof.
  intros Hk. unfold _check_node_health, answers_in_time. py_simpl. rewrite Hk. py_simpl.
  rewrite update_node_eq, Hk. reflexivity.
Qed.

Lemma dict_keys_set_present {V} k v (d : list (string * V)) :
  Dict.get k d <> None -> Dict.keys (Dict.set k v d) = Dict.keys d.
Proof.
  induction d as [|[k0 v0] d IH]; cbn; [congruence|].
  destruct (String.eqb k k0) eqn:Hk; cbn.
  - intros _. apply String.eqb_eq in Hk. now subst.
  - intros Hg. f_equal. now apply IH.
Qed.

Lemma dict_get_in_keys {V} k (d : list (string * V)) :
  Dict.get k d <> None <-> In k (Dict.keys d).
Proof.
  induction d as [|[k0 v0] d IH]; cbn; [intuition congruence|].
  destruct (String.eqb k k0) eqn:Hk.
  - apply String.eqb_eq in Hk. subst. intuition congruence.
  - apply String.eqb_neq in Hk. rewrite IH. intuition congruence.
Qed.

Lemma health_pass_spec (probe : string -> Q) : forall ids s,
  (forall id, In id ids -> In id (Dict.keys (nodes s))) ->
  (forall id, In id ids -> In id (Dict.keys (node_health s))) ->
  exists s',
    health_pass ids probe s = (Returned tt, s') /\
    Dict.keys (nodes s') = Dict.keys (nodes s) /\
    Dict.keys (node_health s') = Dict.keys (node_health s) /\
    (forall id, In id ids ->
       Dict.get id (node_health s') = Some (answers_in_time (probe id))) /\
    (forall id, ~ In id ids ->
       Dict.get id (node_health s') = Dict.get id (node_health s)) /\
    (forall id, connections_of s' id = connections_of s id).
Proof.
  induction ids as [|k ids IH]; intros s Hn Hh; cbn [health_pass].
  - exists s. py_simpl. repeat split; intros id []. 
  - assert (Hk : In k (Dict.keys (nodes s))) by (apply Hn; now left).
    apply dict_get_in_keys in Hk.
    destruct (Dict.get k (nodes s)) as [node|] eqn:Hnode; [clear Hk | congruence].
    py_simpl. rewrite (check_node_health_spec _ _ _ _ Hnode). py_simpl.
    set (s1 := set_node_health (Dict.set k (answers_in_time (probe k)))
                 (set_nodes (Dict.set k (with_status
                    (if answers_in_time (probe k) then "online" else "offline") node)) s)).
    assert (Hkn : Dict.keys (nodes s1) = Dict.keys (nodes s)).
    { subst s1. py_simpl. apply dict_keys_set_present. congruence. }
    assert (Hkh : Dict.keys (node_health s1) = Dict.keys (node_health s)).
    { subst s1. py_simpl. apply dict_keys_set_present.
      apply dict_get_in_keys. apply Hh. now left. }
    destruct (IH s1) as (s' & Hrun & Hn' & Hh' & Hset & Hother & Hconn).
    + intros id Hid. rewrite Hkn. apply Hn. now right.
    + intros id Hid. rewrite Hkh. apply Hh. now right.
    + exists s'. split; [exact Hrun|].
      split; [congruence|]. split; [congruence|]. split; [|split].
      * intros id [<- | Hid].
        -- destruct (in_dec string_dec k ids) as [Hin | Hnin]; [now apply Hset|].
           rewrite (Hother k Hnin). subst s1. py_simpl. apply dict_get_set_eq.
        -- now apply Hset.
      * intros id Hnin.
        assert (Hne : k <> id) by (intros ->; apply Hnin; now left).
        rewrite Hother by (intros Hin; apply Hnin; now right).
        subst s1. py_simpl. now apply dict_get_set_ne.
      * intros id. rewrite Hconn. subst s1. unfold connections_of. py_simpl.
        destruct (string_dec k id) as [<- | Hne].
        -- rewrite dict_get_set_eq, Hnode. reflexivity.
        -- now rewrite dict_get_set_ne.
Qed.

Lemma healthy_of_verdicts (f : string -> bool) : forall d : list (string * bool),
  List.NoDup (Dict.keys d) ->
  (forall k, In k (Dict.keys d) -> Dict.get k d = Some (f k)) ->
  List.map fst (List.filter snd d) = List.filter f (Dict.keys d).
Proof.
  induction d as [|[k0 b0] d IH]; cbn; [reflexivity|]. intros Hnd Hget.
  apply List.NoDup_cons_iff in Hnd as [Hnin Hnd].
  assert (Hb : b0 = f k0).
  { specialize (Hget k0 (or_introl eq_refl)). rewrite String.eqb_refl in Hget. congruence. }
  assert (Hrest : List.map fst (List.filter snd d) = List.filter f (Dict.keys d)).
  { apply IH; [exact Hnd|]. intros k Hk.
    specialize (Hget k (or_intror Hk)).
    destruct (String.eqb k k0) eqn:Hk0; [|exact Hget].
    apply String.eqb_eq in Hk0. subst. contradiction. }
  rewrite <- Hb. destruct b0; cbn; now rewrite Hrest.
Qed.

(** One pass of the health monitor, on a balancer whose health map has the
    keys of the node table: afterwards the healthy nodes are exactly the
    nodes whose probe answered in less than 1000 ms, in table order, and
    no connection counter has moved. *)
Theorem health_monitor_cycle_spec (s : t) (probe : string -> Q) :
  List.NoDup (Dict.keys (nodes s)) ->
  Dict.keys (node_health s) = Dict.keys (nodes s) ->
  let s' := Py.final (_health_monitor_cycle probe s) in
  healthy_nodes s' =
    List.filter (fun id => answers_in_time (probe id)) (Dict.keys (nodes s)) /\
  (forall id, connections_of s' id = connections_of s id).
Proof.
  intros Hnd Hkeys. cbv zeta. unfold _health_monitor_cycle. py_simpl.
  destruct (health_pass_spec probe (Dict.keys (nodes s)) s)
    as (s' & Hrun & Hn' & Hh' & Hset & _ & Hconn).
  - auto.
  - intros id Hid. now rewrite Hkeys.
  - rewrite Hrun. py_simpl. split; [|exact Hconn].
    unfold healthy_nodes.
    rewrite (healthy_of_verdicts (fun id => answers_in_time (probe id))).
    + now rewrite Hh', Hkeys.
    + now rewrite Hh', Hkeys.
    + intros k Hk. apply Hset. now rewrite Hh', Hkeys in Hk.
Qed.

Lemma health_monitor_cycle_spec_witness :
  healthy_nodes (Py.final (_health_monitor_cycle Scenario.slow_probe Scenario.balancer))
    = ["redis-1"].
Proof.
  destruct (health_monitor_cycle_spec Scenario.balancer Scenario.slow_probe) as [Hh _].
  - vm_compute. repeat constructor; intros Hin;
      repeat (destruct Hin as [Hin | Hin]; [discriminate Hin|]); exact Hin.
  - vm_compute. reflexivity.
  - rewrite Hh. vm_compute. reflexivity.
Defined.


Lemma acquire_connection_iff_witness :
  Py.result (acquire_connection "redis-2" Scenario.balancer_busy) = Returned true /\
  acquire_connection "redis-2" Scenario.balancer_degraded
    = (Returned false, Scenario.balancer_degraded).
Proof.
  split.
  - apply (acquire_connection_iff Scenario.balancer_busy "redis-2").
    eexists. split; [vm_compute; reflexivity | vm_compute; reflexivity].
  - apply (acquire_connection_iff Scenario.balancer_degraded "redis-2").
    vm_compute. discriminate.
Defined.

(** *** Rebalancing *)

Lemma redistribute_spec (target : Z) : forall l s,
  (forall id, In id l -> Dict.get id (nodes s) <> None) ->
  exists s',
    redistribute l target s = (Returned tt, s') /\
    node_health s' = node_health s /\
    (forall id, Dict.get id (nodes s') <> None <-> Dict.get id (nodes s) <> None) /\
    (forall id, In id l -> connections_of s' id = target) /\
    (forall id, ~ In id l -> Dict.get id (nodes s') = Dict.get id (nodes s)).
Proof.
  induction l as [|k l IH]; intros s Hreg; cbn [redistribute].
  - exists s. py_simpl. repeat split; try tauto. intros id [].
  - py_simpl.
    destruct (Dict.get k (nodes s)) as [node|] eqn:Hk;
      [|exfalso; apply (Hreg k); [now left | exact Hk]].
    py_simpl.
    set (s1 := set_nodes (Dict.set k (with_current_connections target node)) s).
    assert (Hstep :
      (if negb (current_connections node =? target)
       then update_node k (with_current_connections target)
       else fun s0 => (Returned tt, s0)) s = (Returned tt, s1) \/
      ((if negb (current_connections node =? target)
        then update_node k (with_current_connections target)
        else fun s0 => (Returned tt, s0)) s = (Returned tt, s) /\
       current_connections node = target)).
    { destruct (current_connections node =? target) eqn:He; cbn [negb].
      - right. split; [reflexivity | now apply Z.eqb_eq].
      - left. rewrite update_node_eq, Hk. reflexivity. }
    assert (Hs1 : forall id, Dict.get id (nodes s1) <> None <-> Dict.get id (nodes s) <> None).
    { intros id. subst s1. py_simpl. destruct (string_dec k id) as [<- | Hne].
      - rewrite dict_get_set_eq, Hk. intuition congruence.
      - now rewrite dict_get_set_ne. }
    destruct Hstep as [Hrun | [Hrun Heq]]; rewrite Hrun; py_simpl.
    + destruct (IH s1) as (s' & Hr & Hh & Hdom & Hset & Hother).
      { intros id Hid. apply Hs1. apply Hreg. now right. }
      exists s'. split; [exact Hr|]. split; [exact Hh|]. split; [|split].
      * intros id. rewrite Hdom. apply Hs1.
      * intros id [<- | Hid]; [|now apply Hset].
        destruct (in_dec string_dec k l) as [Hin | Hnin]; [now apply Hset|].
        unfold connections_of. rewrite (Hother k Hnin). subst s1. py_simpl.
        now rewrite dict_get_set_eq.
      * intros id Hnin.
        assert (Hne : k <> id) by (intros ->; apply Hnin; now left).
        rewrite Hother by (intros Hin; apply Hnin; now right).
        subst s1. py_simpl. now apply dict_get_set_ne.
    + destruct (IH s) as (s' & Hr & Hh & Hdom & Hset & Hother).
      { intros id Hid. apply Hreg. now right. }
      exists s'. split; [exact Hr|]. split; [exact Hh|]. split; [exact Hdom|]. split.
      * intros id [<- | Hid]; [|now apply Hset].
        destruct (in_dec string_dec k l) as [Hin | Hnin]; [now apply Hset|].
        unfold connections_of. rewrite (Hother k Hnin), Hk. exact Heq.
      * intros id Hnin. apply Hother. intros Hin. apply Hnin. now right.
Qed.

(** [rebalance_connections] does nothing and answers [False] when no node
    is healthy.  Otherwise, when the healthy nodes are in the node table,
    it answers [True], gives every healthy node the same counter, the
    total over all nodes divided (rounding down) by the number of healthy
    nodes, and leaves the unhealthy nodes with the connections they had. *)
Theorem rebalance_connections_spec (s : t) :
  let r := rebalance_connections s in
  (healthy_nodes s = [] -> r = (Returned false, s)) /\
  (healthy_nodes s <> [] ->
   (forall id, In id (healthy_nodes s) -> Dict.get id (nodes s) <> None) ->
     Py.result r = Returned true /\
     healthy_nodes (Py.final r) = healthy_nodes s /\
     (forall id, In id (healthy_nodes s) ->
        connections_of (Py.final r) id
          = total_connections s / Z.of_nat (length (healthy_nodes s))) /\
     (forall id, ~ In id (healthy_nodes s) ->
        Dict.get id (nodes (Py.final r)) = Dict.get id (nodes s))).
Proof.
  cbv zeta. unfold rebalance_connections. py_simpl.
  destruct (healthy_nodes s) as [|x l] eqn:Hh.
  - split; [reflexivity | congruence].
  - split; [discriminate|]. intros _ Hreg.
    destruct (redistribute_spec
                (total_connections s / Z.of_nat (length (x :: l))) (x :: l) s Hreg)
      as (s' & Hrun & Hhealth & _ & Hset & Hother).
    rewrite Hrun. py_simpl. split; [reflexivity|].
    split; [unfold healthy_nodes in *; now rewrite Hhealth|].
    split; [exact Hset | exact Hother].
Qed.

Lemma rebalance_connections_spec_witness :
  connections_of (Py.final (rebalance_connections Scenario.balancer_busy)) "redis-1" = 3 /\
  connections_of (Py.final (rebalance_connections Scenario.balancer_busy)) "redis-3" = 3.
Proof.
  destruct (rebalance_connections_spec Scenario.balancer_busy) as [_ Hsome].
  destruct Hsome as (_ & _ & Hset & _).
  - vm_compute. discriminate.
  - intros id Hid. vm_compute in Hid.
    destruct Hid as [<- | [<- | [<- | []]]]; vm_compute; discriminate.
  - split.
    + rewrite Hset; [vm_compute; reflexivity | vm_compute; tauto].
    + rewrite Hset; [vm_compute; reflexivity | vm_compute; tauto].
Defined.

End LoadBalancerMore.
(* ===================================================================== *)
(** * Properties of the command dispatch *)
(* ===================================================================== *)

Module OrchestratorSpec.
Import Orchestrator.

Ltac py_simpl :=
  repeat (unfold bind, ret, raise, try_except, get_self, put_self, modify, getitem,
            zoom, Py.result, Py.final in *;
          cbn [fst snd] in *; cbv beta iota).









(** The commands of the vocabulary that have no branch, such as
    [create_tenant] and [cache_set], which the command-line front end and
    the test-suite send, get the reply of an unknown command. *)
Example vocabulary_without_branch :
  Forall (fun c =>
            Py.result (execute_command c ∅ (1000 # 1) Scenario.orchestrator)
              = Returned (unknown_command c))
    [ "create_tenant"; "delete_tenant"; "list_tenants"; "get_tenant_details";
      "modify_tenant_quotas"; "cache_get"; "cache_set"; "cache_delete";
      "get_cluster_status"; "scale_cluster"; "get_scaling_status"; "configure_scaling";
      "acknowledge_alert"; "resolve_alert"; "health_check"; "load_test" ].
Proof. repeat constructor. Qed.

End OrchestratorSpec.
